(** * f5-fast-core: the template engine of [lib/template.js]

    A shallow embedding of the schema inference ([_mergeSchemaInto],
    [_isPropRequired], [_handleParsed], [_parametersSchemaFromTemplate]),
    of the render pipeline ([getCombinedParameters], [validateParameters],
    [transformParameters], [render] and the merge strategies) and of the
    loaders ([_recordSource], [loadMst], the reference stage of [loadYaml]).

    Conventions of the embedding.
    - A JavaScript value that the template engine handles is a [json] tree;
      [JUndef] is JavaScript's [undefined], so that reading a missing
      property yields [JUndef] as it does in the source.
    - An object is the list of its own enumerable members in insertion
      order.  The engine's special ordering of integer-like keys and the
      members inherited from [Object.prototype] are not represented.
    - Objects are values.  Where the source mutates an object that the
      template itself holds (the [properties] of a partial in
      [_mergeSchemaInto], [_typeDefinitions[type]] in the inverted-section
      case) the new value is written back to the template state.  A
      property object that [Object.assign] leaves both in the accumulator
      and in the schema a partial keeps is held as two values: what the
      last step of [_handleParsed] writes into the accumulator's
      properties ([propertyOrder], [invertDependency]) is not written
      into the partial's copy, and nothing below is stated about a
      partial's schema after that step.
    - A thrown exception is [Throw e].  Reading a member of [undefined] or
      [null], and calling an array method on something that is not an
      array, is a [TypeError] wherever the receiver is not guarded by the
      source.
    - The collaborators that live outside [lib/template.js] (the Mustache
      tokenizer and renderer, the Ajv validator, js-yaml, crypto, Buffer,
      math-expression-evaluator, json-schema-ref-parser, path) are section
      variables; [deepmerge] is small enough to be written out, with
      the [TypeError] it raises on a source that is [undefined] or [null]
      in [deepmerge_checked].
    - The view that the Mustache writer looks names up in is a [json]
      tree, so a lookup finds the own members of the data.  mustache.js
      also resolves the names that every object or array inherits
      ([constructor], [toString], [length], ...); the statements about
      rendered output are made for names outside that list
      ([OwnNames.ownName], [Escaping.plainName]). *)

From Stdlib Require Import String Ascii List ZArith Bool Lia DecimalString.
Import ListNotations.
Open Scope string_scope.
Set Warnings "-register-all".

(* ================================================================== *)
(** * JavaScript values and the operations the source relies on *)
(* ================================================================== *)

Module JS.

Inductive json : Type :=
| JUndef
| JNull
| JBool (b : bool)
| JNum (n : Z)
| JStr (s : string)
| JArr (items : list json)
| JObj (members : list (string * json)).

(** The own members of an object, in insertion order. *)
Definition obj := list (string * json).

(** ** Strings *)

Fixpoint starts_with (pat s : string) : bool :=
  match pat with
  | EmptyString => true
  | String a pat' =>
      match s with
      | EmptyString => false
      | String b s' => Ascii.eqb a b && starts_with pat' s'
      end
  end.

(** [s.includes(pat)], and [s.match(/pat/)] for a literal pattern. *)
Fixpoint contains (pat s : string) : bool :=
  starts_with pat s
  || match s with
     | EmptyString => false
     | String _ s' => contains pat s'
     end.

(** [s.split(c)] for a one-character separator. *)
Fixpoint split_on (c : ascii) (s : string) : list string :=
  match s with
  | EmptyString => [EmptyString]
  | String a s' =>
      if Ascii.eqb a c then EmptyString :: split_on c s'
      else match split_on c s' with
           | [] => [String a EmptyString]
           | w :: ws => String a w :: ws
           end
  end.

Fixpoint drop (n : nat) (s : string) : string :=
  match n, s with
  | O, _ => s
  | S n', String _ s' => drop n' s'
  | S _, EmptyString => EmptyString
  end.

(** [s.replace(pat, by)] for a string pattern: the first occurrence only. *)
Fixpoint replace_first (pat by_ s : string) : string :=
  if starts_with pat s then by_ ++ drop (String.length pat) s
  else match s with
       | EmptyString => EmptyString
       | String a s' => String a (replace_first pat by_ s')
       end.

Definition is_space (a : ascii) : bool :=
  let n := nat_of_ascii a in
  (n =? 32)%nat || ((9 <=? n)%nat && (n <=? 13)%nat).

Fixpoint trim_start (s : string) : string :=
  match s with
  | String a s' => if is_space a then trim_start s' else s
  | EmptyString => EmptyString
  end.

Fixpoint all_space (s : string) : bool :=
  match s with
  | EmptyString => true
  | String a s' => is_space a && all_space s'
  end.

Fixpoint trim_end (s : string) : string :=
  match s with
  | EmptyString => EmptyString
  | String a s' => if all_space s then EmptyString else String a (trim_end s')
  end.

(** [s.trim()] (ASCII white space). *)
Definition trim (s : string) : string := trim_end (trim_start s).

Definition nat_to_string (n : nat) : string :=
  NilZero.string_of_uint (Nat.to_uint n).

Definition Z_to_string (n : Z) : string :=
  NilZero.string_of_int (Z.to_int n).

Fixpoint chars (s : string) : list string :=
  match s with
  | EmptyString => []
  | String a s' => String a EmptyString :: chars s'
  end.

(** ** Truthiness, equality, conversion to string *)

Definition truthy (v : json) : bool :=
  match v with
  | JUndef | JNull => false
  | JBool b => b
  | JNum n => negb (n =? 0)%Z
  | JStr s => negb (s =? EmptyString)
  | JArr _ | JObj _ => true
  end.

(** [a || b] *)
Definition js_or (a b : json) : json := if truthy a then a else b.

Definition is_undefined (v : json) : bool :=
  match v with JUndef => true | _ => false end.

Definition is_nullish (v : json) : bool :=
  match v with JUndef | JNull => true | _ => false end.

(** [a === b].  Primitives compare by value.  Objects and arrays compare
    by reference; at every use below the two operands are distinct
    objects, hence never equal. *)
Definition strict_eq (a b : json) : bool :=
  match a, b with
  | JUndef, JUndef => true
  | JNull, JNull => true
  | JBool x, JBool y => Bool.eqb x y
  | JNum x, JNum y => (x =? y)%Z
  | JStr x, JStr y => (x =? y)
  | _, _ => false
  end.

Definition is_str (s : string) (v : json) : bool := strict_eq v (JStr s).

Fixpoint join (sep : string) (l : list string) : string :=
  match l with
  | [] => EmptyString
  | [x] => x
  | x :: r => x ++ sep ++ join sep r
  end.

(** [String(v)], as a template literal computes it. *)
Fixpoint js_toString (v : json) : string :=
  match v with
  | JUndef => "undefined"
  | JNull => "null"
  | JBool true => "true"
  | JBool false => "false"
  | JNum n => Z_to_string n
  | JStr s => s
  | JArr l =>
      join "," (map (fun x => if is_nullish x then EmptyString else js_toString x) l)
  | JObj _ => "[object Object]"
  end.

(** ** Objects *)

Fixpoint lookup (k : string) (o : obj) : option json :=
  match o with
  | [] => None
  | (k', v) :: r => if k =? k' then Some v else lookup k r
  end.

(** [o[k]] on an object. *)
Definition get (k : string) (o : obj) : json :=
  match lookup k o with
  | Some v => v
  | None => JUndef
  end.

(** [o[k] = v]: an existing member keeps its place, a new one is appended. *)
Fixpoint set (k : string) (v : json) (o : obj) : obj :=
  match o with
  | [] => [(k, v)]
  | (k', v') :: r => if k =? k' then (k, v) :: r else (k', v') :: set k v r
  end.

(** [delete o[k]] *)
Definition delete (k : string) (o : obj) : obj :=
  filter (fun kv => negb (k =? fst kv)) o.

Definition keys (o : obj) : list string := map fst o.

(** No key occurs twice, as in every JavaScript object. *)
Fixpoint uniqueKeys (o : obj) : bool :=
  match o with
  | [] => true
  | (k, _) :: r => negb (existsb (String.eqb k) (map fst r)) && uniqueKeys r
  end.
Definition values (o : obj) : list json := map snd o.

Definition indexed (l : list json) : obj :=
  combine (map nat_to_string (seq 0 (List.length l))) l.

(** The own enumerable members of any value ([Object.keys], [Object.entries],
    the sources of [Object.assign]). *)
Definition entries_of (v : json) : obj :=
  match v with
  | JObj m => m
  | JArr l => indexed l
  | JStr s => indexed (map JStr (chars s))
  | _ => []
  end.

(** [v.k] where [v] is known not to be [undefined] or [null]. *)
Definition getv (k : string) (v : json) : json := get k (entries_of v).

(** [Object.assign(dst, src)] *)
Definition assign (dst src : obj) : obj :=
  fold_left (fun d kv => set (fst kv) (snd kv) d) src dst.

(** [Object.assign(dst, s1, ..., sn)]; [undefined] and [null] sources
    contribute nothing. *)
Definition assign_all (dst : obj) (srcs : list json) : obj :=
  fold_left (fun d s => assign d (entries_of s)) srcs dst.

(** ** deepmerge

    The [deepmerge] package, with its [arrayMerge] option.  A clone of a
    value is the value.  [deepmerge] below is the merge of a source that is
    not [undefined] or [null]: on such a source [Object.keys(source)]
    throws, which [deepmerge_checked] tests before it merges.  The calls
    that do without the test pass a source of the form [x || {}], an object
    literal, or a member that [isMergeableObject] accepted. *)

Definition arrayMerge := list json -> list json -> list json.

(** The package's default: [target.concat(source)]. *)
Definition defaultArrayMerge : arrayMerge := fun dst src => (dst ++ src)%list.

(** [const arrayMergeOverwrite = (dstArray, srcArray) => srcArray;] *)
Definition arrayMergeOverwrite : arrayMerge := fun _ src => src.

Definition isMergeableObject (v : json) : bool :=
  match v with
  | JObj _ | JArr _ => true
  | _ => false
  end.

Definition isArray (v : json) : bool :=
  match v with JArr _ => true | _ => false end.

(** [key in target], on the own members of an object. *)
Definition propertyIsOnObject (target : json) (k : string) : bool :=
  match target with
  | JObj m => match lookup k m with Some _ => true | None => false end
  | JArr l => match lookup k (indexed l) with Some _ => true | None => false end
  | _ => false
  end.

Definition targetMembers (target : json) : obj :=
  match target with
  | JObj m => m
  | _ => []
  end.

Fixpoint deepmerge (am : arrayMerge) (target source : json) {struct source}
  : json :=
  match source with
  | JArr ys =>
      match target with
      | JArr xs => JArr (am xs ys)
      | _ => source
      end
  | JObj sm =>
      match target with
      | JArr _ => source
      | _ =>
          JObj ((fix mergeObject (l : obj) (destination : obj) : obj :=
                   match l with
                   | [] => destination
                   | (k, v) :: r =>
                       mergeObject r
                         (set k
                            (if propertyIsOnObject target k
                                && isMergeableObject v
                             then deepmerge am (getv k target) v
                             else v)
                            destination)
                   end) sm (targetMembers target))
      end
  | _ =>
      match target with
      | JArr _ => source
      | _ => JObj (assign (targetMembers target) (entries_of source))
      end
  end.

(** ** Sets ([new Set()]) of values compared by [strict_eq] *)

Definition set_has (x : json) (s : list json) : bool :=
  existsb (strict_eq x) s.

Definition set_add (x : json) (s : list json) : list json :=
  if set_has x s then s else (s ++ [x])%list.

Definition set_delete (x : json) (s : list json) : list json :=
  filter (fun y => negb (strict_eq x y)) s.

(** [[...new Set(l)]] *)
Definition dedup (l : list json) : list json :=
  fold_left (fun s x => set_add x s) l [].

End JS.
Import JS.

(* ================================================================== *)
(** * Exceptions *)
(* ================================================================== *)

Definition nl : string := String (ascii_of_nat 10) EmptyString.
Definition dq : string := String (ascii_of_nat 34) EmptyString.

(** One constructor per [throw] of the source; [message] is the text the
    source builds for it. *)
Inductive Error : Type :=
| SchemaNotFound (schemaName mstType mstName : string)
| NoDefinition (type : json) (schemaName : string)
| NoSchemaDefinition (schemaName : json) (defType : string)
| UnknownPartial (defName : string)
| UnsupportedSection (defName : string) (defType : json)
| Redefine (defName : string) (defType existingType : json)
| RedefineItems (defName : string) (itemsType existingItemsType : json)
| ValidationFailed (parameters errors : string)
| MetaSchemaInvalid (errors : string)
| ValidatorCompileFailed (schema compileError : string)
| RefOutside (ref : string)
| RefsFailed (cause : Error)
| TypeError (what : string)
| External (msg : string).

(** [e.name] *)
Definition errorName (e : Error) : string :=
  match e with
  | TypeError _ => "TypeError"
  | _ => "Error"
  end.

Fixpoint message (e : Error) : string :=
  match e with
  | SchemaNotFound schemaName mstType mstName =>
      "Failed to find the specified schema: " ++ schemaName
        ++ " (" ++ mstType ++ ", " ++ mstName ++ ")"
  | NoDefinition type schemaName =>
      "No definition for " ++ js_toString type ++ " in " ++ schemaName
        ++ " schema"
  | NoSchemaDefinition schemaName defType =>
      "No schema definition for " ++ js_toString schemaName ++ "/" ++ defType
  | UnknownPartial defName =>
      defName ++ " does not reference a known partial"
  | UnsupportedSection defName defType =>
      "unsupported type for section " ++ dq ++ defName ++ dq ++ ": "
        ++ js_toString defType
  | Redefine defName defType existingType =>
      "attempted to redefine " ++ defName ++ " as " ++ js_toString defType
        ++ " but it was already defined as " ++ js_toString existingType
  | RedefineItems defName itemsType existingItemsType =>
      "attempted to redefine " ++ defName ++ ".items as "
        ++ js_toString itemsType ++ " but it"
        ++ "was already defined as " ++ js_toString existingItemsType
  | ValidationFailed parameters errors =>
      "Parameters failed validation:" ++ nl ++ parameters ++ nl ++ nl
        ++ "Validation error:" ++ nl ++ errors
  | MetaSchemaInvalid errors => errors
  | ValidatorCompileFailed schema compileError =>
      "Failed to compile parameter validator" ++ nl
        ++ "schema:" ++ nl ++ schema ++ nl
        ++ "compile error:" ++ nl ++ compileError
  | RefOutside ref =>
      "Found ref to path outside of the template set: " ++ ref
  | RefsFailed cause =>
      (* [e.stack] without its frames: the name and the message *)
      "Parsing references failed:" ++ nl
        ++ errorName cause ++ ": " ++ message cause
  | TypeError what => what
  | External msg => msg
  end.

(** The two errors that section 7 of the specification calls
    definition-conflict errors. *)
Definition is_definition_conflict (e : Error) : bool :=
  match e with
  | Redefine _ _ _ | RedefineItems _ _ _ => true
  | _ => false
  end.

Definition is_type_error (e : Error) : bool :=
  match e with
  | TypeError _ => true
  | _ => false
  end.

Inductive result (A : Type) : Type :=
| Ok (a : A)
| Throw (e : Error).
Arguments Ok {A} a.
Arguments Throw {A} e.

Definition bind {A B : Type} (c : result A) (k : A -> result B) : result B :=
  match c with
  | Ok a => k a
  | Throw e => Throw e
  end.

Notation "x <- c ;; k" := (bind c (fun x => k))
  (at level 61, c at next level, right associativity).
Notation "' pat <- c ;; k" := (bind c (fun x => match x with pat => k end))
  (at level 61, pat pattern, c at next level, right associativity).

(** [v.k] where nothing guards [v]: a [TypeError] on [undefined] and [null]. *)
Definition member (v : json) (k : string) : result json :=
  if is_nullish v
  then Throw (TypeError ("Cannot read property '" ++ k ++ "' of "
                           ++ js_toString v))
  else Ok (getv k v).

(** The elements of an iterable ([new Set(v)], spread). *)
Definition iterate (v : json) : result (list json) :=
  match v with
  | JArr l => Ok l
  | JStr s => Ok (map JStr (chars s))
  | _ => Throw (TypeError (js_toString v ++ " is not iterable"))
  end.

(** The receiver of an array method ([push], [filter], [forEach]). *)
Definition as_array (method : string) (v : json) : result (list json) :=
  match v with
  | JArr l => Ok l
  | _ => Throw (TypeError (method ++ " is not a function"))
  end.

(** [deepmerge(target, source, options)] for any source: [mergeObject]
    calls [Object.keys(source)], a [TypeError] on [undefined] and [null];
    with an array as target such a source is returned as it is. *)
Definition deepmerge_checked (am : arrayMerge) (target source : json)
  : result json :=
  if is_nullish source && negb (isArray target)
  then Throw (TypeError "Cannot convert undefined or null to object")
  else Ok (deepmerge am target source).

(** [deepmerge.all(array, options)]:
    [array.reduce((prev, next) => deepmerge(prev, next, options), {})] *)
Definition deepmerge_all (am : arrayMerge) (l : list json) : result json :=
  fold_left (fun prev next => p <- prev ;; deepmerge_checked am p next)
    l (Ok (JObj [])).

(* ================================================================== *)
(** * The [Template] object *)
(* ================================================================== *)

(** A compiled Ajv validator: [None] when the parameters are accepted,
    [Some errors] (the validator's [errors] member) when they are not. *)
Definition Validator := json -> option json.

(** The members that the constructor of [Template] initialises.
    [_parametersValidator] is [None] while it is [undefined]; a deleted
    [_typeDefinitions] or [_explicitDeps] is the empty object. *)
Inductive Template : Type := mkTemplate {
  title : json;
  description : json;
  definitions : obj;
  _typeDefinitions : obj;
  _parametersSchema : json;
  _partials : obj;
  target : json;
  templateText : string;
  defaultParameters : json;
  sourceType : string;
  sourceText : string;
  sourceHash : string;
  _parametersValidator : option Validator;
  _oneOf : list Template;
  _allOf : list Template;
  _anyOf : list Template;
  contentType : string;
  httpForward : json;
  _explicitDeps : obj
}.

(** [new Template()] *)
Definition newTemplate : Template :=
  {| title := JStr EmptyString;
     description := JStr EmptyString;
     definitions := [];
     _typeDefinitions := [];
     _parametersSchema := JObj [];
     _partials := [];
     target := JStr "as3";
     templateText := EmptyString;
     defaultParameters := JObj [];
     sourceType := "UNKNOWN";
     sourceText := EmptyString;
     sourceHash := EmptyString;
     _parametersValidator := None;
     _oneOf := [];
     _allOf := [];
     _anyOf := [];
     contentType := "text/plain";
     httpForward := JNull;
     _explicitDeps := [] |}.

(** Assignments to the members of [this]. *)
Definition set_description (v : json) (t : Template) : Template :=
  mkTemplate (title t) v (definitions t) (_typeDefinitions t)
    (_parametersSchema t) (_partials t) (target t) (templateText t)
    (defaultParameters t) (sourceType t) (sourceText t) (sourceHash t)
    (_parametersValidator t) (_oneOf t) (_allOf t) (_anyOf t) (contentType t)
    (httpForward t) (_explicitDeps t).

Definition set_definitions (v : obj) (t : Template) : Template :=
  mkTemplate (title t) (description t) v (_typeDefinitions t)
    (_parametersSchema t) (_partials t) (target t) (templateText t)
    (defaultParameters t) (sourceType t) (sourceText t) (sourceHash t)
    (_parametersValidator t) (_oneOf t) (_allOf t) (_anyOf t) (contentType t)
    (httpForward t) (_explicitDeps t).

Definition set_typeDefinitions (v : obj) (t : Template) : Template :=
  mkTemplate (title t) (description t) (definitions t) v
    (_parametersSchema t) (_partials t) (target t) (templateText t)
    (defaultParameters t) (sourceType t) (sourceText t) (sourceHash t)
    (_parametersValidator t) (_oneOf t) (_allOf t) (_anyOf t) (contentType t)
    (httpForward t) (_explicitDeps t).

Definition set_parametersSchema (v : json) (t : Template) : Template :=
  mkTemplate (title t) (description t) (definitions t) (_typeDefinitions t)
    v (_partials t) (target t) (templateText t)
    (defaultParameters t) (sourceType t) (sourceText t) (sourceHash t)
    (_parametersValidator t) (_oneOf t) (_allOf t) (_anyOf t) (contentType t)
    (httpForward t) (_explicitDeps t).

Definition set_partials (v : obj) (t : Template) : Template :=
  mkTemplate (title t) (description t) (definitions t) (_typeDefinitions t)
    (_parametersSchema t) v (target t) (templateText t)
    (defaultParameters t) (sourceType t) (sourceText t) (sourceHash t)
    (_parametersValidator t) (_oneOf t) (_allOf t) (_anyOf t) (contentType t)
    (httpForward t) (_explicitDeps t).

Definition set_templateText (v : string) (t : Template) : Template :=
  mkTemplate (title t) (description t) (definitions t) (_typeDefinitions t)
    (_parametersSchema t) (_partials t) (target t) v
    (defaultParameters t) (sourceType t) (sourceText t) (sourceHash t)
    (_parametersValidator t) (_oneOf t) (_allOf t) (_anyOf t) (contentType t)
    (httpForward t) (_explicitDeps t).

Definition set_source (ty text hash : string) (t : Template) : Template :=
  mkTemplate (title t) (description t) (definitions t) (_typeDefinitions t)
    (_parametersSchema t) (_partials t) (target t) (templateText t)
    (defaultParameters t) ty text hash
    (_parametersValidator t) (_oneOf t) (_allOf t) (_anyOf t) (contentType t)
    (httpForward t) (_explicitDeps t).

Definition set_parametersValidator (v : option Validator) (t : Template)
  : Template :=
  mkTemplate (title t) (description t) (definitions t) (_typeDefinitions t)
    (_parametersSchema t) (_partials t) (target t) (templateText t)
    (defaultParameters t) (sourceType t) (sourceText t) (sourceHash t)
    v (_oneOf t) (_allOf t) (_anyOf t) (contentType t)
    (httpForward t) (_explicitDeps t).

Definition set_subTemplates (oneOf allOf anyOf : list Template)
    (t : Template) : Template :=
  mkTemplate (title t) (description t) (definitions t) (_typeDefinitions t)
    (_parametersSchema t) (_partials t) (target t) (templateText t)
    (defaultParameters t) (sourceType t) (sourceText t) (sourceHash t)
    (_parametersValidator t) oneOf allOf anyOf (contentType t)
    (httpForward t) (_explicitDeps t).

Definition set_explicitDeps (v : obj) (t : Template) : Template :=
  mkTemplate (title t) (description t) (definitions t) (_typeDefinitions t)
    (_parametersSchema t) (_partials t) (target t) (templateText t)
    (defaultParameters t) (sourceType t) (sourceText t) (sourceHash t)
    (_parametersValidator t) (_oneOf t) (_allOf t) (_anyOf t) (contentType t)
    (httpForward t) v.

(* ================================================================== *)
(** * Schema inference *)
(* ================================================================== *)

Module Schema.

(** ** [_mergeSchemaInto] *)

(** The [noOverwrite] test of one source property.  [dst.properties] is an
    object at every call, so its own truthiness test is omitted; the
    conjunction is evaluated left to right as [&&] does. *)
Definition noOverwrite (dstProps : obj) (prop : string) (propDef : json)
  : result bool :=
  let d := get prop dstProps in
  if truthy d && truthy (getv "type" d)
     && (is_str "array" (getv "type" d) || is_str "string" (getv "type" d))
  then
    ty <- member propDef "type" ;;
    Ok (truthy ty && is_str "boolean" ty)
  else Ok false.

(** The [reduce] that filters [src.properties]. *)
Fixpoint filterProperties (dstProps : obj) (srcProps : json)
    (props : list string) (filtered : obj) : result obj :=
  match props with
  | [] => Ok filtered
  | prop :: rest =>
      let propDef := getv prop srcProps in
      no <- noOverwrite dstProps prop propDef ;;
      filterProperties dstProps srcProps rest
        (if no then filtered else set prop propDef filtered)
  end.

(** [_mergeSchemaInto(dst, src, dstDeps)].  The result is the new
    [dst.properties], the mutated [src] and the new [dstDeps]. *)
Definition _mergeSchemaInto (dstProps : obj) (src : json) (dstDeps : obj)
  : result (obj * json * obj) :=
  srcProps <- member src "properties" ;;
  if truthy srcProps then
    filtered <- filterProperties dstProps srcProps
                  (keys (entries_of srcProps)) [] ;;
    let src' := JObj (set "properties" (JObj filtered) (entries_of src)) in
    let dstProps' := assign dstProps filtered in
    let dstDeps' :=
      assign dstDeps
        (entries_of
           (deepmerge defaultArrayMerge (JObj dstDeps)
              (js_or (getv "dependencies" src) (JObj [])))) in
    Ok (dstProps', src', dstDeps')
  else Ok (dstProps, src, dstDeps).

(** ** [_isPropRequired] *)

Definition _isPropRequired (propDef : json) : bool :=
  negb (is_str "hidden" (getv "format" propDef))
  && negb (is_str "info" (getv "format" propDef))
  && negb (truthy (getv "mathExpression" propDef))
  && negb (truthy (getv "dataFile" propDef))
  && is_undefined (getv "default" propDef).


(** ** [_handleParsed] *)

(** A token of [Mustache.parse]: [[type, value, start, end, children]];
    the positions are not used by the engine. *)
Inductive token : Type :=
| Token (mstType mstName : string) (children : list token).

(** The accumulator of the [reduce]: [acc.properties] and the two
    variables [required] and [dependencies] that the callback closes over. *)
Record Acc : Type := mkAcc {
  properties : obj;
  required : list json;
  dependencies : obj
}.

Definition initialAcc : Acc := mkAcc [] [] [].

Definition primitives : list string :=
  ["boolean"; "object"; "number"; "string"; "integer"; "array"; "text";
   "hidden"].

(** An element of [mstName.split(':')], [undefined] when it is missing. *)
Definition part (parts : list string) (i : nat) : json :=
  match nth_error parts i with
  | Some s => JStr s
  | None => JUndef
  end.

Definition str_in (s : string) (l : list string) : bool :=
  existsb (String.eqb s) l.

(** [mathExpression.includes(key)] *)
Definition includes (v : json) (key : string) : result bool :=
  match v with
  | JStr s => Ok (contains key s)
  | JArr l => Ok (existsb (strict_eq (JStr key)) l)
  | _ => Throw (TypeError "includes is not a function")
  end.

(** [Buffer.from(data, ...).toString(...)] *)
Definition recode (f : string -> string) (data : json) : result json :=
  match data with
  | JStr s => Ok (JStr (f s))
  | _ => Throw (TypeError "The first argument must be of type string")
  end.

(** The [forEach] over [this._typeDefinitions] of the [mathExpression]
    branch. *)
Fixpoint mathOperands (expr : json) (typeDefs : obj) (props : obj)
    (req : list json) : result (obj * list json) :=
  match typeDefs with
  | [] => Ok (props, req)
  | (key, defProp) :: rest =>
      if negb (truthy (get key props)) then
        inc <- includes expr key ;;
        if inc
        then mathOperands expr rest
               (set key (JObj (assign_all [] [defProp])) props)
               (set_add (JStr key) req)
        else mathOperands expr rest props req
      else mathOperands expr rest props req
  end.

(** [required.filter(x => typeof items.properties[x].default === 'undefined')] *)
Fixpoint filterRequired (itemProps : json) (reqs : list json)
  : result (list json) :=
  match reqs with
  | [] => Ok []
  | x :: rest =>
      p <- member itemProps (js_toString x) ;;
      d <- member p "default" ;;
      kept <- filterRequired itemProps rest ;;
      Ok (if is_undefined d then x :: kept else kept)
  end.

(** The [forEach] of a section: every child depends on the section. *)
Fixpoint addDependencies (defName : string) (items : list string)
    (deps : obj) : result obj :=
  match items with
  | [] => Ok deps
  | item :: rest =>
      l <- as_array "push" (js_or (get item deps) (JArr [])) ;;
      addDependencies defName rest
        (set item (JArr (l ++ [JStr defName])%list) deps)
  end.

(** The [forEach] of an inverted section. *)
Fixpoint addInverted (explicitDeps : obj) (defName : string)
    (items : list string) (deps itemProps : obj) : result (obj * obj) :=
  match items with
  | [] => Ok (deps, itemProps)
  | item :: rest =>
      if truthy (get item explicitDeps)
      then addInverted explicitDeps defName rest deps itemProps
      else
        l <- as_array "push" (js_or (get item deps) (JArr [])) ;;
        let deps' := set item (JArr (l ++ [JStr defName])%list) deps in
        inv <- member (get item itemProps) "invertDependency" ;;
        l' <- as_array "push" (js_or inv (JArr [])) ;;
        let itemDef :=
          JObj (set "invertDependency" (JArr (l' ++ [JStr defName])%list)
                  (entries_of (get item itemProps))) in
        addInverted explicitDeps defName rest deps' (set item itemDef itemProps)
  end.

(** [v.required = [...new Set(v.required)]] when [v.required] is truthy. *)
Definition dedupRequired (v : json) : result json :=
  if truthy (getv "required" v) then
    l <- iterate (getv "required" v) ;;
    Ok (JObj (set "required" (JArr (dedup l)) (entries_of v)))
  else Ok v.

Section Inference.

Variables typeSchemas dataFiles : obj.
(** [Buffer.from(s, 'utf8').toString('base64')] and its inverse. *)
Variables toBase64 fromBase64 : string -> string.

(** The block that precedes the [switch]. *)
Definition resolveTypeSchema (mstType mstName : string)
    (schemaName type : json) (this : Template) : result Template :=
  if str_in mstType ["name"; "#"; ">"; "^"] then
    let sn := js_toString schemaName in
    if truthy schemaName && is_undefined (get sn typeSchemas)
    then Throw (SchemaNotFound sn mstType mstName)
    else if truthy schemaName then
      defs <- member (get sn typeSchemas) "definitions" ;;
      schemaDef <- member defs (js_toString type) ;;
      if negb (truthy schemaDef) then Throw (NoDefinition type sn)
      else
        let ty := js_toString type in
        Ok (set_typeDefinitions
              (assign (_typeDefinitions this) (entries_of defs))
              (set_definitions
                 (set ty
                    (JObj (assign_all [] [schemaDef; get ty (definitions this)]))
                    (definitions this))
                 this))
    else Ok this
  else Ok this.

(** The property definition of a variable token, before the author's
    definition is merged on top. *)
Definition baseProperty (schemaName : json) (defType : string)
  : result obj :=
  if truthy schemaName then
    defs <- member (get (js_toString schemaName) typeSchemas) "definitions" ;;
    schemaDef <- member defs defType ;;
    Ok (assign_all [] [schemaDef])
  else if defType =? "text" then
    Ok [("type", JStr "string"); ("format", JStr "text")]
  else if defType =? "array" then
    Ok [("type", JStr defType); ("items", JObj [("type", JStr "string")])]
  else if defType =? "hidden" then
    Ok [("type", JStr "string"); ("format", JStr "hidden")]
  else Ok [("type", JStr defType)].

(** [acc.properties[defName]] of a variable token at the point where
    [_isPropRequired] is asked. *)
Definition variableProperty (this : Template) (defName : string)
    (schemaName : json) (defType : string) : result obj :=
  base <- baseProperty schemaName defType ;;
  Ok (if truthy (get defName (definitions this))
      then assign base (entries_of (get defName (definitions this)))
      else base).

Definition resolveDataFile (propDef : obj) : result obj :=
  if truthy (get "dataFile" propDef) then
    let propDef1 :=
      if negb (truthy (get "format" propDef))
      then set "format" (JStr "hidden") propDef else propDef in
    let dataFile := get (js_toString (get "dataFile" propDef1)) dataFiles in
    default <-
      (if truthy (get "toBase64" propDef1) then recode toBase64 dataFile
       else if truthy (get "fromBase64" propDef1) then recode fromBase64 dataFile
       else Ok dataFile) ;;
    Ok (delete "dataFile" (set "default" default propDef1))
  else Ok propDef.

(** [case 'name'] *)
Definition handleName (defName : string) (schemaName type : json)
    (s : Template * Acc) : result (Template * Acc) :=
  let '(this, acc) := s in
  let defType := js_toString (js_or type (JStr "string")) in
  if negb (truthy schemaName) && negb (str_in defType primitives)
  then Throw (NoSchemaDefinition schemaName defType)
  else
    propDef0 <- variableProperty this defName schemaName defType ;;
    let props0 := set defName (JObj propDef0) (properties acc) in
    let required0 :=
      if _isPropRequired (JObj propDef0)
      then set_add (JStr defName) (required acc) else required acc in
    let propDef1 :=
      if is_str "info" (get "format" propDef0)
         && negb (truthy (get "const" propDef0))
      then set "const" (JStr EmptyString) propDef0 else propDef0 in
    '(propDef2, props2, required2) <-
      (if truthy (get "mathExpression" propDef1) then
         let propDef := if negb (truthy (get "format" propDef1))
                        then set "format" (JStr "hidden") propDef1
                        else propDef1 in
         '(props, req) <- mathOperands (get "mathExpression" propDef)
                            (_typeDefinitions this) props0 required0 ;;
         Ok (propDef, props, req)
       else Ok (propDef1, props0, required0)) ;;
    propDef3 <- resolveDataFile propDef2 ;;
    Ok (this, mkAcc (set defName (JObj propDef3) props2) required2
                (dependencies acc)).

(** [case '>'] *)
Definition handlePartial (defName : string) (s : Template * Acc)
  : result (Template * Acc) :=
  let '(this, acc) := s in
  if negb (truthy (get defName (_partials this)))
  then Throw (UnknownPartial defName)
  else
    let partial := get defName (_typeDefinitions this) in
    '(props, partial', deps) <-
      _mergeSchemaInto (properties acc) partial (dependencies acc) ;;
    names <- (if truthy (getv "required" partial')
              then as_array "forEach" (getv "required" partial')
              else Ok []) ;;
    Ok (set_typeDefinitions (set defName partial' (_typeDefinitions this)) this,
        mkAcc props (fold_left (fun r x => set_add x r) names (required acc))
          deps).

(** The [newDef] of a section, up to the tests for a redefinition. *)
Definition sectionDef (defName : string) (defType : json) (schemaDef items : json)
  : result obj :=
  let newDef := assign [("type", defType)] (entries_of schemaDef) in
  let asBool := is_str "boolean" defType || is_str "string" defType in
  if is_str "array" defType then
    let newItems0 := js_or (get "items" newDef) (JObj []) in
    let newDef1 := set "skip_xform" (JBool true) (set "items" newItems0 newDef) in
    let newItems1 :=
      deepmerge defaultArrayMerge (js_or items (JObj []))
        (js_or newItems0 (JObj [])) in
    newItems2 <-
      (if truthy (getv "required" newItems1) then
         reqs <- as_array "filter" (getv "required" newItems1) ;;
         kept <- filterRequired (getv "properties" newItems1) reqs ;;
         Ok (JObj (set "required" (JArr kept) (entries_of newItems1)))
       else Ok newItems1) ;;
    Ok (set "items" newItems2 newDef1)
  else if is_str "object" defType then
    Ok (set "skip_xform" (JBool true) (assign newDef (entries_of items)))
  else if negb asBool then Throw (UnsupportedSection defName defType)
  else Ok newDef.

(** The two tests of [case '#'] that reject a redefinition. *)
Definition checkRedefinition (defName : string) (defType : json)
    (existingDef : json) (newDef : obj) : result unit :=
  if truthy (getv "type" existingDef)
     && negb (strict_eq (getv "type" existingDef) defType)
  then Throw (Redefine defName defType (getv "type" existingDef))
  else if truthy (getv "items" existingDef) && truthy (get "items" newDef)
          && negb (strict_eq (getv "type" (getv "items" existingDef))
                     (getv "type" (get "items" newDef)))
  then Throw (RedefineItems defName (getv "type" (get "items" newDef))
                (getv "type" (getv "items" existingDef)))
  else Ok tt.

(** [case '#'], after the children have been inferred into [items]. *)
Definition handleSection (defName : string) (type : json) (items : json)
    (s : Template * Acc) : result (Template * Acc) :=
  let '(this, acc) := s in
  let schemaDef :=
    deepmerge defaultArrayMerge
      (js_or (get (js_toString type) (_typeDefinitions this)) (JObj []))
      (js_or (get defName (definitions this)) (JObj [])) in
  let defType := js_or (getv "type" schemaDef) (JStr "array") in
  let existingDef := js_or (get defName (properties acc)) (JObj []) in
  let asBool := is_str "boolean" defType || is_str "string" defType in
  newDef <- sectionDef defName defType schemaDef items ;;
  _ <- checkRedefinition defName defType existingDef newDef ;;
  deps1 <-
    (if truthy (getv "properties" items)
     then addDependencies defName (keys (entries_of (getv "properties" items)))
            (dependencies acc)
     else Ok (dependencies acc)) ;;
  '(props2, _, deps2) <-
    (if asBool then _mergeSchemaInto (properties acc) items deps1
     else Ok (properties acc, items, deps1)) ;;
  merged1 <- dedupRequired (deepmerge defaultArrayMerge existingDef (JObj newDef)) ;;
  merged2 <-
    (if truthy (getv "items" merged1)
        && truthy (getv "required" (getv "items" merged1))
     then
       newItems <- dedupRequired (getv "items" merged1) ;;
       Ok (JObj (set "items" newItems (entries_of merged1)))
     else Ok merged1) ;;
  Ok (this,
      mkAcc (set defName merged2 props2)
        (if _isPropRequired merged2
         then set_add (JStr defName) (required acc) else required acc)
        deps2).

(** [case '^'], after the children have been inferred into [items]. *)
Definition handleInverted (defName : string) (type : json) (items : json)
    (s : Template * Acc) : result (Template * Acc) :=
  let '(this, acc) := s in
  let ty := js_toString type in
  let typeDef := get ty (_typeDefinitions this) in
  let schemaDef :=
    assign (entries_of (js_or typeDef (JObj [])))
      (entries_of (js_or (get defName (definitions this)) (JObj []))) in
  let this1 :=
    if truthy typeDef
    then set_typeDefinitions (set ty (JObj schemaDef) (_typeDefinitions this)) this
    else this in
  let props1 :=
    if negb (truthy (get defName (properties acc)))
    then set defName (JObj (assign [("type", JStr "boolean")] schemaDef))
           (properties acc)
    else properties acc in
  '(deps1, items1) <-
    (if truthy (getv "properties" items) then
       '(deps, itemProps) <-
         addInverted (_explicitDeps this1) defName
           (keys (entries_of (getv "properties" items)))
           (dependencies acc) (entries_of (getv "properties" items)) ;;
       Ok (deps, JObj (set "properties" (JObj itemProps) (entries_of items)))
     else Ok (dependencies acc, items)) ;;
  let required1 := set_delete (JStr defName) (required acc) in
  let props2 :=
    if truthy (get defName (definitions this1))
    then set defName
           (JObj (assign (entries_of (get defName props1))
                    (entries_of (get defName (definitions this1)))))
           props1
    else props1 in
  '(props3, _, deps3) <- _mergeSchemaInto props2 items1 deps1 ;;
  Ok (this1, mkAcc props3 required1 deps3).

(** The body of the [reduce] callback for one token; [inferChildren] is
    [_handleParsed] on the token's children. *)
Definition handleCase (mstType mstName : string)
    (inferChildren : Template -> result (json * Template))
    (s : Template * Acc) : result (Template * Acc) :=
  let parts := split_on ":" mstName in
  let defName := hd EmptyString parts in
  let schemaName := part parts 1 in
  let type := part parts 2 in
  this1 <- resolveTypeSchema mstType mstName schemaName type (fst s) ;;
  let s1 := (this1, snd s) in
  if mstType =? "name" then handleName defName schemaName type s1
  else if mstType =? ">" then handlePartial defName s1
  else if mstType =? "#" then
    '(items, this2) <- inferChildren this1 ;;
    handleSection defName type items (this2, snd s)
  else if mstType =? "^" then
    '(items, this2) <- inferChildren this1 ;;
    handleInverted defName type items (this2, snd s)
  else Ok s1.

End Inference.

(** *** The normalisation that follows the [reduce] *)

(** [schemaDef.propertyOrder = n] (the file is in strict mode). *)
Definition setPropertyOrder (n : Z) (schemaDef : json) : result json :=
  match schemaDef with
  | JObj _ | JArr _ =>
      Ok (JObj (set "propertyOrder" (JNum n) (entries_of schemaDef)))
  | _ => Throw (TypeError "Cannot create property 'propertyOrder'")
  end.

Fixpoint defaultOrders (props : obj) : result obj :=
  match props with
  | [] => Ok []
  | (key, schemaDef) :: rest =>
      d <- setPropertyOrder 1000 schemaDef ;;
      rest' <- defaultOrders rest ;;
      Ok ((key, d) :: rest')
  end.

Fixpoint definitionOrders (defKeys : list string) (idx : Z) (props : obj)
  : obj :=
  match defKeys with
  | [] => props
  | prop :: rest =>
      let schemaDef := get prop props in
      definitionOrders rest (idx + 1)
        (if truthy schemaDef
         then set prop
                (JObj (set "propertyOrder" (JNum idx) (entries_of schemaDef)))
                props
         else props)
  end.

Definition orderOf (curr : obj) : Z :=
  match get "propertyOrder" curr with
  | JNum n => n
  | _ => 0
  end.

(** [Array.prototype.sort] is stable. *)
Fixpoint insertByOrder (x : obj) (sorted : list obj) : list obj :=
  match sorted with
  | [] => [x]
  | y :: rest =>
      if (orderOf x <=? orderOf y)%Z then x :: sorted
      else y :: insertByOrder x rest
  end.

Definition sortByOrder (l : list obj) : list obj :=
  fold_right insertByOrder [] l.

Definition resortProperties (props : obj) : obj :=
  fold_left
    (fun acc curr =>
       set (js_toString (get "name" curr))
         (JObj (delete "propertyOrder" (delete "name" curr))) acc)
    (sortByOrder
       (map (fun kv => assign [("name", JStr (fst kv))] (entries_of (snd kv)))
          props))
    [].

Fixpoint uniqueDependencies (deps : obj) : result obj :=
  match deps with
  | [] => Ok []
  | (prop, value) :: rest =>
      l <- iterate value ;;
      rest' <- uniqueDependencies rest ;;
      Ok ((prop, JArr (dedup l)) :: rest')
  end.

Definition stringSchema : json := JObj [("type", JStr "string")].

(** What [_handleParsed] does with the result of its [reduce].  The
    writes of [propertyOrder] and [invertDependency] are made to the
    properties of the accumulator, which is what the function returns. *)
Definition finishParsed (this : Template) (acc : Acc) : result json :=
  let props := properties acc in
  if truthy (get "." props) && (List.length (keys props) =? 1)%nat
  then Ok stringSchema
  else if (List.length (keys props) <? 1)%nat
  then Ok stringSchema
  else
    props1 <- defaultOrders props ;;
    let props2 := definitionOrders (keys (definitions this)) 0 props1 in
    let props3 := resortProperties props2 in
    let deps1 :=
      fold_left (fun d value => delete (js_toString value) d)
        (required acc) (dependencies acc) in
    deps2 <- uniqueDependencies deps1 ;;
    let schema :=
      [("type", JStr "object");
       ("properties", JObj props3);
       ("required", JArr (required acc))] in
    Ok (JObj
          (if (0 <? List.length (keys deps2))%nat
              || (0 <? List.length (keys (_explicitDeps this)))%nat
           then set "dependencies" (JObj (assign deps2 (_explicitDeps this)))
                  schema
           else schema)).

Section Reduce.

Variables typeSchemas dataFiles : obj.
Variables toBase64 fromBase64 : string -> string.

(** The [reduce] callback, by recursion on the token tree. *)
Fixpoint handleToken (curr : token) (s : Template * Acc) {struct curr}
  : result (Template * Acc) :=
  match curr with
  | Token mstType mstName children =>
      handleCase typeSchemas dataFiles toBase64 fromBase64 mstType mstName
        (fun this =>
           '(this', acc) <-
             (fix reduce (parsed : list token) (s : Template * Acc)
                : result (Template * Acc) :=
                match parsed with
                | [] => Ok s
                | tok :: rest => s' <- handleToken tok s ;; reduce rest s'
                end) children (this, initialAcc) ;;
           schema <- finishParsed this' acc ;;
           Ok (schema, this'))
        s
  end.

(** [parsed.reduce(callback, { type: 'object', properties: {} })] *)
Fixpoint reduceTokens (parsed : list token) (s : Template * Acc)
  : result (Template * Acc) :=
  match parsed with
  | [] => Ok s
  | tok :: rest => s' <- handleToken tok s ;; reduceTokens rest s'
  end.

(** [_handleParsed(parsed, typeSchemas, dataFiles)]: the schema, and [this]
    as the call leaves it. *)
Definition _handleParsed (parsed : list token) (this : Template)
  : result (json * Template) :=
  '(this', acc) <- reduceTokens parsed (this, initialAcc) ;;
  schema <- finishParsed this' acc ;;
  Ok (schema, this').

End Reduce.

End Schema.

(* ================================================================== *)
(** * Compiling a template: schema, definitions, validator *)
(* ================================================================== *)

Module Compile.
Import Schema.

(** ** Schema utilities *)

(** [getParametersSchema()] *)
Fixpoint getParametersSchema (this : Template) : json :=
  let schema :=
    assign_all []
      [_parametersSchema this;
       JObj [("title", title this);
             ("description", description this);
             ("definitions", JObj (definitions this))]] in
  let xOf (name : string) (subs : list Template) (schema : obj) : obj :=
    if (0 <? List.length subs)%nat
    then set name (JArr (map getParametersSchema subs)) schema
    else schema in
  JObj (xOf "anyOf" (_anyOf this)
          (xOf "allOf" (_allOf this)
             (xOf "oneOf" (_oneOf this) schema))).

(** [ref.replace('#/definitions/', '')] *)
Definition cleanRef (ref : json) : result string :=
  match ref with
  | JStr s => Ok (replace_first "#/definitions/" EmptyString s)
  | _ => Throw (TypeError "ref.replace is not a function")
  end.

Fixpoint concatResults (l : list (result (list string)))
  : result (list string) :=
  match l with
  | [] => Ok []
  | r :: rest =>
      xs <- r ;;
      ys <- concatResults rest ;;
      Ok (xs ++ ys)%list
  end.

(** [getRefDefs], by recursion on a bound of the depth of the schema. *)
Fixpoint getRefDefsWithin (depth : nat) (schema : json)
  : result (list string) :=
  match depth with
  | O => Ok []
  | S depth' =>
      ref <- member schema "$ref" ;;
      own <- (if truthy ref then r <- cleanRef ref ;; Ok [r] else Ok []) ;;
      ofProps <-
        concatResults
          (map (fun prop =>
                  pref <- member prop "$ref" ;;
                  a <- (if truthy pref then r <- cleanRef pref ;; Ok [r]
                        else Ok []) ;;
                  b <- (if truthy (getv "items" prop)
                        then getRefDefsWithin depth' (getv "items" prop)
                        else Ok []) ;;
                  c <- getRefDefsWithin depth' prop ;;
                  Ok (a ++ b ++ c)%list)
             (values (entries_of (js_or (getv "properties" schema) (JArr []))))) ;;
      ofSubs <-
        concatResults
          (map (fun xOf =>
                  subs <- as_array "forEach" (js_or (getv xOf schema) (JArr [])) ;;
                  concatResults (map (getRefDefsWithin depth') subs))
             ["oneOf"; "allOf"; "anyOf"]) ;;
      Ok (own ++ ofProps ++ ofSubs)%list
  end.

Fixpoint json_depth (v : json) : nat :=
  match v with
  | JArr l => S (fold_right (fun x d => Nat.max (json_depth x) d) O l)
  | JObj m => S (fold_right (fun kv d => Nat.max (json_depth (snd kv)) d) O m)
  | _ => 1
  end.

Definition getRefDefs (schema : json) : result (list string) :=
  getRefDefsWithin (S (json_depth schema)) schema.

(** ** [_cleanTemplateText]

    [text.replace(/{{([_a-zA-Z0-9#^>/]+):.*?}}/g, '{{$1}}')] *)

Definition is_name_char (a : ascii) : bool :=
  let n := nat_of_ascii a in
  ((48 <=? n) && (n <=? 57) || (65 <=? n) && (n <=? 90)
   || (97 <=? n) && (n <=? 122))%nat
  || str_in (String a EmptyString) ["_"; "#"; "^"; ">"; "/"].

(** The longest run of name characters at the head of [s], and the rest. *)
Fixpoint name_run (s : string) : string * string :=
  match s with
  | String a s' =>
      if is_name_char a
      then let '(run, rest) := name_run s' in (String a run, rest)
      else (EmptyString, s)
  | EmptyString => (EmptyString, EmptyString)
  end.

Definition is_line_terminator (a : ascii) : bool :=
  let n := nat_of_ascii a in ((n =? 10) || (n =? 13))%nat.

(** What follows the first ["}}"] of [s], unless a line terminator comes
    first ([.] does not match one). *)
Fixpoint after_close (s : string) : option string :=
  if starts_with "}}" s then Some (drop 2 s)
  else match s with
       | String a s' => if is_line_terminator a then None else after_close s'
       | EmptyString => None
       end.

(** A match of the pattern at the head of [s]: the captured name and what
    follows the match. *)
Definition annotated_tag (s : string) : option (string * string) :=
  if starts_with "{{" s then
    let '(name, rest) := name_run (drop 2 s) in
    match name, rest with
    | String _ _, String ":" rest' =>
        match after_close rest' with
        | Some tail => Some (name, tail)
        | None => None
        end
    | _, _ => None
    end
  else None.

Fixpoint cleanWithin (steps : nat) (text : string) : string :=
  match steps with
  | O => text
  | S steps' =>
      match annotated_tag text with
      | Some (name, tail) => "{{" ++ name ++ "}}" ++ cleanWithin steps' tail
      | None =>
          match text with
          | String a text' => String a (cleanWithin steps' text')
          | EmptyString => EmptyString
          end
      end
  end.

Definition _cleanTemplateText (text : string) : string :=
  cleanWithin (String.length text) text.

(** [keyInXOf] of [_parametersSchemaFromTemplate] *)
Fixpoint keyInXOf (key : string) (tmpl : Template) : bool :=
  let visit (subs : list Template) (found : bool) : bool :=
    fold_left
      (fun found subTmpl =>
         let props := getv "properties" (_parametersSchema subTmpl) in
         if truthy props && negb (is_undefined (getv key props)) then true
         else keyInXOf key subTmpl || found)
      subs found in
  visit (_anyOf tmpl) (visit (_allOf tmpl) (visit (_oneOf tmpl) false)).

(** ** Providers *)

(** A schema or data provider: [list()] and [fetch(name)], each a promise
    that is fulfilled ([Ok]) or rejected ([Throw]). *)
Record Provider : Type := mkProvider {
  list_ : result (list string);
  fetch : string -> result string
}.

Fixpoint fetchAll (p : Provider) (names : list string)
  : result (list (string * string)) :=
  match names with
  | [] => Ok []
  | x :: rest =>
      data <- fetch p x ;;
      rest' <- fetchAll p rest ;;
      Ok ((x, data) :: rest')
  end.

Section Compiler.

(** [Mustache.parse], [JSON.parse], [JSON.stringify(v, null, 2)]. *)
Variable Mustache_parse : string -> result (list token).
Variable JSON_parse : string -> result json.
Variable JSON_stringify2 : json -> string.
Variables toBase64 fromBase64 : string -> string.
(** [crypto.createHash('sha256').update(text).digest('hex')] *)
Variable sha256_hex : string -> string.
(** The compiled meta-schema [_validateSchema]: its [errors] on failure. *)
Variable _validateSchema : string -> option json.
(** [ajv.compileAsync(schema)] with the four formats added. *)
Variable ajv_compileAsync : json -> result Validator.

(** [Mustache.parse(v)] rejects what is not a string. *)
Definition parseTemplate (v : json) : result (list token) :=
  match v with
  | JStr text => Mustache_parse text
  | _ => Throw (TypeError "Invalid template! Template should be a string")
  end.

(** [_loadTypeSchemas(schemaProvider)] *)
Definition _loadTypeSchemas (schemaProvider : option Provider) : result obj :=
  match schemaProvider with
  | None => Ok []
  | Some p =>
      schemaList <- list_ p ;;
      schemas <- fetchAll p schemaList ;;
      fold_left
        (fun acc curr =>
           acc <- acc ;;
           schema <- JSON_parse (snd curr) ;;
           Ok (set (fst curr) schema acc))
        schemas (Ok [])
  end.

(** [_loadDataFiles(dataProvider)] *)
Definition _loadDataFiles (dataProvider : option Provider) : result obj :=
  match dataProvider with
  | None => Ok []
  | Some p =>
      dataList <- list_ p ;;
      dataFiles <- fetchAll p dataList ;;
      Ok (fold_left (fun acc curr => set (fst curr) (JStr (snd curr)) acc)
            dataFiles [])
  end.

(** [_descriptionFromTemplate()] *)
Definition _descriptionFromTemplate (this : Template) : result Template :=
  tokens <- Mustache_parse (templateText this) ;;
  match filter (fun x => match x with Token ty _ _ => ty =? "!" end) tokens with
  | Token _ text _ :: _ => Ok (set_description (JStr text) this)
  | [] => Ok this
  end.

(** [_recordSource(sourceType, sourceText)] *)
Definition _recordSource (sourceType sourceText : string) (this : Template)
  : Template :=
  set_source sourceType sourceText (sha256_hex sourceText) this.

(** [_createParametersValidator()] *)
Definition _createParametersValidator (this : Template) : result Template :=
  match ajv_compileAsync (getParametersSchema this) with
  | Ok validate => Ok (set_parametersValidator (Some validate) this)
  | Throw e =>
      Throw (ValidatorCompileFailed
               (JSON_stringify2 (getParametersSchema this)) (message e))
  end.

(** [static validate(tmpldata)] *)
Definition validate (tmpldata : string) : result unit :=
  match _validateSchema tmpldata with
  | None => Ok tt
  | Some errors => Throw (MetaSchemaInvalid (JSON_stringify2 errors))
  end.

Section FromTemplate.

Variables typeSchemas dataFiles : obj.

Definition handleParsed : list token -> Template -> result (json * Template) :=
  _handleParsed typeSchemas dataFiles toBase64 fromBase64.

(** The first [forEach] over [this.definitions]: explicit dependencies. *)
Fixpoint collectExplicitDeps (defs : obj) (explicitDeps : obj)
  : result (obj * obj) :=
  match defs with
  | [] => Ok ([], explicitDeps)
  | (prop, def) :: rest =>
      deps <- member def "dependencies" ;;
      let explicitDeps' :=
        if truthy deps then set prop deps explicitDeps else explicitDeps in
      let def' := match def with
                  | JObj m => JObj (delete "dependencies" m)
                  | _ => def
                  end in
      '(rest', explicitDeps'') <- collectExplicitDeps rest explicitDeps' ;;
      Ok ((prop, def') :: rest', explicitDeps'')
  end.

(** The second [forEach]: partials and type definitions.  The entries are
    those that [this.definitions] had when the loop began. *)
Fixpoint registerDefinitions (defs : obj) (this : Template)
  : result Template :=
  match defs with
  | [] => Ok this
  | (name, def) :: rest =>
      template <- member def "template" ;;
      this' <-
        (if truthy template then
           tokens <- parseTemplate template ;;
           '(newDef, this1) <- handleParsed tokens this ;;
           Ok (set_partials
                 (set name (JStr (_cleanTemplateText (js_toString template)))
                    (_partials this1))
                 (set_typeDefinitions
                    (set name (JObj (delete "template" (entries_of newDef)))
                       (_typeDefinitions this1))
                    this1))
         else
           Ok (set_typeDefinitions (set name def (_typeDefinitions this)) this)) ;;
      registerDefinitions rest this'
  end.

(** The last [forEach]: definitions of merged-in templates that produced
    no property of their own. *)
Definition surfaceOverrides (this : Template) (schemaProps : obj) : obj :=
  fold_left
    (fun props entry =>
       if negb (truthy (get (fst entry) props)) && keyInXOf (fst entry) this
       then set (fst entry) (JObj (assign_all [] [snd entry])) props
       else props)
    (definitions this) schemaProps.

(** The first half of [_parametersSchemaFromTemplate]: the definitions of
    the merged-in templates, the explicit dependencies, the partials. *)
Definition prepareDefinitions (this : Template) : result Template :=
  let mergedDefs :=
    map (fun tmpl => JObj (definitions tmpl))
      (_oneOf this ++ _allOf this ++ _anyOf this)%list in
  merged <-
    deepmerge_all arrayMergeOverwrite
      (mergedDefs ++ [JObj (definitions this)])%list ;;
  let defs0 := entries_of merged in
  '(defs1, explicitDeps) <- collectExplicitDeps defs0 (_explicitDeps this) ;;
  let this1 := set_explicitDeps explicitDeps (set_definitions defs1 this) in
  registerDefinitions defs1 this1.

(** [_parametersSchemaFromTemplate(typeSchemas, dataFiles)] *)
Definition _parametersSchemaFromTemplate (this : Template) : result Template :=
  this2 <- prepareDefinitions this ;;
  tokens <- Mustache_parse (templateText this2) ;;
  '(schema, this3) <- handleParsed tokens this2 ;;
  let schema1 :=
    if is_str "string" (getv "type" schema)
       && negb (truthy (getv "properties" schema))
    then set "type" (JStr "object") (entries_of schema)
    else entries_of schema in
  let schema2 :=
    if negb (truthy (get "properties" schema1))
    then set "properties" (JObj []) schema1 else schema1 in
  let schema3 :=
    set "properties"
      (JObj (surfaceOverrides this3 (entries_of (get "properties" schema2))))
      schema2 in
  let this4 :=
    set_explicitDeps []
      (set_typeDefinitions []
         (set_definitions (_typeDefinitions this3)
            (set_parametersSchema (JObj schema3) this3))) in
  refDefs <- getRefDefs (getParametersSchema this4) ;;
  Ok (set_definitions
        (filter (fun kv => str_in (fst kv) refDefs) (definitions this4))
        this4).

End FromTemplate.

(** [static loadMst(msttext, schemaProvider, dataProvider)] *)
Definition loadMst (msttext : string)
    (schemaProvider dataProvider : option Provider) : result Template :=
  _ <- validate msttext ;;
  let tmpl := set_templateText msttext (_recordSource "MST" msttext newTemplate) in
  typeSchemas <- _loadTypeSchemas schemaProvider ;;
  dataFiles <- _loadDataFiles dataProvider ;;
  tmpl <- _descriptionFromTemplate tmpl ;;
  tmpl <- _parametersSchemaFromTemplate typeSchemas dataFiles tmpl ;;
  _createParametersValidator tmpl.

End Compiler.

End Compile.

(* ================================================================== *)
(** * The Mustache writer *)
(* ================================================================== *)

(** [lib/template.js] replaces one member of the Mustache module:

      [Mustache.escape = function escape(text) { return text; };]

    The writer of mustache.js is a dependency of the repository.  What
    follows is its [renderTokens] with the escape function as a parameter:
    text, escaped and unescaped variables, sections, inverted sections,
    partials and comments over a stack of views.  Lambdas, the
    indentation of standalone partials and custom delimiters are left
    out. *)

Module Mustache.
Import Schema.

(** The override of [lib/template.js]. *)
Definition escape (text : json) : json := text.

(** The default that it replaces, [escapeHtml]: every ampersand, angle
    bracket, quote, apostrophe, slash, backquote and equals sign of
    [String(string)] becomes its HTML entity. *)
Definition entity (a : ascii) : string :=
  let n := nat_of_ascii a in
  if (n =? 38)%nat then "&amp;"
  else if (n =? 60)%nat then "&lt;"
  else if (n =? 62)%nat then "&gt;"
  else if (n =? 34)%nat then "&quot;"
  else if (n =? 39)%nat then "&#39;"
  else if (n =? 47)%nat then "&#x2F;"
  else if (n =? 96)%nat then "&#x60;"
  else if (n =? 61)%nat then "&#x3D;"
  else String a EmptyString.

Fixpoint escapeHtmlText (s : string) : string :=
  match s with
  | EmptyString => EmptyString
  | String a s' => entity a ++ escapeHtmlText s'
  end.

Definition escapeHtml (text : json) : json :=
  JStr (escapeHtmlText (js_toString text)).

(** [hasProperty(obj, propName)], on the own members of the data. *)
Definition hasProperty (v : json) (k : string) : bool :=
  match v with
  | JObj _ | JArr _ =>
      match lookup k (entries_of v) with
      | Some _ => true
      | None => false
      end
  | _ => false
  end.

(** The walk along a dotted name. *)
Fixpoint walk (names : list string) (intermediateValue : json)
  : bool * json :=
  match names with
  | [] => (false, intermediateValue)
  | [name] =>
      if is_nullish intermediateValue then (false, intermediateValue)
      else (hasProperty intermediateValue name, getv name intermediateValue)
  | name :: rest =>
      if is_nullish intermediateValue then (false, intermediateValue)
      else walk rest (getv name intermediateValue)
  end.

(** [name.indexOf('.') > 0] *)
Definition dotted (name : string) : bool :=
  match name with
  | String _ rest => contains "." rest
  | EmptyString => false
  end.

(** [context.lookup(name)]; the head of the list is the current view. *)
Fixpoint lookupName (name : string) (context : list json) : result json :=
  match context with
  | [] => Ok JUndef
  | view :: parent =>
      if dotted name then
        let '(lookupHit, value) := walk (split_on "." name) view in
        if lookupHit then Ok value else lookupName name parent
      else
        value <- member view name ;;
        if hasProperty view name then Ok value else lookupName name parent
  end.

Definition contextLookup (name : string) (context : list json)
  : result json :=
  match context with
  | view :: _ => if name =? "." then Ok view else lookupName name context
  | [] => Ok JUndef
  end.

Section Writer.

Variable Mustache_parse : string -> result (list token).
(** [mustache.escape] *)
Variable escapeValue : json -> json.
Variable partials : obj.

(** [escapedValue] and [unescapedValue]; the buffer is a string, so the
    value is converted when it is appended. *)
Definition escapedValue (value : json) : string :=
  if is_nullish value then EmptyString
  else js_toString (escapeValue value).

Definition unescapedValue (value : json) : string :=
  if is_nullish value then EmptyString else js_toString value.

Section Tokens.

(** [renderTokens] on the tokens of a partial. *)
Variable renderPartialTokens : list token -> list json -> result string.

Fixpoint renderToken (tok : token) (context : list json) {struct tok}
  : result string :=
  match tok with
  | Token symbol name children =>
      let renderChildren :=
        fix renderAll (tokens : list token) (context : list json)
          : result string :=
          match tokens with
          | [] => Ok EmptyString
          | t :: rest =>
              a <- renderToken t context ;;
              b <- renderAll rest context ;;
              Ok (a ++ b)
          end in
      if symbol =? "#" then
        value <- contextLookup name context ;;
        if negb (truthy value) then Ok EmptyString
        else match value with
             | JArr items =>
                 (fix each (items : list json) : result string :=
                    match items with
                    | [] => Ok EmptyString
                    | item :: rest =>
                        a <- renderChildren children (item :: context) ;;
                        b <- each rest ;;
                        Ok (a ++ b)
                    end) items
             | JObj _ | JStr _ | JNum _ =>
                 renderChildren children (value :: context)
             | _ => renderChildren children context
             end
      else if symbol =? "^" then
        value <- contextLookup name context ;;
        if negb (truthy value)
           || match value with JArr [] => true | _ => false end
        then renderChildren children context
        else Ok EmptyString
      else if symbol =? ">" then
        let value := get name partials in
        if is_nullish value then Ok EmptyString
        else
          tokens <- Mustache_parse (js_toString value) ;;
          renderPartialTokens tokens context
      else if symbol =? "&" then
        value <- contextLookup name context ;;
        Ok (unescapedValue value)
      else if symbol =? "name" then
        value <- contextLookup name context ;;
        Ok (escapedValue value)
      else if symbol =? "text" then Ok name
      else Ok EmptyString
  end.

Fixpoint renderEach (tokens : list token) (context : list json)
  : result string :=
  match tokens with
  | [] => Ok EmptyString
  | t :: rest =>
      a <- renderToken t context ;;
      b <- renderEach rest context ;;
      Ok (a ++ b)
  end.

End Tokens.

(** [renderTokens]; [depth] bounds the nesting of partials, beyond which
    the engine exhausts its call stack. *)
Fixpoint renderTokens (depth : nat) (tokens : list token)
    (context : list json) : result string :=
  renderEach
    (match depth with
     | O => fun _ _ => Throw (External "Maximum call stack size exceeded")
     | S depth' => renderTokens depth'
     end)
    tokens context.

(** [Mustache.render(template, view, partials)] *)
Definition render (depth : nat) (template : string) (view : json)
  : result string :=
  tokens <- Mustache_parse template ;;
  renderTokens depth tokens [view].

End Writer.

End Mustache.

(* ================================================================== *)
(** * Rendering *)
(* ================================================================== *)

Module Render.
Import Schema Compile.

(** ** Sequencing helpers *)

Section Each.
Variable A B : Type.
Variable f : A -> result B.

(** [l.forEach(x => out.push(f(x)))] *)
Fixpoint pushEach (l : list A) (out : list B) : result (list B) :=
  match l with
  | [] => Ok out
  | x :: rest =>
      y <- f x ;;
      pushEach rest (out ++ [y])%list
  end.

(** The same loop with the [try]/[catch] of [render] around the call: an
    exception whose message matches [/failed validation/] is dropped, any
    other is thrown again. *)
Fixpoint pushEachTolerant (l : list A) (out : list B) : result (list B) :=
  match l with
  | [] => Ok out
  | x :: rest =>
      match f x with
      | Ok y => pushEachTolerant rest (out ++ [y])%list
      | Throw e =>
          if contains "failed validation" (message e)
          then pushEachTolerant rest out
          else Throw e
      end
  end.
End Each.
Arguments pushEach {A B} f l out.
Arguments pushEachTolerant {A B} f l out.

(** [value.length] *)
Definition js_length (value : json) : json :=
  match value with
  | JArr l => JNum (Z.of_nat (List.length l))
  | JStr s => JNum (Z.of_nat (String.length s))
  | _ => getv "length" value
  end.

Definition positive (v : json) : bool :=
  match v with
  | JNum n => (0 <? n)%Z
  | _ => false
  end.

Fixpoint insertByLength (k : string) (sorted : list string) : list string :=
  match sorted with
  | [] => [k]
  | k' :: rest =>
      if (String.length k <=? String.length k')%nat then k :: sorted
      else k' :: insertByLength k rest
  end.

(** [keys.sort((a, b) => a.length - b.length)] *)
Definition sortByLength (l : list string) : list string :=
  fold_right insertByLength [] l.

(** [deepmerge(target, source)] as the merge strategies call it:
    [Object.keys(source)] throws on [undefined] and [null]. *)
Definition deepmerge_loaded (target source : json) : result json :=
  if is_nullish source && negb (isArray target)
  then Throw (TypeError "Cannot convert undefined or null to object")
  else Ok (deepmerge defaultArrayMerge target source).

Section Rendering.

(** [Mustache.render(template, view, partials)] *)
Variable Mustache_render : string -> json -> obj -> result string.
(** [JSON.stringify(v)] and [JSON.stringify(v, null, 2)] *)
Variable JSON_stringify : json -> string.
Variable JSON_stringify2 : json -> string.
(** [yaml.load] and [yaml.dump] *)
Variable yaml_load : string -> result json.
Variable yaml_dump : json -> result string.
(** [mexp.eval(expression, tokens, pairs)] *)
Variable mexp_eval : json -> list json -> obj -> result json.

(** ** Strategies *)

Definition PlainTextTransformStrategy (_schema value : json) : json := value.

Definition JsonTransformStrategy (schema value : json) : json :=
  if is_str "array" (getv "type" schema) && negb (truthy value)
  then JStr (JSON_stringify (JArr []))
  else if is_str "array" (getv "type" schema)
          && (truthy (js_length value) && positive (js_length value)
              && negb (truthy (getv "skip_xform" schema)))
  then JStr (JSON_stringify value)
  else if is_str "object" (getv "type" schema) && negb (truthy value)
  then JStr (JSON_stringify (JObj []))
  else if is_str "object" (getv "type" schema)
          && negb (truthy (getv "skip_xform" schema))
  then JStr (JSON_stringify value)
  else if is_str "text" (getv "format" schema) && truthy value
  then JStr (JSON_stringify value)
  else value.

Definition transformStrategies (contentType : string)
  : option (json -> json -> json) :=
  if contentType =? "application/json" then Some JsonTransformStrategy
  else None.

Definition PlainTextMergeStrategy (acc curr : string) : result string :=
  Ok (acc ++ nl ++ curr).

(** [deepmerge(yaml.load(acc), yaml.load(curr))], the argument that both
    structured strategies serialise. *)
Definition mergeFragments (acc curr : string) : result json :=
  a <- yaml_load acc ;;
  c <- yaml_load curr ;;
  deepmerge_loaded a c.

Definition JsonMergeStrategy (acc curr : string) : result string :=
  merged <- mergeFragments acc curr ;;
  Ok (JSON_stringify2 merged).

Definition YamlMergeStrategy (acc curr : string) : result string :=
  merged <- mergeFragments acc curr ;;
  yaml_dump merged.

Definition mergeStrategies (contentType : string)
  : option (string -> string -> result string) :=
  if contentType =? "application/json" then Some JsonMergeStrategy
  else if str_in contentType
            ["application/x-yaml"; "application/yaml"; "text/x-yaml"]
  then Some YamlMergeStrategy
  else None.

Definition emptyStringLiteral : string := dq ++ dq.

Definition JsonPostProcessStrategy (rendered : string) : result string :=
  let rendered :=
    if trim rendered =? EmptyString then emptyStringLiteral else rendered in
  v <- yaml_load rendered ;;
  Ok (JSON_stringify2 (js_or v (JStr EmptyString))).

Definition YamlPostProcessStrategy (rendered : string) : result string :=
  let rendered :=
    if trim rendered =? EmptyString then emptyStringLiteral else rendered in
  v <- yaml_load rendered ;;
  yaml_dump v.

Definition postProcessStrategies (contentType : string)
  : option (string -> result string) :=
  if contentType =? "application/json" then Some JsonPostProcessStrategy
  else if str_in contentType
            ["application/x-yaml"; "application/yaml"; "text/x-yaml"]
  then Some YamlPostProcessStrategy
  else None.

(** ** [getCombinedParameters] *)

(** The [reduce] that collects the [default] of every property. *)
Fixpoint typeDefaultsOf (typeProps : json) (props : list string) (acc : obj)
  : result obj :=
  match props with
  | [] => Ok acc
  | key :: rest =>
      d <- member (getv key typeProps) "default" ;;
      typeDefaultsOf typeProps rest
        (if negb (is_undefined d) then set key d acc else acc)
  end.

(** The [reduce] that evaluates every [mathExpression]. *)
Fixpoint mathResultsOf (typeProps : json) (mathExprTokens : list json)
    (mathExprPairs : obj) (props : list string) (acc : obj) : result obj :=
  match props with
  | [] => Ok acc
  | key :: rest =>
      let value := getv key typeProps in
      expr <- member value "mathExpression" ;;
      if truthy expr then
        r <- mexp_eval expr mathExprTokens mathExprPairs ;;
        let r' := if is_str "string" (getv "type" value)
                  then JStr (js_toString r) else r in
        mathResultsOf typeProps mathExprTokens mathExprPairs rest
          (set key r' acc)
      else mathResultsOf typeProps mathExprTokens mathExprPairs rest acc
  end.

Definition mathToken (key : string) : json :=
  JObj [("type", JNum 3); ("token", JStr key); ("show", JStr key);
        ("value", JStr key)].

(** What [getCombinedParameters] does once the merged-in templates have
    answered with [mergedDefaults]. *)
Definition combine (this : Template) (parameters : json)
    (mergedDefaults : list json) : result json :=
  let typeProps := getv "properties" (getParametersSchema this) in
  typeDefaults <-
    (if truthy typeProps
     then d <- typeDefaultsOf typeProps (keys (entries_of typeProps)) [] ;;
          Ok (JObj d)
     else Ok typeProps) ;;
  defaults <-
    deepmerge_all arrayMergeOverwrite
      (mergedDefaults
         ++ [js_or typeDefaults (JObj []); defaultParameters this; parameters])%list ;;
  let mathExprPairs :=
    fold_left (fun acc key => set key (getv key defaults) acc)
      (sortByLength (keys (entries_of defaults))) [] in
  let mathExprTokens := map mathToken (keys mathExprPairs) in
  mathExprResults <-
    (if truthy typeProps
     then mathResultsOf typeProps mathExprTokens mathExprPairs
            (keys (entries_of typeProps)) []
     else Ok []) ;;
  Ok (match mathExprResults with
      | [] => defaults
      | _ => JObj (assign (entries_of defaults) mathExprResults)
      end).

(** [getCombinedParameters(parameters)] *)
Fixpoint getCombinedParameters (this : Template) (parameters : json)
  {struct this} : result json :=
  let parameters := js_or parameters (JObj []) in
  d1 <- pushEach (fun tmpl => getCombinedParameters tmpl parameters)
          (_oneOf this) [] ;;
  d2 <- pushEach (fun tmpl => getCombinedParameters tmpl parameters)
          (_allOf this) d1 ;;
  d3 <- pushEach (fun tmpl => getCombinedParameters tmpl parameters)
          (_anyOf this) d2 ;;
  combine this parameters d3.

(** ** [validateParameters], [transformParameters], [render] *)

(** [`${JSON.stringify(v, null, 2)}`]: [JSON.stringify(undefined)] is
    [undefined]. *)
Definition stringified (v : json) : string :=
  if is_undefined v then "undefined" else JSON_stringify2 v.

Definition validateParameters (this : Template) (parameters : json)
  : result unit :=
  combParams <- getCombinedParameters this parameters ;;
  match _parametersValidator this with
  | None => Throw (TypeError "this._parametersValidator is not a function")
  | Some validate =>
      match validate combParams with
      | None => Ok tt
      | Some errors =>
          Throw (ValidationFailed (stringified parameters) (stringified errors))
      end
  end.

Definition transformParameters (this : Template) (parameters : json) : json :=
  let schema := getParametersSchema this in
  let transform :=
    match transformStrategies (contentType this) with
    | Some f => f
    | None => PlainTextTransformStrategy
    end in
  JObj
    (fold_left
       (fun acc curr =>
          let value := getv curr parameters in
          let valueSchema :=
            if truthy (getv "properties" schema)
            then getv curr (getv "properties" schema)
            else getv "properties" schema in
          set curr (if truthy valueSchema then transform valueSchema value
                    else value) acc)
       (keys (entries_of parameters)) []).

(** The [reduce] over [templateTexts] (never empty: the text of the root
    is pushed last). *)
Fixpoint mergeTexts (mergeStrategy : string -> string -> result string)
    (acc : string) (texts : list string) : result string :=
  match texts with
  | [] => Ok acc
  | curr :: rest =>
      if (String.length curr =? 0)%nat then mergeTexts mergeStrategy acc rest
      else if (String.length acc =? 0)%nat then mergeTexts mergeStrategy curr rest
      else
        acc' <- mergeStrategy acc curr ;;
        mergeTexts mergeStrategy acc' rest
  end.

(** What [render] does with the texts of the merged-in templates. *)
Definition renderRoot (this : Template) (combParams : json)
    (templateTexts : list string) : result string :=
  let xfparams := transformParameters this combParams in
  let templateText := _cleanTemplateText (templateText this) in
  let mergeStrategy :=
    match mergeStrategies (contentType this) with
    | Some f => f
    | None => PlainTextMergeStrategy
    end in
  own <- Mustache_render templateText xfparams (_partials this) ;;
  rendered <-
    match (templateTexts ++ [own])%list with
    | [] => Throw (TypeError "Reduce of empty array with no initial value")
    | first :: rest => mergeTexts mergeStrategy first rest
    end ;;
  match postProcessStrategies (contentType this) with
  | Some postProcessStrategy => postProcessStrategy rendered
  | None => Ok rendered
  end.

(** [render(parameters, options)]; [skipValidation] is
    [options.skipValidation]. *)
Fixpoint render (this : Template) (parameters : json) (skipValidation : bool)
  {struct this} : result string :=
  _ <- (if negb skipValidation then validateParameters this parameters
        else Ok tt) ;;
  combParams <- getCombinedParameters this parameters ;;
  t1 <- pushEach (fun tmpl => render tmpl combParams true) (_allOf this) [] ;;
  t2 <- pushEachTolerant (fun tmpl => render tmpl combParams true)
          (_anyOf this) t1 ;;
  t3 <- pushEachTolerant (fun tmpl => render tmpl combParams true)
          (_oneOf this) t2 ;;
  renderRoot this combParams t3.

End Rendering.

End Render.

(* ================================================================== *)
(** * Loading a YAML template: the cross-file references *)
(* ================================================================== *)

Module LoadYaml.
Import Schema Compile.

(** The calls to json-schema-ref-parser, in the order they are made, and
    the start of the steps that follow the reference stage. *)
Inductive Event : Type :=
| Resolved
| Bundled
| Continued.

(** A computation that leaves a trace of such calls. *)
Definition Traced (A : Type) : Type := (list Event * result A)%type.

Definition tret {A : Type} (a : A) : Traced A := ([], Ok a).

Definition tbind {A B : Type} (c : Traced A) (k : A -> Traced B) : Traced B :=
  match c with
  | (tr, Ok a) => let '(tr', r) := k a in ((tr ++ tr')%list, r)
  | (tr, Throw e) => (tr, Throw e)
  end.

(** [p.catch(h)] where the handler rejects again. *)
Definition tcatch {A : Type} (c : Traced A) (h : Error -> Error) : Traced A :=
  match c with
  | (tr, Throw e) => (tr, Throw (h e))
  | ok => ok
  end.

Definition call {A : Type} (ev : Event) (r : result A) : Traced A := ([ev], r).
Definition lift {A : Type} (r : result A) : Traced A := ([], r).

Notation "x <~ c ;; k" := (tbind c (fun x => k))
  (at level 61, c at next level, right associativity).

(** A template provider: [fetch(key)] resolved to the [sourceText] of the
    template it yields. *)
Definition TemplateProvider := string -> result string.

(** [refParserOpts]; [resolve.file] is [undefined] (so enabled) unless a
    template provider replaces it. *)
Record RefParserOpts : Type := mkRefParserOpts {
  resolve_http : bool;
  resolve_templateProvider : option (string -> string -> result string);
  resolve_file : bool;
  dereference_circular : bool
}.

(** [refParserArgs]: the optional path, the document, the options. *)
Record RefParserArgs : Type := mkRefParserArgs {
  args_filePath : option string;
  args_yamldata : json;
  args_opts : RefParserOpts
}.

(** The four shapes of the arguments of [loadYaml]. *)
Inductive LoadArguments : Type :=
| Positional (schemaProvider : option Provider) (filePath rootDir : string)
    (skipValidation : bool)
| SchemaProviderOnly (schemaProvider : Provider)
| Options (schemaProvider : option Provider)
    (templateProvider : option TemplateProvider)
    (dataProvider : option Provider) (filePath rootDir : string)
    (skipValidation : bool)
| NoOptions.

(** The local variables that the arguments initialise; an absent string
    is the empty string, which the source treats alike. *)
Record Settings : Type := mkSettings {
  schemaProvider : option Provider;
  templateProvider : option TemplateProvider;
  dataProvider : option Provider;
  filePath : string;
  rootDir : string;
  skipValidation : bool
}.

Definition settingsOf (a : LoadArguments) : Settings :=
  match a with
  | Positional sp fp rd sv => mkSettings sp None None fp rd sv
  | SchemaProviderOnly sp =>
      mkSettings (Some sp) None None EmptyString EmptyString false
  | Options sp tp dp fp rd sv => mkSettings sp tp dp fp rd sv
  | NoOptions => mkSettings None None None EmptyString EmptyString false
  end.

Section References.

(** [$RefParser.resolve(...refParserArgs).then(refs => refs.paths())] and
    [$RefParser.bundle(...refParserArgs)], which yields the bundled
    document. *)
Variable RefParser_resolve : RefParserArgs -> result (list string).
Variable RefParser_bundle : RefParserArgs -> result json.
(** [path.relative], [path.sep], [process.cwd()] *)
Variable path_relative : string -> string -> string.
Variable path_sep : ascii.
Variable cwd : string.

(** [rootDir.split(path.sep).slice(-1)[0]] *)
Definition tsNameOf (rootDir : string) : string :=
  last (split_on path_sep rootDir) EmptyString.

(** The [read] of [refParserOpts.resolve.templateProvider]. *)
Definition readTemplate (tsName : string) (provider : TemplateProvider)
    (url extension : string) : result string :=
  let templName :=
    replace_first extension EmptyString
      (replace_first (cwd ++ "/") EmptyString url) in
  provider (tsName ++ "/" ++ templName).

Definition refParserOptsOf (st : Settings) : RefParserOpts :=
  match templateProvider st with
  | Some provider =>
      mkRefParserOpts false
        (Some (readTemplate (tsNameOf (rootDir st)) provider)) false false
  | None => mkRefParserOpts false None true false
  end.

Definition refParserArgsOf (st : Settings) (yamldata : json) : RefParserArgs :=
  mkRefParserArgs
    (if negb (filePath st =? EmptyString) then Some (filePath st) else None)
    yamldata (refParserOptsOf st).

(** The test of one resolved path. *)
Definition outside (rootDir ref : string) : bool :=
  starts_with ".." (path_relative rootDir ref).

(** [refs.forEach(ref => { if (...) throw new Error(...) })] *)
Fixpoint checkRefs (rootDir : string) (refs : list string) : result unit :=
  match refs with
  | [] => Ok tt
  | ref :: rest =>
      if outside rootDir ref then Throw (RefOutside ref)
      else checkRefs rootDir rest
  end.

Definition has_provider (st : Settings) : bool :=
  match templateProvider st with Some _ => true | None => false end.

(** The inner promise chain of [loadYaml]: resolve, check, bundle. *)
Definition resolveReferences (st : Settings) (yamldata : json) : Traced json :=
  let refParserArgs := refParserArgsOf st yamldata in
  tcatch
    (refs <~ (if negb (rootDir st =? EmptyString) && negb (has_provider st)
              then call Resolved (RefParser_resolve refParserArgs)
              else tret []) ;;
     _ <~ lift (checkRefs (rootDir st) refs) ;;
     call Bundled (RefParser_bundle refParserArgs))
    RefsFailed.

Section Load.

Variable yaml_load : string -> result json.
Variable JSON_stringify2 : json -> string.
Variable sha256_hex : string -> string.
Variable _validateSchema : string -> option json.
(** The promise chain that follows the reference stage: the merged-in
    templates, the type schemas and data files, the inference of the
    schema, the validator. *)
Variable continueLoad : Settings -> json -> Template -> result Template.

(** One member of [Object.assign(tmpl, yamldata)], for the members that
    a template document declares. *)
Definition assignMember (tmpl : Template) (kv : string * json) : Template :=
  let '(k, v) := kv in
  let text := js_toString v in
  mkTemplate
    (if k =? "title" then v else title tmpl)
    (if k =? "description" then v else description tmpl)
    (if k =? "definitions" then entries_of v else definitions tmpl)
    (_typeDefinitions tmpl) (_parametersSchema tmpl) (_partials tmpl)
    (if k =? "target" then v else target tmpl)
    (if k =? "templateText" then text else templateText tmpl)
    (if k =? "defaultParameters" then v else defaultParameters tmpl)
    (if k =? "sourceType" then text else sourceType tmpl)
    (if k =? "sourceText" then text else sourceText tmpl)
    (if k =? "sourceHash" then text else sourceHash tmpl)
    (_parametersValidator tmpl) (_oneOf tmpl) (_allOf tmpl) (_anyOf tmpl)
    (if k =? "contentType" then text else contentType tmpl)
    (if k =? "httpForward" then v else httpForward tmpl)
    (_explicitDeps tmpl).

(** The statements of [loadYaml] between [_recordSource] and the promise
    chain. *)
Definition adoptDocument (yamldata : json) (tmpl : Template) : Template :=
  let tmpl1 := fold_left assignMember (entries_of yamldata) tmpl in
  let tmpl2 :=
    set_templateText
      (js_toString (js_or (getv "template" yamldata) (JStr (templateText tmpl1))))
      tmpl1 in
  mkTemplate (title tmpl2) (description tmpl2) (definitions tmpl2)
    (_typeDefinitions tmpl2) (_parametersSchema tmpl2) (_partials tmpl2)
    (target tmpl2) (templateText tmpl2)
    (js_or (getv "parameters" yamldata) (defaultParameters tmpl2))
    (sourceType tmpl2) (sourceText tmpl2) (sourceHash tmpl2)
    (_parametersValidator tmpl2) (_oneOf tmpl2) (_allOf tmpl2) (_anyOf tmpl2)
    (contentType tmpl2) (httpForward tmpl2) (_explicitDeps tmpl2).

(** [static loadYaml(yamltext, options)] *)
Definition loadYaml (yamltext : string) (a : LoadArguments)
  : Traced Template :=
  let st := settingsOf a in
  _ <~ lift (validate JSON_stringify2 _validateSchema yamltext) ;;
  yamldata <~ lift (yaml_load yamltext) ;;
  let tmpl :=
    adoptDocument yamldata (_recordSource sha256_hex "YAML" yamltext newTemplate) in
  bundled <~ resolveReferences st yamldata ;;
  call Continued (continueLoad st bundled tmpl).

End Load.

End References.

End LoadYaml.

(* ================================================================== *)
(** * HTTP request options *)
(* ================================================================== *)

Module Http.
Import Schema.

Section Axios.

(** [url.format(configObj)] *)
Variable url_format : json -> json.

(** [nodeHttpToAxios(configObj)]: the object as the call leaves it. *)
Definition nodeHttpToAxios (configObj : obj) : obj :=
  let configObj1 :=
    if truthy (get "host" configObj) || truthy (get "path" configObj) then
      let c1 :=
        set "protocol" (js_or (get "protocol" configObj) (JStr "http"))
          configObj in
      let c2 := set "pathname" (js_or (get "pathname" c1) (get "path" c1)) c1 in
      let c3 := set "url" (url_format (JObj c2)) c2 in
      delete "pathname"
        (delete "hostname"
           (delete "protocol"
              (delete "port" (delete "path" (delete "host" c3)))))
    else configObj in
  match get "auth" configObj1 with
  | JStr auth =>
      if truthy (JStr auth) then
        let parts := split_on ":" auth in
        set "auth"
          (JObj [("username", part parts 0); ("password", part parts 1)])
          configObj1
      else configObj1
  | _ => configObj1
  end.

End Axios.

End Http.

(* ================================================================== *)
(** * JSON text *)
(* ================================================================== *)

(** [JSON.stringify(value)] and [JSON.stringify(value, null, 2)] are
    parameters of the rendering.  The examples instantiate them with the
    serialisation below, which is the built-in on data made of [null],
    booleans, integers, strings, arrays and objects: in a string the quote
    and the backslash get a backslash, a line feed, a carriage return and a
    tab their letter; a member whose value is [undefined] is left out of an
    object and is [null] in an array. *)
Module JsonText.
Import Schema.

Definition backslash : string := String (ascii_of_nat 92) EmptyString.

Definition escaped (a : ascii) : string :=
  let n := nat_of_ascii a in
  if (n =? 34)%nat then backslash ++ dq
  else if (n =? 92)%nat then backslash ++ backslash
  else if (n =? 10)%nat then backslash ++ "n"
  else if (n =? 13)%nat then backslash ++ "r"
  else if (n =? 9)%nat then backslash ++ "t"
  else String a EmptyString.

Fixpoint escapedText (s : string) : string :=
  match s with
  | EmptyString => EmptyString
  | String a s' => escaped a ++ escapedText s'
  end.

(** [JSON.stringify] of a string. *)
Definition quote (s : string) : string := dq ++ escapedText s ++ dq.

(** The items of an array or the members of an object between their
    brackets, at the indentation [indent]; [gap] is the empty string or
    two spaces. *)
Definition bracketed (gap indent opening closing : string)
    (items : list string) : string :=
  match items with
  | [] => opening ++ closing
  | _ =>
      if gap =? EmptyString
      then opening ++ join "," items ++ closing
      else opening ++ nl ++ indent ++ gap
             ++ join ("," ++ nl ++ indent ++ gap) items
             ++ nl ++ indent ++ closing
  end.

Fixpoint serialise (gap indent : string) (v : json) : string :=
  match v with
  | JUndef | JNull => "null"
  | JBool true => "true"
  | JBool false => "false"
  | JNum n => Z_to_string n
  | JStr s => quote s
  | JArr l =>
      bracketed gap indent "[" "]"
        (map (serialise gap (indent ++ gap)) l)
  | JObj m =>
      bracketed gap indent "{" "}"
        (flat_map
           (fun kv =>
              if is_undefined (snd kv) then []
              else [quote (fst kv)
                      ++ (if gap =? EmptyString then ":" else ": ")
                      ++ serialise gap (indent ++ gap) (snd kv)])
           m)
  end.

(** [JSON.stringify(value)] *)
Definition stringify (v : json) : string := serialise EmptyString EmptyString v.

(** [JSON.stringify(value, null, 2)] *)
Definition stringify2 (v : json) : string := serialise "  " EmptyString v.

End JsonText.

(* ================================================================== *)
(** * Properties *)
(* ================================================================== *)

(** ** Objects as association lists *)

Module ObjFacts.

Lemma lookup_set (k k' : string) (v : json) (o : obj) :
  lookup k (set k' v o) = if k =? k' then Some v else lookup k o.
Proof.
  induction o as [|[k0 v0] o IH]; simpl.
  - destruct (k =? k') eqn:E; reflexivity.
  - destruct (k' =? k0) eqn:E0; simpl.
    + apply String.eqb_eq in E0. subst k0.
      destruct (k =? k'); reflexivity.
    + destruct (k =? k0) eqn:E1.
      * apply String.eqb_eq in E1. subst k0.
        rewrite String.eqb_sym, E0. reflexivity.
      * exact IH.
Qed.

Lemma get_set_same (k : string) (v : json) (o : obj) :
  get k (set k v o) = v.
Proof. unfold get. rewrite lookup_set, String.eqb_refl. reflexivity. Qed.

Lemma get_set_other (k k' : string) (v : json) (o : obj) :
  (k =? k') = false -> get k (set k' v o) = get k o.
Proof. intros E. unfold get. rewrite lookup_set, E. reflexivity. Qed.

Lemma in_set (k k' : string) (v v' : json) (o : obj) :
  In (k, v) (set k' v' o) -> (k = k' /\ v = v') \/ In (k, v) o.
Proof.
  induction o as [|[k0 v0] o IH]; simpl.
  - intros [H|[]]. inversion H. auto.
  - destruct (k' =? k0) eqn:E; simpl.
    + intros [H|H]; [inversion H; auto | auto].
    + intros [H|H]; [auto | destruct (IH H); auto].
Qed.

Lemma lookup_in (k : string) (v : json) (o : obj) :
  lookup k o = Some v -> In (k, v) o.
Proof.
  induction o as [|[k0 v0] o IH]; simpl; [discriminate|].
  destruct (k =? k0) eqn:E.
  - apply String.eqb_eq in E. subst. intros H. inversion H. auto.
  - auto.
Qed.

Lemma lookup_assign_absent (k : string) (src dst : obj) :
  (forall v, ~ In (k, v) src) ->
  lookup k (assign dst src) = lookup k dst.
Proof.
  unfold assign. revert dst.
  induction src as [|[k0 v0] src IH]; intros dst H; simpl; [reflexivity|].
  rewrite IH.
  - rewrite lookup_set. destruct (k =? k0) eqn:E; [|reflexivity].
    apply String.eqb_eq in E. subst. exfalso. apply (H v0). left. reflexivity.
  - intros v Hv. apply (H v). right. exact Hv.
Qed.

Lemma lookup_assign_origin (k : string) (v : json) (src dst : obj) :
  lookup k (assign dst src) = Some v ->
  lookup k dst = Some v \/ In (k, v) src.
Proof.
  unfold assign. revert dst.
  induction src as [|[k0 v0] src IH]; intros dst H; simpl in *; [auto|].
  destruct (IH _ H) as [H1|H1]; [|auto].
  rewrite lookup_set in H1. destruct (k =? k0) eqn:E; [|auto].
  apply String.eqb_eq in E. subst. inversion H1. auto.
Qed.

Lemma is_str_eq (s : string) (v : json) :
  is_str s v = true -> v = JStr s.
Proof.
  unfold is_str. destruct v; simpl; try discriminate.
  intros H. apply String.eqb_eq in H. subst. reflexivity.
Qed.

End ObjFacts.

(** ** [_mergeSchemaInto] never narrows an array or a string to a boolean *)

Module MergeFacts.
Import Schema ObjFacts.

(** An existing property of type array or string. *)
Definition wide (d : json) : bool :=
  is_str "array" (getv "type" d) || is_str "string" (getv "type" d).

Lemma wide_guard (dstProps : obj) (prop : string) (d : json) :
  lookup prop dstProps = Some d -> wide d = true ->
  (truthy (get prop dstProps) && truthy (getv "type" (get prop dstProps))
   && (is_str "array" (getv "type" (get prop dstProps))
       || is_str "string" (getv "type" (get prop dstProps)))) = true.
Proof.
  intros Hl Hw. unfold get. rewrite Hl. unfold wide in Hw. rewrite Hw.
  apply orb_true_iff in Hw.
  assert (Ht : exists s, getv "type" d = JStr s /\ s <> EmptyString).
  { destruct Hw as [H|H]; apply is_str_eq in H; rewrite H; eexists;
      (split; [reflexivity | discriminate]). }
  destruct Ht as [s [Hs Hne]]. rewrite Hs.
  assert (Hd : truthy d = true).
  { destruct d; simpl in *; try discriminate; try reflexivity.
    unfold getv, get in Hs. simpl in Hs.
    destruct s0; [simpl in Hs; discriminate|reflexivity]. }
  rewrite Hd. simpl. destruct s; [congruence | reflexivity].
Qed.

Lemma noOverwrite_wide (dstProps : obj) (prop : string) (d propDef : json)
    (b : bool) :
  lookup prop dstProps = Some d -> wide d = true ->
  noOverwrite dstProps prop propDef = Ok b ->
  b = is_str "boolean" (getv "type" propDef).
Proof.
  intros Hl Hw. unfold noOverwrite.
  rewrite (wide_guard _ _ _ Hl Hw). unfold member.
  destruct (is_nullish propDef); simpl; [discriminate|].
  intros H. inversion H.
  destruct (is_str "boolean" (getv "type" propDef)) eqn:E.
  - apply is_str_eq in E. rewrite E. reflexivity.
  - apply andb_false_r.
Qed.

Lemma filterProperties_origin (dstProps : obj) (srcProps : json)
    (props : list string) (filtered0 filtered : obj) (k : string) (v : json) :
  filterProperties dstProps srcProps props filtered0 = Ok filtered ->
  In (k, v) filtered ->
  In (k, v) filtered0
  \/ (v = getv k srcProps /\ noOverwrite dstProps k v = Ok false).
Proof.
  revert filtered0.
  induction props as [|p props IH]; intros filtered0 H Hin; simpl in H.
  - inversion H. subst. auto.
  - destruct (noOverwrite dstProps p (getv p srcProps)) as [no|e] eqn:E;
      simpl in H; [|discriminate].
    destruct (IH _ H Hin) as [H1|H1]; [|auto].
    destruct no; [auto|].
    apply in_set in H1. destruct H1 as [[-> ->]|H1]; auto.
Qed.

Lemma mergeSchemaInto_wide (dstProps : obj) (src : json)
    (dstDeps : obj) (prop : string) (d : json)
    (dstProps' : obj) (src' : json) (dstDeps' : obj) :
  lookup prop dstProps = Some d ->
  wide d = true ->
  _mergeSchemaInto dstProps src dstDeps = Ok (dstProps', src', dstDeps') ->
  (is_str "boolean" (getv "type" (getv prop (getv "properties" src))) = true ->
   lookup prop dstProps' = Some d)
  /\ is_str "boolean" (getv "type" (get prop dstProps')) = false.
Proof.
  intros Hl Hw. unfold _mergeSchemaInto, member.
  destruct (is_nullish src); simpl; [discriminate|].
  assert (Hd : is_str "boolean" (getv "type" d) = false).
  { unfold wide in Hw. apply orb_true_iff in Hw.
    destruct Hw as [H|H]; apply is_str_eq in H; rewrite H; reflexivity. }
  destruct (truthy (getv "properties" src)) eqn:Ht.
  - destruct (filterProperties dstProps (getv "properties" src)
                (keys (entries_of (getv "properties" src))) [])
      as [filtered|e] eqn:Ef; simpl; [|discriminate].
    intros H. inversion H. subst dstProps' src' dstDeps'. clear H.
    assert (Horigin : forall v, In (prop, v) filtered ->
              v = getv prop (getv "properties" src)
              /\ is_str "boolean" (getv "type" v) = false).
    { intros v Hin.
      destruct (filterProperties_origin _ _ _ _ _ _ _ Ef Hin) as [[]|[Hv Hno]].
      split; [exact Hv|].
      symmetry. exact (noOverwrite_wide _ _ _ _ _ Hl Hw Hno). }
    split.
    + intros Hb. rewrite lookup_assign_absent; [exact Hl|].
      intros v Hin. destruct (Horigin v Hin) as [Hv Hnb].
      subst v. rewrite Hb in Hnb. discriminate.
    + unfold get.
      destruct (lookup prop (assign dstProps filtered)) as [v|] eqn:El;
        [|reflexivity].
      destruct (lookup_assign_origin _ _ _ _ El) as [H|H].
      * rewrite Hl in H. inversion H. subst v. exact Hd.
      * exact (proj2 (Horigin v H)).
  - intros H. inversion H. subst dstProps' src' dstDeps'.
    split; [intros _; exact Hl|].
    unfold get. rewrite Hl. exact Hd.
Qed.

(** C2.  Whenever [_mergeSchemaInto] (the merge behind a partial
    reference, a hoisted boolean or string section and an inverted section)
    completes, a destination property [prop] whose type was array or string
    is not overwritten by a source property of type boolean: if the source
    declares [prop] as boolean the destination keeps its definition, and
    in every case the type of the destination property is not boolean
    after the merge. *)
Theorem merge_never_narrows_to_boolean (dstProps : obj) (src : json)
    (dstDeps : obj) (prop : string) (d : json)
    (dstProps' : obj) (src' : json) (dstDeps' : obj) :
  lookup prop dstProps = Some d ->
  wide d = true ->
  _mergeSchemaInto dstProps src dstDeps = Ok (dstProps', src', dstDeps') ->
  (is_str "boolean" (getv "type" (getv prop (getv "properties" src))) = true ->
   lookup prop dstProps' = Some d)
  /\ is_str "boolean" (getv "type" (get prop dstProps')) = false.
Proof. exact (mergeSchemaInto_wide dstProps src dstDeps prop d dstProps' src' dstDeps'). Qed.

Definition C2_dst : obj := [("x", JObj [("type", JStr "array")])].
Definition C2_src : json :=
  JObj [("properties",
         JObj [("x", JObj [("type", JStr "boolean")]);
               ("y", JObj [("type", JStr "boolean")])])].

Lemma merge_never_narrows_witness :
  (is_str "boolean"
     (getv "type" (getv "x" (getv "properties" C2_src))) = true ->
   lookup "x"
     [("x", JObj [("type", JStr "array")]);
      ("y", JObj [("type", JStr "boolean")])]
   = Some (JObj [("type", JStr "array")]))
  /\ is_str "boolean"
       (getv "type"
          (get "x"
             [("x", JObj [("type", JStr "array")]);
              ("y", JObj [("type", JStr "boolean")])])) = false.
Proof.
  apply (merge_never_narrows_to_boolean C2_dst C2_src [] "x"
           (JObj [("type", JStr "array")]) _
           (JObj [("properties", JObj [("y", JObj [("type", JStr "boolean")])])])
           []);
    reflexivity.
Defined.

(** The same for the reference to a partial: [case '>'] hands the
    accumulator's properties to the merge and keeps what it returns. *)
Lemma handlePartial_never_narrows (defName : string) (this this' : Template)
    (acc acc' : Acc) (prop : string) (d : json) :
  lookup prop (properties acc) = Some d ->
  wide d = true ->
  handlePartial defName (this, acc) = Ok (this', acc') ->
  is_str "boolean" (getv "type" (get prop (properties acc'))) = false.
Proof.
  intros Hl Hw. unfold handlePartial.
  destruct (negb (truthy (get defName (_partials this)))); [discriminate|].
  destruct (_mergeSchemaInto (properties acc)
              (get defName (_typeDefinitions this)) (dependencies acc))
    as [[[props partial'] deps]|e] eqn:Em; simpl; [|discriminate].
  destruct (if truthy (getv "required" partial')
            then as_array "forEach" (getv "required" partial')
            else Ok []) as [names|e]; simpl; [|discriminate].
  intros H. inversion H. subst. simpl.
  exact (proj2 (mergeSchemaInto_wide _ _ _ _ _ _ _ _ Hl Hw Em)).
Qed.

End MergeFacts.

(** ** Which names are required *)

Module RequiredFacts.
Import Schema ObjFacts.

Lemma strict_eq_true (a b : json) : strict_eq a b = true -> a = b.
Proof.
  destruct a, b; simpl; try discriminate; intros H; try reflexivity.
  - apply Bool.eqb_prop in H. subst. reflexivity.
  - apply Z.eqb_eq in H. subst. reflexivity.
  - apply String.eqb_eq in H. subst. reflexivity.
Qed.

Lemma set_has_add (x y : json) (s : list json) :
  set_has x (set_add y s) = (set_has x s || strict_eq x y).
Proof.
  unfold set_add, set_has.
  destruct (existsb (strict_eq y) s) eqn:E.
  - destruct (strict_eq x y) eqn:Exy.
    + apply strict_eq_true in Exy. subst. rewrite E. reflexivity.
    + rewrite orb_false_r. reflexivity.
  - rewrite existsb_app. simpl. rewrite orb_false_r. reflexivity.
Qed.

Lemma set_has_delete_same (x : json) (s : list json) :
  set_has x (set_delete x s) = false.
Proof.
  unfold set_has, set_delete. induction s as [|y s IH]; simpl; [reflexivity|].
  destruct (strict_eq x y) eqn:E; simpl; [exact IH|].
  rewrite E. exact IH.
Qed.

Lemma get_delete_other (k k' : string) (o : obj) :
  (k =? k') = false -> get k (delete k' o) = get k o.
Proof.
  intros E. unfold get, delete.
  induction o as [|[k0 v0] o IH]; simpl; [reflexivity|].
  destruct (k' =? k0) eqn:E0; simpl.
  - apply String.eqb_eq in E0. subst k0. rewrite E. exact IH.
  - destruct (k =? k0); [reflexivity | exact IH].
Qed.

Lemma get_delete_same (k : string) (o : obj) : get k (delete k o) = JUndef.
Proof.
  unfold get, delete.
  induction o as [|[k0 v0] o IH]; simpl; [reflexivity|].
  destruct (k =? k0) eqn:E; simpl; [exact IH|].
  rewrite E. exact IH.
Qed.

(** The five conjuncts of [_isPropRequired]. *)
Lemma isPropRequired_iff (propDef : json) :
  _isPropRequired propDef = true
  <-> (getv "format" propDef <> JStr "hidden"
       /\ getv "format" propDef <> JStr "info"
       /\ truthy (getv "mathExpression" propDef) = false
       /\ truthy (getv "dataFile" propDef) = false
       /\ getv "default" propDef = JUndef).
Proof.
  unfold _isPropRequired.
  assert (Hs : forall s v, negb (is_str s v) = true <-> v <> JStr s).
  { intros s v. rewrite negb_true_iff. split.
    - intros H ->. unfold is_str in H. simpl in H.
      rewrite String.eqb_refl in H. discriminate.
    - intros H. destruct (is_str s v) eqn:E; [|reflexivity].
      apply is_str_eq in E. contradiction. }
  assert (Hu : forall v, is_undefined v = true <-> v = JUndef).
  { intros v. destruct v; simpl; split; intros H; try discriminate;
      reflexivity. }
  rewrite !andb_true_iff, !Hs, !negb_true_iff, Hu. tauto.
Qed.

(** The operands of a [mathExpression] never include a name that already
    has a property. *)
Lemma mathOperands_keeps (expr : json) (typeDefs : obj) (k : string) :
  forall (props : obj) (req : list json) (props' : obj) (req' : list json),
  truthy (get k props) = true ->
  mathOperands expr typeDefs props req = Ok (props', req') ->
  set_has (JStr k) req' = set_has (JStr k) req.
Proof.
  induction typeDefs as [|[key defProp] rest IH]; intros props req props' req'
    Hk H; simpl in H.
  - inversion H. reflexivity.
  - destruct (truthy (get key props)) eqn:Ekey; simpl in H.
    + exact (IH _ _ _ _ Hk H).
    + destruct (includes expr key) as [inc|e]; simpl in H; [|discriminate].
      destruct inc.
      * assert (Hne : (k =? key) = false).
        { destruct (k =? key) eqn:E; [|reflexivity].
          apply String.eqb_eq in E. subst. congruence. }
        assert (Hk' : truthy (get k (set key (JObj (assign_all [] [defProp]))
                                       props)) = true).
        { rewrite (get_set_other _ _ _ _ Hne). exact Hk. }
        rewrite (IH _ _ _ _ Hk' H).
        rewrite set_has_add. simpl. rewrite Hne. apply orb_false_r.
      * exact (IH _ _ _ _ Hk H).
Qed.

Section Variable_token.

Variables typeSchemas dataFiles : obj.
Variables toBase64 fromBase64 : string -> string.

Lemma handleName_required (defName : string) (schemaName type : json)
    (this this' : Template) (acc acc' : Acc) :
  handleName typeSchemas dataFiles toBase64 fromBase64 defName schemaName type
    (this, acc) = Ok (this', acc') ->
  exists propDef,
    variableProperty typeSchemas this defName schemaName
      (js_toString (js_or type (JStr "string"))) = Ok propDef
    /\ set_has (JStr defName) (required acc')
       = (set_has (JStr defName) (required acc)
          || _isPropRequired (JObj propDef)).
Proof.
  unfold handleName.
  set (defType := js_toString (js_or type (JStr "string"))).
  destruct (negb (truthy schemaName) && negb (str_in defType primitives));
    [discriminate|].
  destruct (variableProperty typeSchemas this defName schemaName defType)
    as [propDef0|e]; simpl; [|discriminate].
  set (props0 := set defName (JObj propDef0) (properties acc)).
  set (required0 := if _isPropRequired (JObj propDef0)
                    then set_add (JStr defName) (required acc)
                    else required acc).
  set (propDef1 := if is_str "info" (get "format" propDef0)
                      && negb (truthy (get "const" propDef0))
                   then set "const" (JStr EmptyString) propDef0 else propDef0).
  assert (H0 : set_has (JStr defName) required0
               = (set_has (JStr defName) (required acc)
                  || _isPropRequired (JObj propDef0))).
  { unfold required0. destruct (_isPropRequired (JObj propDef0)).
    - rewrite set_has_add. simpl. rewrite String.eqb_refl. reflexivity.
    - rewrite orb_false_r. reflexivity. }
  intros H. exists propDef0. split; [reflexivity|].
  rewrite <- H0. clear H0.
  destruct (truthy (get "mathExpression" propDef1)).
  - match type of H with
    | context [mathOperands ?e ?t ?p ?r] =>
        destruct (mathOperands e t p r) as [[props req]|err] eqn:Em
    end; simpl in H; [|discriminate].
    destruct (resolveDataFile dataFiles toBase64 fromBase64 _) as [pd|err];
      simpl in H; [|discriminate].
    inversion H. subst. simpl.
    assert (Hk : truthy (get defName props0) = true).
    { unfold props0. rewrite get_set_same. reflexivity. }
    exact (mathOperands_keeps _ _ _ _ _ _ _ Hk Em).
  - simpl in H.
    destruct (resolveDataFile dataFiles toBase64 fromBase64 propDef1)
      as [pd|err]; simpl in H; [|discriminate].
    inversion H. subst. reflexivity.
Qed.

End Variable_token.

End RequiredFacts.

Module RequiredClaims.
Import Schema ObjFacts RequiredFacts.

(** C4, as the code has it.  When [_handleParsed] processes a variable
    token, the name of the token is in [required] afterwards if and only if
    it was there before or the property definition produced for the token
    (the type-schema or primitive fragment with the author's definition
    merged on top) has a format that is neither hidden nor info, no truthy
    [mathExpression], no truthy [dataFile] and an undefined [default].  In
    particular a definition with a default does not make the token add its
    name, and the same definition with the default removed passes the test
    exactly when the other four conditions hold. *)
Theorem variable_required_iff (typeSchemas dataFiles : obj)
    (toBase64 fromBase64 : string -> string)
    (defName : string) (schemaName type : json)
    (this this' : Template) (acc acc' : Acc) :
  handleName typeSchemas dataFiles toBase64 fromBase64 defName schemaName type
    (this, acc) = Ok (this', acc') ->
  exists propDef : obj,
    variableProperty typeSchemas this defName schemaName
      (js_toString (js_or type (JStr "string"))) = Ok propDef
    /\ (set_has (JStr defName) (required acc') = true
        <-> set_has (JStr defName) (required acc) = true
            \/ (get "format" propDef <> JStr "hidden"
                /\ get "format" propDef <> JStr "info"
                /\ truthy (get "mathExpression" propDef) = false
                /\ truthy (get "dataFile" propDef) = false
                /\ get "default" propDef = JUndef))
    /\ (get "default" propDef <> JUndef ->
        set_has (JStr defName) (required acc')
        = set_has (JStr defName) (required acc))
    /\ (_isPropRequired (JObj (delete "default" propDef)) = true
        <-> (get "format" propDef <> JStr "hidden"
             /\ get "format" propDef <> JStr "info"
             /\ truthy (get "mathExpression" propDef) = false
             /\ truthy (get "dataFile" propDef) = false)).
Proof.
  intros H.
  destruct (handleName_required _ _ _ _ _ _ _ _ _ _ _ H) as [propDef [Hv Hr]].
  exists propDef. split; [exact Hv|]. split; [|split].
  - rewrite Hr, orb_true_iff, isPropRequired_iff. reflexivity.
  - intros Hd. rewrite Hr.
    destruct (_isPropRequired (JObj propDef)) eqn:E.
    + apply isPropRequired_iff in E. tauto.
    + apply orb_false_r.
  - rewrite isPropRequired_iff. unfold getv. simpl.
    rewrite !get_delete_other by reflexivity. rewrite get_delete_same. tauto.
Qed.

Definition C4_this : Template :=
  set_definitions
    [("size", JObj [("type", JStr "integer"); ("default", JNum 10)])]
    newTemplate.

Definition C4_acc' : Acc :=
  mkAcc [("size", JObj [("type", JStr "integer"); ("default", JNum 10)])]
    [] [].

Lemma variable_required_iff_witness :
  exists propDef : obj,
    variableProperty [] C4_this "size" JUndef
      (js_toString (js_or JUndef (JStr "string"))) = Ok propDef
    /\ (set_has (JStr "size") (required C4_acc') = true
        <-> set_has (JStr "size") (required initialAcc) = true
            \/ (get "format" propDef <> JStr "hidden"
                /\ get "format" propDef <> JStr "info"
                /\ truthy (get "mathExpression" propDef) = false
                /\ truthy (get "dataFile" propDef) = false
                /\ get "default" propDef = JUndef))
    /\ (get "default" propDef <> JUndef ->
        set_has (JStr "size") (required C4_acc')
        = set_has (JStr "size") (required initialAcc))
    /\ (_isPropRequired (JObj (delete "default" propDef)) = true
        <-> (get "format" propDef <> JStr "hidden"
             /\ get "format" propDef <> JStr "info"
             /\ truthy (get "mathExpression" propDef) = false
             /\ truthy (get "dataFile" propDef) = false)).
Proof.
  apply (variable_required_iff [] [] (fun s => s) (fun s => s) "size"
           JUndef JUndef C4_this C4_this initialAcc C4_acc').
  reflexivity.
Defined.

(** The inverted section [{{^foo}}x{{/foo}}]. *)
Definition invertedFoo : list token :=
  [Token "^" "foo" [Token "text" "x" []]].

(** C4 as stated fails: inference produces the property [foo], which has
    no format, no [mathExpression], no [dataFile] and no default, yet
    [foo] is not in [required] (an inverted section removes its name). *)
Lemma required_iff_fails_for_inverted_section :
  ~ (forall (parsed : list token) (this this' : Template) (schema : json)
            (name : string) (propDef : json),
        _handleParsed [] [] (fun s => s) (fun s => s) parsed this
        = Ok (schema, this') ->
        lookup name (entries_of (getv "properties" schema)) = Some propDef ->
        (set_has (JStr name) (values (entries_of (getv "required" schema)))
         = true
         <-> _isPropRequired propDef = true)).
Proof.
  intros H.
  specialize (H invertedFoo newTemplate newTemplate
                (JObj [("type", JStr "object");
                       ("properties",
                        JObj [("foo", JObj [("type", JStr "boolean")])]);
                       ("required", JArr [])])
                "foo" (JObj [("type", JStr "boolean")])
                eq_refl eq_refl).
  destruct H as [_ H]. specialize (H eq_refl). discriminate.
Qed.

End RequiredClaims.

(** ** Redeclaring a section *)

Module SectionFacts.
Import Schema ObjFacts.

(** A computation that can only fail with a [TypeError]. *)
Definition typeErrorsOnly {A : Type} (c : result A) : Prop :=
  match c with
  | Ok _ => True
  | Throw e => is_type_error e = true
  end.

Lemma typeErrorsOnly_bind {A B : Type} (c : result A) (k : A -> result B) :
  typeErrorsOnly c ->
  (forall a, c = Ok a -> typeErrorsOnly (k a)) ->
  typeErrorsOnly (bind c k).
Proof. destruct c; simpl; auto. Qed.

Lemma typeErrorsOnly_member (v : json) (k : string) :
  typeErrorsOnly (member v k).
Proof. unfold member. destruct (is_nullish v); simpl; auto. Qed.

Lemma typeErrorsOnly_as_array (m : string) (v : json) :
  typeErrorsOnly (as_array m v).
Proof. destruct v; simpl; auto. Qed.

Lemma typeErrorsOnly_iterate (v : json) : typeErrorsOnly (iterate v).
Proof. destruct v; simpl; auto. Qed.

Create HintDb type_errors.
#[local] Hint Resolve typeErrorsOnly_member typeErrorsOnly_as_array
  typeErrorsOnly_iterate : type_errors.

Ltac type_errors :=
  repeat first
    [ apply typeErrorsOnly_bind; [| intros ? _ ]
    | progress auto with type_errors
    | exact I ].

Lemma typeErrorsOnly_noOverwrite (dstProps : obj) (prop : string)
    (propDef : json) :
  typeErrorsOnly (noOverwrite dstProps prop propDef).
Proof.
  unfold noOverwrite.
  destruct (truthy _ && truthy _ && _); [|exact I]. type_errors.
Qed.

Lemma typeErrorsOnly_filterProperties (dstProps : obj) (srcProps : json)
    (props : list string) :
  forall filtered,
    typeErrorsOnly (filterProperties dstProps srcProps props filtered).
Proof.
  induction props as [|p props IH]; intros filtered; simpl; [exact I|].
  apply typeErrorsOnly_bind; [apply typeErrorsOnly_noOverwrite|].
  intros a _. apply IH.
Qed.

Lemma typeErrorsOnly_mergeSchemaInto (dstProps : obj) (src : json)
    (dstDeps : obj) :
  typeErrorsOnly (_mergeSchemaInto dstProps src dstDeps).
Proof.
  unfold _mergeSchemaInto.
  apply typeErrorsOnly_bind; [apply typeErrorsOnly_member|].
  intros srcProps _. destruct (truthy srcProps); [|exact I].
  apply typeErrorsOnly_bind; [apply typeErrorsOnly_filterProperties|].
  intros; exact I.
Qed.

Lemma typeErrorsOnly_addDependencies (defName : string) (items : list string) :
  forall deps, typeErrorsOnly (addDependencies defName items deps).
Proof.
  induction items as [|item items IH]; intros deps; simpl; [exact I|].
  apply typeErrorsOnly_bind; [apply typeErrorsOnly_as_array|].
  intros; apply IH.
Qed.

Lemma typeErrorsOnly_dedupRequired (v : json) :
  typeErrorsOnly (dedupRequired v).
Proof.
  unfold dedupRequired. destruct (truthy (getv "required" v)); [|exact I].
  type_errors.
Qed.

(** [case '#'] once [newDef] is built: the two redefinition tests come
    first, and nothing after them throws anything but a [TypeError]. *)
Lemma handleSection_checked (defName : string) (type items : json)
    (this : Template) (acc : Acc) (newDef : obj) :
  let schemaDef :=
    deepmerge defaultArrayMerge
      (js_or (get (js_toString type) (_typeDefinitions this)) (JObj []))
      (js_or (get defName (definitions this)) (JObj [])) in
  let defType := js_or (getv "type" schemaDef) (JStr "array") in
  let existingDef := js_or (get defName (properties acc)) (JObj []) in
  sectionDef defName defType schemaDef items = Ok newDef ->
  match checkRedefinition defName defType existingDef newDef with
  | Throw e => handleSection defName type items (this, acc) = Throw e
  | Ok _ => typeErrorsOnly (handleSection defName type items (this, acc))
  end.
Proof.
  intros schemaDef defType existingDef Hdef.
  unfold handleSection. fold schemaDef. fold defType. fold existingDef.
  rewrite Hdef. simpl.
  destruct (checkRedefinition defName defType existingDef newDef) as [[]|e];
    simpl; [|reflexivity].
  apply typeErrorsOnly_bind.
  { destruct (truthy (getv "properties" items)); [|exact I].
    apply typeErrorsOnly_addDependencies. }
  intros deps1 _.
  apply typeErrorsOnly_bind.
  { destruct (is_str "boolean" defType || is_str "string" defType);
      [apply typeErrorsOnly_mergeSchemaInto | exact I]. }
  intros [[props2 items'] deps2] _.
  apply typeErrorsOnly_bind; [apply typeErrorsOnly_dedupRequired|].
  intros merged1 _.
  apply typeErrorsOnly_bind.
  { destruct (truthy (getv "items" merged1)
              && truthy (getv "required" (getv "items" merged1))); [|exact I].
    apply typeErrorsOnly_bind; [apply typeErrorsOnly_dedupRequired|].
    intros; exact I. }
  intros; exact I.
Qed.

End SectionFacts.

Module SectionClaims.
Import Schema ObjFacts SectionFacts.

(** The tests of [case '#'] compare the declared type with the type that
    is stored for the property.  For a section whose own definition
    [newDef] is well formed (a supported type, no [TypeError] while it is
    built):
    - if the accumulator already has the property with a type different
      from the declared one, the case throws the definition-conflict error
      for the type;
    - if the types do not conflict but both definitions have [items] of
      different types, it throws the definition-conflict error for the
      items;
    - if neither the types nor the item types conflict, it throws no
      error (ill-typed schema data, which JavaScript answers with a
      [TypeError], apart) and returns the new state. *)
Theorem section_redefinition (defName : string) (type items : json)
    (this : Template) (acc : Acc) (newDef : obj) :
  let schemaDef :=
    deepmerge defaultArrayMerge
      (js_or (get (js_toString type) (_typeDefinitions this)) (JObj []))
      (js_or (get defName (definitions this)) (JObj [])) in
  let defType := js_or (getv "type" schemaDef) (JStr "array") in
  let existingDef := js_or (get defName (properties acc)) (JObj []) in
  let existingType := getv "type" existingDef in
  let existingItems := getv "items" existingDef in
  let newItems := get "items" newDef in
  sectionDef defName defType schemaDef items = Ok newDef ->
  (truthy existingType = true ->
   strict_eq existingType defType = false ->
   handleSection defName type items (this, acc)
   = Throw (Redefine defName defType existingType))
  /\ (truthy existingType = false \/ strict_eq existingType defType = true ->
      truthy existingItems = true ->
      truthy newItems = true ->
      strict_eq (getv "type" existingItems) (getv "type" newItems) = false ->
      handleSection defName type items (this, acc)
      = Throw (RedefineItems defName (getv "type" newItems)
                 (getv "type" existingItems)))
  /\ (truthy existingType = false \/ strict_eq existingType defType = true ->
      (truthy existingItems = true -> truthy newItems = true ->
       strict_eq (getv "type" existingItems) (getv "type" newItems) = true) ->
      (forall what,
          handleSection defName type items (this, acc)
          <> Throw (TypeError what)) ->
      exists s', handleSection defName type items (this, acc) = Ok s').
Proof.
  intros schemaDef defType existingDef existingType existingItems newItems
    Hdef.
  pose proof (handleSection_checked defName type items this acc newDef Hdef)
    as Hc.
  fold schemaDef defType existingDef in Hc.
  unfold checkRedefinition in Hc.
  fold existingType existingItems newItems in Hc.
  split; [|split].
  - intros Ht Hne. rewrite Ht, Hne in Hc. exact Hc.
  - intros Hsame Hei Hni Hne.
    assert (E : truthy existingType && negb (strict_eq existingType defType)
                = false).
    { destruct Hsame as [H|H]; rewrite H; [reflexivity | apply andb_false_r]. }
    rewrite E, Hei, Hni, Hne in Hc. exact Hc.
  - intros Hsame Hitems Hno.
    assert (E : truthy existingType && negb (strict_eq existingType defType)
                = false).
    { destruct Hsame as [H|H]; rewrite H; [reflexivity | apply andb_false_r]. }
    rewrite E in Hc.
    assert (E' : truthy existingItems && truthy newItems
                 && negb (strict_eq (getv "type" existingItems)
                            (getv "type" newItems)) = false).
    { destruct (truthy existingItems) eqn:E1; [|reflexivity].
      destruct (truthy newItems) eqn:E2; [|reflexivity].
      rewrite (Hitems eq_refl eq_refl). reflexivity. }
    rewrite E' in Hc.
    destruct (handleSection defName type items (this, acc)) as [s'|e].
    + exists s'. reflexivity.
    + destruct e; simpl in Hc; try discriminate.
      exfalso. exact (Hno what eq_refl).
Qed.

(** The inference used by the examples: no type schemas, no data files. *)
Definition infer : list token -> Template -> result (json * Template) :=
  _handleParsed [] [] (fun s => s) (fun s => s).

Definition schemaOf (parsed : list token) : json :=
  match infer parsed newTemplate with
  | Ok (schema, _) => schema
  | Throw _ => JUndef
  end.

Definition accOf (parsed : list token) : Acc :=
  match reduceTokens [] [] (fun s => s) (fun s => s) parsed
          (newTemplate, initialAcc) with
  | Ok (_, acc) => acc
  | Throw _ => initialAcc
  end.

(** [{{foo}}], then [{{#foo}}{{.}}{{/foo}}] *)
Definition C3_variable : Acc := Eval vm_compute in accOf [Token "name" "foo" []].
Definition C3_dot : json := Eval vm_compute in schemaOf [Token "name" "." []].
(** [{{#foo}}{{a}}{{/foo}}], then a second [{{#foo}}...{{/foo}}] *)
Definition C3_section : Acc :=
  Eval vm_compute in accOf [Token "#" "foo" [Token "name" "a" []]].
Definition C3_b : json := Eval vm_compute in schemaOf [Token "name" "b" []].

Definition C3_arrayOf (items : json) : obj :=
  [("type", JStr "array"); ("items", items); ("skip_xform", JBool true)].

Lemma section_redefinition_witness :
  handleSection "foo" JUndef C3_dot (newTemplate, C3_variable)
  = Throw (Redefine "foo" (JStr "array") (JStr "string"))
  /\ handleSection "foo" JUndef C3_dot (newTemplate, C3_section)
     = Throw (RedefineItems "foo" (JStr "string") (JStr "object"))
  /\ exists s', handleSection "foo" JUndef C3_b (newTemplate, C3_section)
                = Ok s'.
Proof.
  split; [|split].
  - apply (proj1 (section_redefinition "foo" JUndef C3_dot newTemplate
                    C3_variable (C3_arrayOf C3_dot) eq_refl));
      reflexivity.
  - apply (proj1 (proj2 (section_redefinition "foo" JUndef C3_dot newTemplate
                           C3_section (C3_arrayOf C3_dot) eq_refl)));
      try reflexivity.
    right. reflexivity.
  - apply (proj2 (proj2 (section_redefinition "foo" JUndef C3_b newTemplate
                           C3_section (C3_arrayOf C3_b) eq_refl))).
    + right. reflexivity.
    + reflexivity.
    + intros what H. vm_compute in H. discriminate.
Defined.

(** The same three situations on whole token streams. *)
Example redeclare_other_type :
  infer [Token "name" "foo" []; Token "#" "foo" [Token "name" "." []]]
    newTemplate
  = Throw (Redefine "foo" (JStr "array") (JStr "string")).
Proof. reflexivity. Qed.

Example redeclare_other_items :
  infer [Token "#" "foo" [Token "name" "a" []];
         Token "#" "foo" [Token "name" "." []]] newTemplate
  = Throw (RedefineItems "foo" (JStr "string") (JStr "object")).
Proof. reflexivity. Qed.

Example redeclare_same_type :
  exists schema,
    infer [Token "#" "foo" [Token "name" "a" []];
           Token "#" "foo" [Token "name" "b" []]] newTemplate
    = Ok (schema, newTemplate)
    /\ keys (entries_of
               (getv "properties"
                  (getv "items" (getv "foo" (getv "properties" schema)))))
       = ["a"; "b"].
Proof. eexists. split; vm_compute; reflexivity. Qed.

(** A template whose author declares [foo] an object, and a section
    [{{#foo}}x{{/foo}}] without any tag in its body. *)
Definition objectFoo : Template :=
  set_definitions [("foo", JObj [("type", JStr "object")])] newTemplate.

Definition emptyBodied (text : string) : token :=
  Token "#" "foo" [Token "text" text []].

(** The template with the section twice in its text, and the tokens that
    [Mustache.parse] gives for that text. *)
Definition twiceFoo : Template :=
  set_templateText "{{#foo}}x{{/foo}}{{#foo}}y{{/foo}}" objectFoo.

Definition parseSections (text : string) : result (list token) :=
  if text =? "{{#foo}}x{{/foo}}{{#foo}}y{{/foo}}"
  then Ok [emptyBodied "x"; emptyBodied "y"]
  else Ok [Token "text" text []].

(** C3, at the failing input.  The author declares [foo] an object.  The
    first [{{#foo}}x{{/foo}}] is stored with the type string: the body has
    no tag, its schema is the bare [{type: 'string'}], and
    [Object.assign(newDef, items)] writes that type over the declared one.
    The second, identical section is then compared with the stored type and
    rejected as a redefinition.  The same pair of sections with a variable
    in each body is accepted. *)
Theorem identical_object_section_is_rejected :
  getv "type" (get "foo" (definitions objectFoo)) = JStr "object"
  /\ (exists schema,
        infer [emptyBodied "x"] objectFoo = Ok (schema, objectFoo)
        /\ getv "type" (getv "foo" (getv "properties" schema)) = JStr "string")
  /\ infer [emptyBodied "x"; emptyBodied "y"] objectFoo
     = Throw (Redefine "foo" (JStr "object") (JStr "string"))
  /\ Compile._parametersSchemaFromTemplate parseSections (fun s => s)
       (fun s => s) [] [] twiceFoo
     = Throw (Redefine "foo" (JStr "object") (JStr "string"))
  /\ message (Redefine "foo" (JStr "object") (JStr "string"))
     = "attempted to redefine foo as object but it was already defined as string"
  /\ (exists schema,
        infer [Token "#" "foo" [Token "name" "a" []];
               Token "#" "foo" [Token "name" "b" []]] objectFoo
        = Ok (schema, objectFoo)
        /\ getv "type" (getv "foo" (getv "properties" schema)) = JStr "object").
Proof.
  split; [reflexivity|].
  split; [eexists; split; vm_compute; reflexivity|].
  split; [vm_compute; reflexivity|].
  split; [vm_compute; reflexivity|].
  split; [vm_compute; reflexivity|].
  eexists; split; vm_compute; reflexivity.
Qed.

End SectionClaims.

(** ** The schema of a template without properties *)

Module EmptyFacts.
Import Schema Compile ObjFacts.

(** The two tests with which [_handleParsed] collapses its schema. *)
Definition noProperties (acc : Acc) : bool :=
  (truthy (get "." (properties acc))
   && (List.length (keys (properties acc)) =? 1)%nat)
  || (List.length (keys (properties acc)) <? 1)%nat.

Lemma finishParsed_collapses (this : Template) (acc : Acc) :
  noProperties acc = true -> finishParsed this acc = Ok stringSchema.
Proof.
  unfold noProperties, finishParsed. intros H.
  destruct (truthy (get "." (properties acc))
            && (List.length (keys (properties acc)) =? 1)%nat);
    [reflexivity|].
  simpl in H. rewrite H. reflexivity.
Qed.

(** What [_handleParsed] can return. *)
Inductive parsedSchema : json -> Prop :=
| parsed_string : parsedSchema stringSchema
| parsed_object (props required : json) :
    parsedSchema
      (JObj [("type", JStr "object"); ("properties", props);
             ("required", required)])
| parsed_dependent (props required deps : json) :
    parsedSchema
      (JObj [("type", JStr "object"); ("properties", props);
             ("required", required); ("dependencies", deps)]).

Lemma finishParsed_shape (this : Template) (acc : Acc) (schema : json) :
  finishParsed this acc = Ok schema -> parsedSchema schema.
Proof.
  unfold finishParsed.
  destruct (truthy (get "." (properties acc))
            && (List.length (keys (properties acc)) =? 1)%nat).
  { intros H. inversion H. constructor. }
  destruct (List.length (keys (properties acc)) <? 1)%nat.
  { intros H. inversion H. constructor. }
  destruct (defaultOrders (properties acc)) as [props1|e]; simpl;
    [|discriminate].
  destruct (uniqueDependencies _) as [deps2|e]; simpl; [|discriminate].
  intros H. inversion H.
  destruct ((0 <? List.length (keys deps2))%nat
            || (0 <? List.length (keys (_explicitDeps this)))%nat);
    simpl; constructor.
Qed.

Section Compiled.

Variable Mustache_parse : string -> result (list token).
Variables toBase64 fromBase64 : string -> string.
Variables typeSchemas dataFiles : obj.

Lemma handleParsed_shape (parsed : list token) (this this' : Template)
    (schema : json) :
  _handleParsed typeSchemas dataFiles toBase64 fromBase64 parsed this
  = Ok (schema, this') ->
  parsedSchema schema.
Proof.
  unfold _handleParsed.
  destruct (reduceTokens _ _ _ _ parsed (this, initialAcc)) as [[t acc]|e];
    simpl; [|discriminate].
  destruct (finishParsed t acc) as [s|e] eqn:E; simpl; [|discriminate].
  intros H. inversion H. subst. exact (finishParsed_shape _ _ _ E).
Qed.

Lemma type_of_getParametersSchema (this : Template) :
  getv "type" (getParametersSchema this)
  = get "type" (assign [] (entries_of (_parametersSchema this))).
Proof.
  destruct this; simpl. unfold getv; simpl.
  repeat match goal with
         | |- context [if ?c then _ else _] => destruct c
         end;
    unfold assign_all; simpl; unfold assign at 1; simpl;
    repeat (rewrite get_set_other by reflexivity); reflexivity.
Qed.

(** After [_parametersSchemaFromTemplate] the type is always object. *)
Lemma compiled_type_is_object (this this' : Template) :
  _parametersSchemaFromTemplate Mustache_parse toBase64 fromBase64
    typeSchemas dataFiles this = Ok this' ->
  getv "type" (getParametersSchema this') = JStr "object".
Proof.
  unfold _parametersSchemaFromTemplate.
  destruct (prepareDefinitions _ _ _ _ _ _) as [this2|e]; simpl;
    [|discriminate].
  destruct (Mustache_parse (templateText this2)) as [tokens|e]; simpl;
    [|discriminate].
  destruct (handleParsed toBase64 fromBase64 typeSchemas dataFiles tokens this2)
    as [[schema this3]|e] eqn:Eh; simpl; [|discriminate].
  destruct (getRefDefs _) as [refDefs|e]; simpl; [|discriminate].
  intros H. inversion H. subst this'. clear H.
  rewrite type_of_getParametersSchema.
  apply handleParsed_shape in Eh.
  destruct this3; simpl.
  destruct Eh; unfold getv; simpl;
    try match goal with
        | |- context [truthy ?p] => destruct (truthy p)
        end; reflexivity.
Qed.

End Compiled.

End EmptyFacts.

Module EmptyClaims.
Import Schema Compile ObjFacts EmptyFacts.

(** Comments and literal text leave the accumulator as it is. *)
Lemma reduce_comments_and_text (typeSchemas dataFiles : obj)
    (toBase64 fromBase64 : string -> string) (parsed : list token)
    (s : Template * Acc) :
  Forall (fun tok => match tok with
                     | Token ty _ _ => str_in ty ["!"; "text"] = true
                     end) parsed ->
  reduceTokens typeSchemas dataFiles toBase64 fromBase64 parsed s = Ok s.
Proof.
  intros H. revert s.
  induction H as [|[ty nm ch] parsed Hty _ IH]; intros s; simpl;
    [reflexivity|].
  unfold handleCase, resolveTypeSchema.
  assert (E : (ty = "!" \/ ty = "text")).
  { unfold str_in in Hty. simpl in Hty.
    rewrite !orb_true_iff in Hty.
    destruct Hty as [H|[H|H]]; [| |discriminate];
      apply String.eqb_eq in H; auto. }
  destruct E as [-> | ->]; simpl; destruct s; apply IH.
Qed.

(** C1, as the code has it.  For a template whose tag stream yields no
    properties (no tags, only comments and text, or only the placeholder
    [.]), [_handleParsed] returns the bare schema of type string, and
    [_parametersSchemaFromTemplate] rewrites it: the schema that
    [getParametersSchema()] returns has type object. *)
Theorem propertyless_template_schema
    (Mustache_parse : string -> result (list token))
    (toBase64 fromBase64 : string -> string) (typeSchemas dataFiles : obj)
    (this this2 this3 this' : Template) (tokens : list token) (acc : Acc) :
  prepareDefinitions Mustache_parse toBase64 fromBase64 typeSchemas dataFiles
    this = Ok this2 ->
  Mustache_parse (templateText this2) = Ok tokens ->
  reduceTokens typeSchemas dataFiles toBase64 fromBase64 tokens
    (this2, initialAcc) = Ok (this3, acc) ->
  noProperties acc = true ->
  _parametersSchemaFromTemplate Mustache_parse toBase64 fromBase64
    typeSchemas dataFiles this = Ok this' ->
  _handleParsed typeSchemas dataFiles toBase64 fromBase64 tokens this2
  = Ok (stringSchema, this3)
  /\ getv "type" (getParametersSchema this') = JStr "object".
Proof.
  intros _ _ Hr Hn Hc. split.
  - unfold _handleParsed. rewrite Hr. simpl.
    rewrite (finishParsed_collapses _ _ Hn). reflexivity.
  - exact (compiled_type_is_object _ _ _ _ _ _ _ Hc).
Qed.

(** A template whose text is a comment: [{{!note}}]. *)
Definition commentTokens : list token := [Token "!" "note" []].
Definition parseComment (text : string) : result (list token) :=
  Ok commentTokens.
Definition commentTemplate : Template :=
  set_templateText "{{!note}}" newTemplate.

Definition compiledComment : Template :=
  Eval vm_compute in
    match _parametersSchemaFromTemplate parseComment (fun s => s) (fun s => s)
            [] [] commentTemplate with
    | Ok t => t
    | Throw _ => newTemplate
    end.

Lemma propertyless_template_schema_witness :
  _handleParsed [] [] (fun s => s) (fun s => s) commentTokens commentTemplate
  = Ok (stringSchema, commentTemplate)
  /\ getv "type" (getParametersSchema compiledComment) = JStr "object".
Proof.
  apply (propertyless_template_schema parseComment (fun s => s) (fun s => s)
           [] [] commentTemplate commentTemplate commentTemplate
           compiledComment commentTokens initialAcc);
    reflexivity.
Defined.

(** C1 as stated fails: the schema of the template without any tag is not
    of type string. *)
Lemma empty_template_schema_is_not_string :
  ~ (forall (Mustache_parse : string -> result (list token))
            (this this' : Template),
        Mustache_parse (templateText this) = Ok [] ->
        _parametersSchemaFromTemplate Mustache_parse (fun s => s) (fun s => s)
          [] [] this = Ok this' ->
        getv "type" (getParametersSchema this') = JStr "string").
Proof.
  intros H.
  specialize (H (fun _ => Ok []) newTemplate
                (set_parametersSchema
                   (JObj [("type", JStr "object"); ("properties", JObj [])])
                   newTemplate)
                eq_refl eq_refl).
  discriminate.
Qed.

End EmptyClaims.

(** ** Rendering *)

Module RenderFacts.
Import Schema Compile Render.

Section Rendered.

Variable Mustache_render : string -> json -> obj -> result string.
Variable JSON_stringify : json -> string.
Variable JSON_stringify2 : json -> string.
Variable yaml_load : string -> result json.
Variable yaml_dump : json -> result string.
Variable mexp_eval : json -> list json -> obj -> result json.

Abbreviation combined := (getCombinedParameters mexp_eval).
Abbreviation validated := (validateParameters JSON_stringify2 mexp_eval).
Abbreviation rendered :=
  (render Mustache_render JSON_stringify JSON_stringify2 yaml_load yaml_dump
     mexp_eval).
Abbreviation renderedRoot :=
  (renderRoot Mustache_render JSON_stringify JSON_stringify2 yaml_load
     yaml_dump).

Lemma getCombinedParameters_eq (this : Template) (parameters : json) :
  combined this parameters
  = (let parameters := js_or parameters (JObj []) in
     d1 <- pushEach (fun tmpl => combined tmpl parameters) (_oneOf this) [] ;;
     d2 <- pushEach (fun tmpl => combined tmpl parameters) (_allOf this) d1 ;;
     d3 <- pushEach (fun tmpl => combined tmpl parameters) (_anyOf this) d2 ;;
     combine mexp_eval this parameters d3).
Proof. destruct this; reflexivity. Qed.

Lemma render_eq (this : Template) (parameters : json) (skipValidation : bool) :
  rendered this parameters skipValidation
  = (_ <- (if negb skipValidation then validated this parameters
           else Ok tt) ;;
     combParams <- combined this parameters ;;
     t1 <- pushEach (fun tmpl => rendered tmpl combParams true)
             (_allOf this) [] ;;
     t2 <- pushEachTolerant (fun tmpl => rendered tmpl combParams true)
             (_anyOf this) t1 ;;
     t3 <- pushEachTolerant (fun tmpl => rendered tmpl combParams true)
             (_oneOf this) t2 ;;
     renderedRoot this combParams t3).
Proof. destruct this; reflexivity. Qed.

(** A missing argument is the empty object from the first statement on. *)
Lemma combined_missing (this : Template) (parameters : json) :
  truthy parameters = false ->
  combined this parameters = combined this (JObj []).
Proof.
  intros H. rewrite !getCombinedParameters_eq. unfold js_or.
  rewrite H. reflexivity.
Qed.

Lemma validated_missing (this : Template) (parameters : json) :
  truthy parameters = false ->
  (validated this parameters = Ok tt <-> validated this (JObj []) = Ok tt).
Proof.
  intros H. unfold validateParameters. rewrite (combined_missing _ _ H).
  destruct (combined this (JObj [])) as [combParams|e]; simpl;
    [|split; discriminate].
  destruct (_parametersValidator this) as [validate|];
    [|split; discriminate].
  destruct (validate combParams); split; (discriminate || reflexivity).
Qed.

Lemma rendered_missing (this : Template) (parameters : json)
    (skipValidation : bool) (out : string) :
  truthy parameters = false ->
  (rendered this parameters skipValidation = Ok out
   <-> rendered this (JObj []) skipValidation = Ok out).
Proof.
  intros H. rewrite !render_eq. rewrite (combined_missing _ _ H).
  destruct skipValidation; simpl; [reflexivity|].
  pose proof (validated_missing this parameters H) as Hv.
  destruct (validated this parameters) as [[]|e];
    destruct (validated this (JObj [])) as [[]|e']; simpl.
  - reflexivity.
  - exfalso. destruct Hv as [Hv _]. specialize (Hv eq_refl). discriminate.
  - exfalso. destruct Hv as [_ Hv]. specialize (Hv eq_refl). discriminate.
  - split; discriminate.
Qed.

(** The loops of [render]. *)
Lemma pushEach_app {A B : Type} (f : A -> result B) (pre post : list A)
    (out : list B) :
  pushEach f (pre ++ post) out
  = (out' <- pushEach f pre out ;; pushEach f post out').
Proof.
  revert out. induction pre as [|x pre IH]; intros out; simpl; [reflexivity|].
  destruct (f x); simpl; [apply IH | reflexivity].
Qed.

Lemma pushEachTolerant_app {A B : Type} (f : A -> result B)
    (pre post : list A) (out : list B) :
  pushEachTolerant f (pre ++ post) out
  = (out' <- pushEachTolerant f pre out ;; pushEachTolerant f post out').
Proof.
  revert out. induction pre as [|x pre IH]; intros out; simpl; [reflexivity|].
  destruct (f x) as [y|e]; simpl; [apply IH|].
  destruct (contains "failed validation" (message e)); [apply IH|reflexivity].
Qed.

End Rendered.

End RenderFacts.

Module RenderClaims.
Import Schema Compile Render ObjFacts RenderFacts.

(** The outcome of a call with the missing argument [p] beside the outcome
    of the call with [{}]: the same result, or the same error, or the
    parameter-validation error that quotes [p] where the other quotes
    [{}]. *)
Definition sameButEcho (JSON_stringify2 : json -> string) (p : json)
    {A : Type} (r r0 : result A) : Prop :=
  match r, r0 with
  | Ok a, Ok a0 => a = a0
  | Throw e, Throw e0 =>
      e = e0
      \/ exists errors,
           e = ValidationFailed (stringified JSON_stringify2 p) errors
           /\ e0 = ValidationFailed (stringified JSON_stringify2 (JObj []))
                     errors
  | _, _ => False
  end.

Section Missing.

Variable Mustache_render : string -> json -> obj -> result string.
Variable JSON_stringify : json -> string.
Variable JSON_stringify2 : json -> string.
Variable yaml_load : string -> result json.
Variable yaml_dump : json -> result string.
Variable mexp_eval : json -> list json -> obj -> result json.

Abbreviation combined := (getCombinedParameters mexp_eval).
Abbreviation validated := (validateParameters JSON_stringify2 mexp_eval).
Abbreviation rendered :=
  (render Mustache_render JSON_stringify JSON_stringify2 yaml_load yaml_dump
     mexp_eval).

Lemma sameButEcho_same (p : json) {A : Type} (r : result A) :
  sameButEcho JSON_stringify2 p r r.
Proof. destruct r; simpl; auto. Qed.

Lemma validated_echo (this : Template) (p : json) :
  truthy p = false ->
  sameButEcho JSON_stringify2 p (validated this p) (validated this (JObj [])).
Proof.
  intros H. unfold validateParameters. rewrite (combined_missing _ _ _ H).
  destruct (combined this (JObj [])) as [combParams|e]; cbn [bind];
    [|left; reflexivity].
  destruct (_parametersValidator this) as [validate|]; [|left; reflexivity].
  destruct (validate combParams) as [errors|]; [|reflexivity].
  right. eexists. split; reflexivity.
Qed.

Lemma rendered_unvalidated (this : Template) (p : json) :
  truthy p = false ->
  rendered this p true = rendered this (JObj []) true.
Proof.
  intros H. rewrite !render_eq, (combined_missing _ _ _ H). reflexivity.
Qed.

Lemma rendered_echo (this : Template) (p : json) :
  truthy p = false ->
  sameButEcho JSON_stringify2 p (rendered this p false)
    (rendered this (JObj []) false).
Proof.
  intros H. pose proof (validated_echo this p H) as Hv.
  rewrite !render_eq, (combined_missing _ _ _ H). cbn [negb].
  destruct (validated this p) as [[]|e];
    destruct (validated this (JObj [])) as [[]|e0]; cbn [bind];
    try contradiction.
  - apply sameButEcho_same.
  - exact Hv.
Qed.


End Missing.

Section ErrorPolicy.

Variable Mustache_render : string -> json -> obj -> result string.
Variable JSON_stringify : json -> string.
Variable JSON_stringify2 : json -> string.
Variable yaml_load : string -> result json.
Variable yaml_dump : json -> result string.
Variable mexp_eval : json -> list json -> obj -> result json.

Abbreviation combined := (getCombinedParameters mexp_eval).
Abbreviation validated := (validateParameters JSON_stringify2 mexp_eval).
Abbreviation rendered :=
  (render Mustache_render JSON_stringify JSON_stringify2 yaml_load yaml_dump
     mexp_eval).

(** The message of every parameter-validation error matches the pattern
    of the [catch] clauses. *)
Lemma validation_message_matches (parameters errors : string) :
  contains "failed validation" (message (ValidationFailed parameters errors))
  = true.
Proof. reflexivity. Qed.

(** C5, as the code has it.  Once the parameters are validated (or the
    validation is skipped) and combined:
    - an error of an [allOf] sub-template aborts [render] with that error;
    - an error of an [anyOf] or [oneOf] sub-template is dropped, and the
      branch contributes no text, if and only if its message contains
      [failed validation]; otherwise it aborts [render] with that error;
    - an error of the root's own [Mustache.render] aborts [render];
    - the message of a parameter-validation error contains
      [failed validation]. *)
Theorem render_error_policy (this : Template) (parameters : json)
    (skipValidation : bool) (combParams : json) :
  (if negb skipValidation then validated this parameters else Ok tt) = Ok tt ->
  combined this parameters = Ok combParams ->
  let sub := fun tmpl => rendered tmpl combParams true in
  (forall pre x post texts e,
      _allOf this = (pre ++ x :: post)%list ->
      pushEach sub pre [] = Ok texts ->
      sub x = Throw e ->
      rendered this parameters skipValidation = Throw e)
  /\ (forall t1 pre x post texts e,
        pushEach sub (_allOf this) [] = Ok t1 ->
        _anyOf this = (pre ++ x :: post)%list ->
        pushEachTolerant sub pre t1 = Ok texts ->
        sub x = Throw e ->
        (contains "failed validation" (message e) = true ->
         pushEachTolerant sub (_anyOf this) t1
         = pushEachTolerant sub post texts)
        /\ (contains "failed validation" (message e) = false ->
            rendered this parameters skipValidation = Throw e))
  /\ (forall t1 t2 pre x post texts e,
        pushEach sub (_allOf this) [] = Ok t1 ->
        pushEachTolerant sub (_anyOf this) t1 = Ok t2 ->
        _oneOf this = (pre ++ x :: post)%list ->
        pushEachTolerant sub pre t2 = Ok texts ->
        sub x = Throw e ->
        (contains "failed validation" (message e) = true ->
         pushEachTolerant sub (_oneOf this) t2
         = pushEachTolerant sub post texts)
        /\ (contains "failed validation" (message e) = false ->
            rendered this parameters skipValidation = Throw e))
  /\ (forall t1 t2 t3 e,
        pushEach sub (_allOf this) [] = Ok t1 ->
        pushEachTolerant sub (_anyOf this) t1 = Ok t2 ->
        pushEachTolerant sub (_oneOf this) t2 = Ok t3 ->
        Mustache_render (_cleanTemplateText (templateText this))
          (transformParameters JSON_stringify this combParams)
          (_partials this) = Throw e ->
        rendered this parameters skipValidation = Throw e)
  /\ (forall p errors,
        contains "failed validation" (message (ValidationFailed p errors))
        = true).
Proof.
  intros Hv Hc sub.
  assert (Hr : rendered this parameters skipValidation
               = (t1 <- pushEach sub (_allOf this) [] ;;
                  t2 <- pushEachTolerant sub (_anyOf this) t1 ;;
                  t3 <- pushEachTolerant sub (_oneOf this) t2 ;;
                  renderRoot Mustache_render JSON_stringify JSON_stringify2
                    yaml_load yaml_dump this combParams t3)).
  { rewrite render_eq, Hv. simpl. rewrite Hc. reflexivity. }
  split; [|split; [|split; [|split]]].
  - intros pre x post texts e Hl Hpre Hx.
    rewrite Hr, Hl, pushEach_app, Hpre. simpl. rewrite Hx. reflexivity.
  - intros t1 pre x post texts e Hall Hl Hpre Hx. split; intros Hm.
    + rewrite Hl, pushEachTolerant_app, Hpre. simpl. rewrite Hx, Hm.
      reflexivity.
    + rewrite Hr, Hall. simpl.
      rewrite Hl, pushEachTolerant_app, Hpre. simpl. rewrite Hx, Hm.
      reflexivity.
  - intros t1 t2 pre x post texts e Hall Hany Hl Hpre Hx. split; intros Hm.
    + rewrite Hl, pushEachTolerant_app, Hpre. simpl. rewrite Hx, Hm.
      reflexivity.
    + rewrite Hr, Hall. simpl. rewrite Hany. simpl.
      rewrite Hl, pushEachTolerant_app, Hpre. simpl. rewrite Hx, Hm.
      reflexivity.
  - intros t1 t2 t3 e Hall Hany Hone He.
    rewrite Hr, Hall. simpl. rewrite Hany. simpl. rewrite Hone. simpl.
    unfold renderRoot. rewrite He. reflexivity.
  - exact validation_message_matches.
Qed.

End ErrorPolicy.

(** A template whose section is never closed, as [fromJson] can build
    it, merged into a root through [anyOf].  The tokenizer answers the
    text as mustache.js does. *)
Definition unclosed : string := "{{#failed validation}}".

Definition unclosedError : Error :=
  External ("Unclosed section " ++ dq ++ "failed validation" ++ dq ++ " at 22").

Definition parseToy (text : string) : result (list token) :=
  if text =? unclosed then Throw unclosedError
  else Ok [Token "text" text []].

Definition engineToy (template : string) (view : json) (partials : obj)
  : result string :=
  Mustache.render parseToy Mustache.escape partials 8 template view.

Definition loadToy (text : string) : result json := Ok (JStr text).
Definition dumpToy (v : json) : result string := Ok (js_toString v).
Definition mexpToy (expr : json) (tokens : list json) (pairs : obj)
  : result json := Ok (JNum 0).

Definition renderToy : Template -> json -> bool -> result string :=
  render engineToy js_toString js_toString loadToy dumpToy mexpToy.

Definition brokenBranch : Template := set_templateText unclosed newTemplate.

Definition rootWithBranch : Template :=
  set_subTemplates [] [] [brokenBranch] (set_templateText "root" newTemplate).

Definition rootWithPart : Template :=
  set_subTemplates [] [brokenBranch] [] (set_templateText "root" newTemplate).

Lemma render_error_policy_witness :
  pushEachTolerant (fun tmpl => renderToy tmpl (JObj []) true)
    (_anyOf rootWithBranch) []
  = pushEachTolerant (fun tmpl => renderToy tmpl (JObj []) true) [] []
  /\ renderToy rootWithPart (JObj []) true = Throw unclosedError.
Proof.
  split.
  - apply (proj1
             (proj1
                (proj2
                   (render_error_policy engineToy js_toString js_toString
                      loadToy dumpToy mexpToy rootWithBranch (JObj []) true
                      (JObj []) eq_refl eq_refl))
                [] [] brokenBranch [] [] unclosedError
                eq_refl eq_refl eq_refl eq_refl)).
    reflexivity.
  - apply (proj1
             (render_error_policy engineToy js_toString js_toString
                loadToy dumpToy mexpToy rootWithPart (JObj []) true
                (JObj []) eq_refl eq_refl)
             [] brokenBranch [] [] unclosedError
             eq_refl eq_refl eq_refl).
Defined.

(** C5 as stated fails: the error of the [anyOf] branch is not a
    parameter-validation error (it comes from the tokenizer), yet it is
    dropped and the root renders. *)
Lemma non_validation_error_is_swallowed :
  renderToy brokenBranch (JObj []) true = Throw unclosedError
  /\ (forall parameters errors,
        unclosedError <> ValidationFailed parameters errors)
  /\ renderToy rootWithBranch (JObj []) true = Ok "root".
Proof.
  split; [reflexivity|]. split; [discriminate | reflexivity].
Qed.

(** A template whose validator asks for a [name]. *)
Definition requiresName : Validator :=
  fun parameters =>
    if is_undefined (getv "name" parameters)
    then Some (JArr [JObj [("keyword", JStr "required")]])
    else None.

Definition named : Template :=
  set_parametersValidator (Some requiresName) newTemplate.


End RenderClaims.

(** ** Merging rendered fragments *)

Module MergeStrategyClaims.
Import Schema Render ObjFacts.

(** [mergeObject] of [deepmerge], as a function of its own. *)
Section MergeObject.
Variable am : arrayMerge.
Variable target : json.

Fixpoint mergeMembers (l : obj) (destination : obj) : obj :=
  match l with
  | [] => destination
  | (k, v) :: r =>
      mergeMembers r
        (set k
           (if propertyIsOnObject target k && isMergeableObject v
            then deepmerge am (getv k target) v
            else v)
           destination)
  end.
End MergeObject.

Lemma deepmerge_objects (am : arrayMerge) (tm sm : obj) :
  deepmerge am (JObj tm) (JObj sm)
  = JObj (mergeMembers am (JObj tm) sm tm).
Proof. reflexivity. Qed.

Lemma get_mergeMembers_absent (am : arrayMerge) (target : json) (k : string)
    (l : obj) :
  forall destination,
    existsb (String.eqb k) (map fst l) = false ->
    get k (mergeMembers am target l destination) = get k destination.
Proof.
  induction l as [|[k0 v0] l IH]; intros destination H; simpl in *;
    [reflexivity|].
  apply orb_false_iff in H. destruct H as [Hk Hl].
  rewrite (IH _ Hl). apply get_set_other. exact Hk.
Qed.

Lemma get_mergeMembers (am : arrayMerge) (target : json) (k : string)
    (v : json) (l : obj) :
  forall destination,
    uniqueKeys l = true ->
    lookup k l = Some v ->
    get k (mergeMembers am target l destination)
    = (if propertyIsOnObject target k && isMergeableObject v
       then deepmerge am (getv k target) v
       else v).
Proof.
  induction l as [|[k0 v0] l IH]; intros destination Hu Hl; simpl in *;
    [discriminate|].
  apply andb_true_iff in Hu. destruct Hu as [Hk0 Hu].
  destruct (k =? k0) eqn:E.
  - apply String.eqb_eq in E. subst k0. inversion Hl. subst v0.
    rewrite get_mergeMembers_absent by (apply negb_true_iff; exact Hk0).
    apply get_set_same.
  - exact (IH _ Hu Hl).
Qed.

Section Strategies.

Variable JSON_stringify2 : json -> string.
Variable yaml_load : string -> result json.
Variable yaml_dump : json -> result string.

(** C6, as the code has it.  Under [application/json] two fragments that
    load as objects are deep-merged with the default options of
    [deepmerge]: where both have an array at the same key, the merged
    array is the earlier fragment's array followed by the later one's.
    The JSON strategy serialises that merged value with
    [JSON.stringify(..., null, 2)], the YAML strategies the same merged
    value with [yaml.dump]. *)
Theorem structured_merge_concatenates_arrays (acc curr : string)
    (earlier later : obj) (k : string) (xs ys : list json) :
  yaml_load acc = Ok (JObj earlier) ->
  yaml_load curr = Ok (JObj later) ->
  uniqueKeys later = true ->
  lookup k earlier = Some (JArr xs) ->
  lookup k later = Some (JArr ys) ->
  exists merged,
    mergeFragments yaml_load acc curr = Ok merged
    /\ getv k merged = JArr (xs ++ ys)
    /\ JsonMergeStrategy JSON_stringify2 yaml_load acc curr
       = Ok (JSON_stringify2 merged)
    /\ YamlMergeStrategy yaml_load yaml_dump acc curr = yaml_dump merged.
Proof.
  intros Ha Hc Hu Hx Hy.
  exists (deepmerge defaultArrayMerge (JObj earlier) (JObj later)).
  assert (Hm : mergeFragments yaml_load acc curr
               = Ok (deepmerge defaultArrayMerge (JObj earlier) (JObj later))).
  { unfold mergeFragments. rewrite Ha, Hc. reflexivity. }
  split; [exact Hm|]. split; [|split].
  - rewrite deepmerge_objects. unfold getv. simpl.
    rewrite (get_mergeMembers _ _ _ _ _ _ Hu Hy). simpl.
    rewrite Hx. simpl. unfold getv, get. simpl. rewrite Hx. reflexivity.
  - unfold JsonMergeStrategy. rewrite Hm. reflexivity.
  - unfold YamlMergeStrategy. rewrite Hm. reflexivity.
Qed.

End Strategies.

(** Two fragments in YAML flow syntax and what [yaml.load] makes of them. *)
Definition fragmentOne : string := "{k: [1]}".
Definition fragmentTwo : string := "{k: [2]}".

Definition loadFragment (text : string) : result json :=
  if text =? fragmentOne then Ok (JObj [("k", JArr [JNum 1])])
  else if text =? fragmentTwo then Ok (JObj [("k", JArr [JNum 2])])
  else Throw (External "unexpected fragment").

Lemma structured_merge_witness :
  exists merged,
    mergeFragments loadFragment fragmentOne fragmentTwo = Ok merged
    /\ getv "k" merged = JArr ([JNum 1] ++ [JNum 2])
    /\ JsonMergeStrategy js_toString loadFragment fragmentOne fragmentTwo
       = Ok (js_toString merged)
    /\ YamlMergeStrategy loadFragment (fun v => Ok (js_toString v))
         fragmentOne fragmentTwo
       = Ok (js_toString merged).
Proof.
  apply (structured_merge_concatenates_arrays js_toString loadFragment
           (fun v => Ok (js_toString v)) fragmentOne fragmentTwo
           [("k", JArr [JNum 1])] [("k", JArr [JNum 2])] "k"
           [JNum 1] [JNum 2]);
    reflexivity.
Defined.

(** C6 as stated fails: the array of the later fragment does not replace
    the array of the earlier one. *)
Lemma later_array_does_not_replace :
  ~ (forall (yaml_load : string -> result json) (acc curr : string)
            (earlier later : obj) (k : string) (ys : list json)
            (merged : json),
        yaml_load acc = Ok (JObj earlier) ->
        yaml_load curr = Ok (JObj later) ->
        lookup k later = Some (JArr ys) ->
        mergeFragments yaml_load acc curr = Ok merged ->
        getv k merged = JArr ys).
Proof.
  intros H.
  specialize (H loadFragment fragmentOne fragmentTwo
                [("k", JArr [JNum 1])] [("k", JArr [JNum 2])] "k" [JNum 2]
                (JObj [("k", JArr [JNum 1; JNum 2])])
                eq_refl eq_refl eq_refl eq_refl).
  discriminate.
Qed.

End MergeStrategyClaims.

(** ** No HTML escaping *)

Module EscapeClaims.
Import Schema Compile Render ObjFacts.

Lemma append_empty (s : string) : s ++ EmptyString = s.
Proof. induction s as [|a s IH]; simpl; [reflexivity | rewrite IH; reflexivity]. Qed.

(** What the default of mustache.js would have made of a value, and what
    the override makes of it. *)
Example escaping_by_default :
  Mustache.escapedValue Mustache.escapeHtml (JStr "<Tom & Jerry>")
  = "&lt;Tom &amp; Jerry&gt;"
  /\ Mustache.escapedValue Mustache.escape (JStr "<Tom & Jerry>")
     = "<Tom & Jerry>".
Proof. split; reflexivity. Qed.

Section Escape.

Variable Mustache_parse : string -> result (list token).
Variable JSON_stringify : json -> string.
Variable JSON_stringify2 : json -> string.
Variable yaml_load : string -> result json.
Variable yaml_dump : json -> result string.
Variable mexp_eval : json -> list json -> obj -> result json.
(** The bound on nested partials. *)
Variable depth : nat.

(** [Mustache.render] with the escape function of [lib/template.js]. *)
Definition Mustache_render (template : string) (view : json) (partials : obj)
  : result string :=
  Mustache.render Mustache_parse Mustache.escape partials depth template view.

(** The escape function that [lib/template.js] installs returns its
    argument; an escaped variable tag whose value is a string therefore
    renders that string itself; and [render], for a plain-text template
    made of text around one variable, returns the text with the string
    parameter in it, character for character. *)
Theorem values_are_not_escaped (text pre name post v : string) :
  Mustache_parse (_cleanTemplateText text)
  = Ok [Token "text" pre []; Token "name" name []; Token "text" post []] ->
  (name =? ".") = false ->
  Mustache.dotted name = false ->
  (forall value, Mustache.escape value = value)
  /\ (forall partials renderPartialTokens context,
         Mustache.contextLookup name context = Ok (JStr v) ->
         Mustache.renderToken Mustache_parse Mustache.escape partials
           renderPartialTokens (Token "name" name []) context
         = Ok v)
  /\ render Mustache_render JSON_stringify JSON_stringify2 yaml_load
       yaml_dump mexp_eval (set_templateText text newTemplate)
       (JObj [(name, JStr v)]) true
     = Ok (pre ++ v ++ post).
Proof.
  intros Hp Hdot Hdotted. split; [reflexivity|]. split.
  - intros partials renderPartialTokens context Hl. simpl.
    rewrite Hl. reflexivity.
  - set (this := set_templateText text newTemplate).
    set (params := JObj [(name, JStr v)]).
    assert (Hc : getCombinedParameters mexp_eval this params = Ok params)
      by reflexivity.
    assert (Hx : transformParameters JSON_stringify this params = params).
    { unfold transformParameters, params. cbn.
      unfold getv, get. cbn. rewrite String.eqb_refl. reflexivity. }
    assert (Hr : forall f,
               Mustache.renderEach Mustache_parse Mustache.escape [] f
                 [Token "text" pre []; Token "name" name []; Token "text" post []]
                 [params]
               = Ok (pre ++ v ++ post)).
    { intros f. cbn. rewrite Hdot, Hdotted. unfold member. cbn.
      unfold Mustache.hasProperty, getv, get. cbn. rewrite String.eqb_refl. cbn.
      rewrite append_empty. reflexivity. }
    assert (He : Mustache_render (_cleanTemplateText text) params [] 
                 = Ok (pre ++ v ++ post)).
    { unfold Mustache_render, Mustache.render. rewrite Hp. cbn.
      destruct depth; [exact (Hr _) | exact (Hr _)]. }
    rewrite RenderFacts.render_eq, Hc.
    change (_allOf this) with (@nil Template).
    change (_anyOf this) with (@nil Template).
    change (_oneOf this) with (@nil Template).
    cbn [bind negb pushEach pushEachTolerant].
    unfold renderRoot. rewrite Hx.
    change (_partials this) with (@nil (string * json)).
    change (templateText this) with text.
    rewrite He. reflexivity.
Qed.

End Escape.

Definition parseHello (text : string) : result (list token) :=
  Ok [Token "text" "Hello " []; Token "name" "name" []; Token "text" "!" []].

Lemma values_are_not_escaped_witness :
  (forall value, Mustache.escape value = value)
  /\ (forall partials renderPartialTokens context,
         Mustache.contextLookup "name" context = Ok (JStr "<Tom & Jerry>") ->
         Mustache.renderToken parseHello Mustache.escape partials
           renderPartialTokens (Token "name" "name" []) context
         = Ok "<Tom & Jerry>")
  /\ render (Mustache_render parseHello 8) js_toString js_toString
       (fun s => Ok (JStr s)) (fun v => Ok (js_toString v))
       (fun _ _ _ => Ok (JNum 0))
       (set_templateText "Hello {{name}}!" newTemplate)
       (JObj [("name", JStr "<Tom & Jerry>")]) true
     = Ok ("Hello " ++ "<Tom & Jerry>" ++ "!").
Proof.
  apply (values_are_not_escaped parseHello js_toString js_toString
           (fun s => Ok (JStr s)) (fun v => Ok (js_toString v))
           (fun _ _ _ => Ok (JNum 0)) 8
           "Hello {{name}}!" "Hello " "name" "!" "<Tom & Jerry>");
    reflexivity.
Defined.

End EscapeClaims.

(** ** Cross-file references *)

Module ReferenceClaims.
Import Schema Compile LoadYaml.

Section Checked.

Variable RefParser_resolve : RefParserArgs -> result (list string).
Variable RefParser_bundle : RefParserArgs -> result json.
Variable path_relative : string -> string -> string.
Variable path_sep : ascii.
Variable cwd : string.
Variable yaml_load : string -> result json.
Variable JSON_stringify2 : json -> string.
Variable sha256_hex : string -> string.
Variable _validateSchema : string -> option json.
Variable continueLoad : Settings -> json -> Template -> result Template.

Lemma checkRefs_outside (rootDir : string) (refs : list string) :
  existsb (outside path_relative rootDir) refs = true ->
  exists ref,
    In ref refs /\ outside path_relative rootDir ref = true
    /\ checkRefs path_relative rootDir refs = Throw (RefOutside ref).
Proof.
  induction refs as [|r refs IH]; simpl; [discriminate|].
  destruct (outside path_relative rootDir r) eqn:E; simpl.
  - intros _. exists r. auto.
  - intros H. destruct (IH H) as [ref [Hin [Ho Hc]]]. exists ref. auto.
Qed.

Lemma checkRefs_inside (rootDir : string) (refs : list string) :
  existsb (outside path_relative rootDir) refs = false ->
  checkRefs path_relative rootDir refs = Ok tt.
Proof.
  induction refs as [|r refs IH]; simpl; [reflexivity|].
  destruct (outside path_relative rootDir r); simpl; [discriminate|exact IH].
Qed.

(** C7, as the code has it.  When [loadYaml] is given a root directory
    and no template provider, the paths that the document's references
    resolve to are tested before anything is bundled: if one of them lies
    outside the root directory the load is rejected with the
    path-traversal error (wrapped as a failure to parse the references),
    nothing has been bundled and none of the later steps has started; if
    none does, bundling follows the resolution. *)
Theorem references_are_checked_before_bundling (yamltext : string)
    (a : LoadArguments) (yamldata : json) (refs : list string) :
  let st := settingsOf a in
  _validateSchema yamltext = None ->
  yaml_load yamltext = Ok yamldata ->
  (rootDir st =? EmptyString) = false ->
  has_provider st = false ->
  RefParser_resolve (refParserArgsOf path_sep cwd st yamldata) = Ok refs ->
  (existsb (outside path_relative (rootDir st)) refs = true ->
   exists ref,
     In ref refs /\ outside path_relative (rootDir st) ref = true
     /\ loadYaml RefParser_resolve RefParser_bundle path_relative path_sep cwd
          yaml_load JSON_stringify2 sha256_hex _validateSchema continueLoad
          yamltext a
        = ([Resolved], Throw (RefsFailed (RefOutside ref))))
  /\ (existsb (outside path_relative (rootDir st)) refs = false ->
      resolveReferences RefParser_resolve RefParser_bundle path_relative
        path_sep cwd st yamldata
      = ([Resolved; Bundled],
         match RefParser_bundle (refParserArgsOf path_sep cwd st yamldata) with
         | Ok bundled => Ok bundled
         | Throw e => Throw (RefsFailed e)
         end)).
Proof.
  intros st Hv Hy Hroot Hprov Hres. split; intros Hex.
  - destruct (checkRefs_outside _ _ Hex) as [ref [Hin [Ho Hc]]].
    exists ref. split; [exact Hin|]. split; [exact Ho|].
    unfold loadYaml, validate. fold st. rewrite Hv, Hy. simpl.
    unfold resolveReferences. rewrite Hroot, Hprov, Hres. simpl.
    rewrite Hc. reflexivity.
  - unfold resolveReferences. rewrite Hroot, Hprov, Hres. simpl.
    rewrite (checkRefs_inside _ _ Hex). simpl.
    destruct (RefParser_bundle _); reflexivity.
Qed.

End Checked.

(** A template set rooted at [/ts] whose document refers to a file
    outside it. *)
Definition relativeToy (from to : string) : string :=
  if starts_with (from ++ "/") to
  then drop (String.length from + 1) to
  else "../.." ++ to.

Definition resolveToy (args : RefParserArgs) : result (list string) :=
  Ok ["/ts/doc.yaml"; "/etc/passwd"].

Definition bundleToy (args : RefParserArgs) : result json :=
  Ok (args_yamldata args).

Definition documentToy : json :=
  JObj [("template", JStr "x");
        ("definitions",
         JObj [("p", JObj [("$ref", JStr "../etc/passwd")])])].

Definition loadYamlToy : string -> LoadArguments -> Traced Template :=
  loadYaml resolveToy bundleToy relativeToy "/" "/ts"
    (fun _ => Ok documentToy) js_toString (fun s => s) (fun _ => None)
    (fun _ _ tmpl => Ok tmpl).

Lemma references_are_checked_witness :
  (existsb (outside relativeToy "/ts") ["/ts/doc.yaml"; "/etc/passwd"] = true ->
   exists ref,
     In ref ["/ts/doc.yaml"; "/etc/passwd"]
     /\ outside relativeToy "/ts" ref = true
     /\ loadYamlToy "doc" (Positional None "/ts/doc.yaml" "/ts" false)
        = ([Resolved], Throw (RefsFailed (RefOutside ref))))
  /\ (existsb (outside relativeToy "/ts") ["/ts/doc.yaml"; "/etc/passwd"]
      = false ->
      resolveReferences resolveToy bundleToy relativeToy "/" "/ts"
        (settingsOf (Positional None "/ts/doc.yaml" "/ts" false)) documentToy
      = ([Resolved; Bundled],
         match bundleToy
                 (refParserArgsOf "/" "/ts"
                    (settingsOf (Positional None "/ts/doc.yaml" "/ts" false))
                    documentToy) with
         | Ok bundled => Ok bundled
         | Throw e => Throw (RefsFailed e)
         end)).
Proof.
  apply (references_are_checked_before_bundling resolveToy bundleToy
           relativeToy "/" "/ts" (fun _ => Ok documentToy) js_toString
           (fun s => s) (fun _ => None) (fun _ _ tmpl => Ok tmpl)
           "doc" (Positional None "/ts/doc.yaml" "/ts" false) documentToy
           ["/ts/doc.yaml"; "/etc/passwd"]);
    reflexivity.
Defined.

(** C7 as stated fails: with a template provider the same load, given
    the same root directory, bundles without any test and goes on. *)
Lemma provider_skips_the_check :
  existsb (outside relativeToy "/ts") ["/ts/doc.yaml"; "/etc/passwd"] = true
  /\ exists tmpl,
       loadYamlToy "doc"
         (Options None (Some (fun key => Ok key)) None "/ts/doc.yaml" "/ts"
            false)
       = ([Bundled; Continued], Ok tmpl).
Proof.
  split; [reflexivity|]. eexists. reflexivity.
Qed.

End ReferenceClaims.

(** ** The provenance of a template *)

Module SourceFacts.
Import Schema Compile.

(** The three members that [_recordSource] writes. *)
Definition sourceOf (t : Template) : string * string * string :=
  (sourceType t, sourceText t, sourceHash t).

Lemma token_induction (P : token -> Prop) :
  (forall ty nm ch, Forall P ch -> P (Token ty nm ch)) ->
  forall t, P t.
Proof.
  intros H. fix IH 1. intros [ty nm ch]. apply H.
  induction ch as [|c ch IHch]; constructor; [apply IH | exact IHch].
Qed.

(** A step of the inference that leaves the provenance alone. *)
Definition keepsSource {A : Type} (this : Template)
    (c : result (Template * A)) : Prop :=
  forall this' a, c = Ok (this', a) -> sourceOf this' = sourceOf this.

Section Inference.

Variables typeSchemas dataFiles : obj.
Variables toBase64 fromBase64 : string -> string.

Lemma resolveTypeSchema_source (mstType mstName : string)
    (schemaName type : json) (this this' : Template) :
  resolveTypeSchema typeSchemas mstType mstName schemaName type this
  = Ok this' ->
  sourceOf this' = sourceOf this.
Proof.
  unfold resolveTypeSchema.
  destruct (str_in mstType _); [|intros H; inversion H; reflexivity].
  destruct (truthy schemaName && _); [discriminate|].
  destruct (truthy schemaName); [|intros H; inversion H; reflexivity].
  destruct (member _ "definitions") as [defs|e]; simpl; [|discriminate].
  destruct (member defs _) as [schemaDef|e]; simpl; [|discriminate].
  destruct (negb (truthy schemaDef)); [discriminate|].
  intros H. inversion H. reflexivity.
Qed.

Lemma handleName_source (defName : string) (schemaName type : json)
    (this : Template) (acc : Acc) :
  keepsSource this
    (handleName typeSchemas dataFiles toBase64 fromBase64 defName schemaName
       type (this, acc)).
Proof.
  intros this' acc'. unfold handleName.
  destruct (negb (truthy schemaName) && _); [discriminate|].
  destruct (variableProperty _ _ _ _ _) as [propDef0|e]; simpl;
    [|discriminate].
  match goal with
  | |- context [bind ?c _] => destruct c as [[[pd props] req]|e]
  end; simpl; [|discriminate].
  destruct (resolveDataFile _ _ _ pd) as [pd3|e]; simpl; [|discriminate].
  intros H. inversion H. reflexivity.
Qed.

Lemma handlePartial_source (defName : string) (this : Template) (acc : Acc) :
  keepsSource this (handlePartial defName (this, acc)).
Proof.
  intros this' acc'. unfold handlePartial.
  destruct (negb (truthy _)); [discriminate|].
  destruct (_mergeSchemaInto _ _ _) as [[[props partial'] deps]|e]; simpl;
    [|discriminate].
  match goal with
  | |- context [bind ?c _] => destruct c as [names|e]
  end; simpl; [|discriminate].
  intros H. inversion H. reflexivity.
Qed.

Lemma handleSection_source (defName : string) (type items : json)
    (this : Template) (acc : Acc) :
  keepsSource this (handleSection defName type items (this, acc)).
Proof.
  intros this' acc'. unfold handleSection.
  repeat match goal with
         | |- context [bind ?c _] =>
             destruct c as [?|?]; simpl; [|discriminate]
         | |- context [let '(_, _) := ?p in _] => destruct p
         end.
  intros H. inversion H. reflexivity.
Qed.

Lemma handleInverted_source (defName : string) (type items : json)
    (this : Template) (acc : Acc) :
  keepsSource this (handleInverted defName type items (this, acc)).
Proof.
  intros this' acc'. unfold handleInverted.
  repeat match goal with
         | |- context [bind ?c _] =>
             destruct c as [?|?]; simpl; [|discriminate]
         | |- context [let '(_, _) := ?p in _] => destruct p
         end.
  intros H. inversion H. subst.
  destruct (truthy (get (js_toString type) (_typeDefinitions this)));
    reflexivity.
Qed.

Lemma handleCase_source (mstType mstName : string)
    (inferChildren : Template -> result (json * Template))
    (this : Template) (acc : Acc) :
  (forall t t' schema,
      inferChildren t = Ok (schema, t') -> sourceOf t' = sourceOf t) ->
  keepsSource this
    (handleCase typeSchemas dataFiles toBase64 fromBase64 mstType mstName
       inferChildren (this, acc)).
Proof.
  intros Hchildren this' acc'. unfold handleCase. simpl.
  destruct (resolveTypeSchema _ _ _ _ _ this) as [this1|e] eqn:E1; simpl;
    [|discriminate].
  apply resolveTypeSchema_source in E1.
  destruct (mstType =? "name").
  { intros H. apply handleName_source in H. congruence. }
  destruct (mstType =? ">").
  { intros H. apply handlePartial_source in H. congruence. }
  destruct (mstType =? "#").
  { destruct (inferChildren this1) as [[items this2]|e] eqn:E2; simpl;
      [|discriminate].
    apply Hchildren in E2.
    intros H. apply handleSection_source in H. congruence. }
  destruct (mstType =? "^").
  { destruct (inferChildren this1) as [[items this2]|e] eqn:E2; simpl;
      [|discriminate].
    apply Hchildren in E2.
    intros H. apply handleInverted_source in H. congruence. }
  intros H. inversion H. subst. exact E1.
Qed.

Lemma reduceTokens_source (parsed : list token) :
  Forall (fun tok => forall this acc,
              keepsSource this
                (handleToken typeSchemas dataFiles toBase64 fromBase64 tok
                   (this, acc))) parsed ->
  forall this acc,
    keepsSource this
      (reduceTokens typeSchemas dataFiles toBase64 fromBase64 parsed
         (this, acc)).
Proof.
  induction 1 as [|tok parsed Htok _ IH]; intros this acc this' acc'; simpl.
  - intros H. inversion H. reflexivity.
  - destruct (handleToken _ _ _ _ tok (this, acc)) as [[this1 acc1]|e] eqn:E;
      simpl; [|discriminate].
    apply Htok in E. intros H. apply IH in H. congruence.
Qed.

Lemma handleParsed_of_reduce (parsed : list token) :
  (forall this acc,
      keepsSource this
        (reduceTokens typeSchemas dataFiles toBase64 fromBase64 parsed
           (this, acc))) ->
  forall t t' schema,
    _handleParsed typeSchemas dataFiles toBase64 fromBase64 parsed t
    = Ok (schema, t') ->
    sourceOf t' = sourceOf t.
Proof.
  intros Hr t t' schema. unfold _handleParsed.
  destruct (reduceTokens _ _ _ _ parsed (t, initialAcc)) as [[t1 acc1]|e]
    eqn:E; simpl; [|discriminate].
  apply Hr in E.
  destruct (finishParsed t1 acc1); simpl; [|discriminate].
  intros H. inversion H. subst. exact E.
Qed.

Lemma handleToken_source (tok : token) :
  forall this acc,
    keepsSource this
      (handleToken typeSchemas dataFiles toBase64 fromBase64 tok (this, acc)).
Proof.
  induction tok as [ty nm ch IH] using token_induction.
  intros this acc.
  change (handleToken typeSchemas dataFiles toBase64 fromBase64
            (Token ty nm ch) (this, acc))
    with (handleCase typeSchemas dataFiles toBase64 fromBase64 ty nm
            (_handleParsed typeSchemas dataFiles toBase64 fromBase64 ch)
            (this, acc)).
  apply handleCase_source.
  apply handleParsed_of_reduce. apply reduceTokens_source. exact IH.
Qed.

Lemma handleParsed_source (parsed : list token) (t t' : Template)
    (schema : json) :
  _handleParsed typeSchemas dataFiles toBase64 fromBase64 parsed t
  = Ok (schema, t') ->
  sourceOf t' = sourceOf t.
Proof.
  apply handleParsed_of_reduce. apply reduceTokens_source.
  apply Forall_forall. intros tok _. apply handleToken_source.
Qed.

End Inference.

End SourceFacts.

Module SourceClaims.
Import Schema Compile SourceFacts.

Section Loaded.

Variable Mustache_parse : string -> result (list token).
Variable JSON_parse : string -> result json.
Variable JSON_stringify2 : json -> string.
Variables toBase64 fromBase64 : string -> string.
Variable sha256_hex : string -> string.
Variable _validateSchema : string -> option json.
Variable ajv_compileAsync : json -> result Validator.

Lemma registerDefinitions_source (typeSchemas dataFiles : obj) (defs : obj) :
  forall this this',
    registerDefinitions Mustache_parse toBase64 fromBase64 typeSchemas
      dataFiles defs this = Ok this' ->
    sourceOf this' = sourceOf this.
Proof.
  induction defs as [|[name def] defs IH]; intros this this'; simpl.
  - intros H. inversion H. reflexivity.
  - destruct (member def "template") as [template|e]; simpl; [|discriminate].
    destruct (truthy template).
    + destruct (parseTemplate Mustache_parse template) as [tokens|e]; simpl;
        [|discriminate].
      destruct (handleParsed toBase64 fromBase64 typeSchemas dataFiles tokens
                  this) as [[newDef this1]|e] eqn:E; simpl; [|discriminate].
      apply handleParsed_source in E.
      intros H. apply IH in H. rewrite H. exact E.
    + simpl. intros H. apply IH in H. rewrite H. reflexivity.
Qed.

Lemma parametersSchemaFromTemplate_source (typeSchemas dataFiles : obj)
    (this this' : Template) :
  _parametersSchemaFromTemplate Mustache_parse toBase64 fromBase64
    typeSchemas dataFiles this = Ok this' ->
  sourceOf this' = sourceOf this.
Proof.
  unfold _parametersSchemaFromTemplate, prepareDefinitions.
  destruct (deepmerge_all _ _) as [merged|e]; simpl; [|discriminate].
  destruct (collectExplicitDeps _ _) as [[defs1 explicitDeps]|e]; simpl;
    [|discriminate].
  destruct (registerDefinitions _ _ _ _ _ defs1 _) as [this2|e] eqn:E2; simpl;
    [|discriminate].
  apply registerDefinitions_source in E2.
  destruct (Mustache_parse (templateText this2)) as [tokens|e]; simpl;
    [|discriminate].
  destruct (handleParsed toBase64 fromBase64 typeSchemas dataFiles tokens this2)
    as [[schema this3]|e] eqn:E3; simpl; [|discriminate].
  apply handleParsed_source in E3.
  destruct (getRefDefs _) as [refDefs|e]; simpl; [|discriminate].
  intros H. inversion H. subst this'.
  transitivity (sourceOf this3); [reflexivity|].
  rewrite E3, E2. reflexivity.
Qed.

Lemma loadMst_source (msttext : string)
    (schemaProvider dataProvider : option Provider) (tmpl : Template) :
  loadMst Mustache_parse JSON_parse JSON_stringify2 toBase64 fromBase64
    sha256_hex _validateSchema ajv_compileAsync msttext schemaProvider
    dataProvider = Ok tmpl ->
  sourceOf tmpl = ("MST", msttext, sha256_hex msttext).
Proof.
  unfold loadMst.
  destruct (validate _ _ msttext); simpl; [|discriminate].
  destruct (_loadTypeSchemas JSON_parse schemaProvider) as [typeSchemas|e];
    simpl; [|discriminate].
  destruct (_loadDataFiles dataProvider) as [dataFiles|e]; simpl;
    [|discriminate].
  destruct (_descriptionFromTemplate _ _) as [t1|e] eqn:E1; simpl;
    [|discriminate].
  destruct (_parametersSchemaFromTemplate _ _ _ _ _ t1) as [t2|e] eqn:E2;
    simpl; [|discriminate].
  apply parametersSchemaFromTemplate_source in E2.
  unfold _createParametersValidator.
  destruct (ajv_compileAsync _); [|discriminate].
  intros H. inversion H. subst tmpl.
  transitivity (sourceOf t2); [reflexivity|]. rewrite E2.
  unfold _descriptionFromTemplate in E1.
  destruct (Mustache_parse _) as [tokens|e]; simpl in E1; [|discriminate].
  destruct (filter _ tokens) as [|[ty text ch] rest];
    inversion E1; reflexivity.
Qed.

(** C8, as the code has it.  [_recordSource] sets [sourceHash] to the
    SHA-256 digest of [sourceText] alone; [loadMst] records the source once
    and none of the steps that follow changes the three provenance
    members, so the loaded template carries the digest of the text it was
    loaded from; and two recordings of the same text carry the same hash
    whatever their source types. *)
Theorem source_hash_is_the_digest_of_the_text (msttext : string)
    (schemaProvider dataProvider : option Provider) (tmpl : Template) :
  loadMst Mustache_parse JSON_parse JSON_stringify2 toBase64 fromBase64
    sha256_hex _validateSchema ajv_compileAsync msttext schemaProvider
    dataProvider = Ok tmpl ->
  (sourceType tmpl = "MST" /\ sourceText tmpl = msttext
   /\ sourceHash tmpl = sha256_hex msttext)
  /\ (forall sourceType sourceText this,
         sourceHash (_recordSource sha256_hex sourceType sourceText this)
         = sha256_hex sourceText)
  /\ (forall type1 type2 sourceText this1 this2,
         sourceHash (_recordSource sha256_hex type1 sourceText this1)
         = sourceHash (_recordSource sha256_hex type2 sourceText this2)).
Proof.
  intros H. apply loadMst_source in H. unfold sourceOf in H.
  inversion H. repeat split; reflexivity.
Qed.

End Loaded.

(** The template [Hello {{name}}] loaded with providers of nothing; the
    digest is left symbolic. *)
Definition digestToy (text : string) : string := "sha256:" ++ text.

Definition loadedHello : result Template :=
  loadMst (fun _ => Ok [Token "text" "Hello " []; Token "name" "name" []])
    (fun _ => Ok JNull) js_toString (fun s => s) (fun s => s) digestToy
    (fun _ => None) (fun _ => Ok (fun _ => None)) "Hello {{name}}" None None.

Definition helloTemplate : Template :=
  match loadedHello with
  | Ok t => t
  | Throw _ => newTemplate
  end.

Lemma source_hash_witness :
  (sourceType helloTemplate = "MST"
   /\ sourceText helloTemplate = "Hello {{name}}"
   /\ sourceHash helloTemplate = digestToy "Hello {{name}}")
  /\ (forall sourceType sourceText this,
         sourceHash (_recordSource digestToy sourceType sourceText this)
         = digestToy sourceText)
  /\ (forall type1 type2 sourceText this1 this2,
         sourceHash (_recordSource digestToy type1 sourceText this1)
         = sourceHash (_recordSource digestToy type2 sourceText this2)).
Proof.
  apply (source_hash_is_the_digest_of_the_text
           (fun _ => Ok [Token "text" "Hello " []; Token "name" "name" []])
           (fun _ => Ok JNull) js_toString (fun s => s) (fun s => s) digestToy
           (fun _ => None) (fun _ => Ok (fun _ => None))
           "Hello {{name}}" None None helloTemplate).
  vm_compute. reflexivity.
Defined.

(** C8 as stated fails: whatever the digest function, the same text
    recorded as a Mustache source and as a YAML source gives one hash for
    two different (sourceType, sourceText) pairs. *)
Lemma same_hash_for_two_source_types :
  ~ (forall (sha256_hex : string -> string)
            (type1 text1 type2 text2 : string) (this1 this2 : Template),
        sourceHash (_recordSource sha256_hex type1 text1 this1)
        = sourceHash (_recordSource sha256_hex type2 text2 this2) ->
        (type1, text1) = (type2, text2)).
Proof.
  intros H.
  specialize (H digestToy "MST" "template: hi" "YAML" "template: hi"
                newTemplate newTemplate eq_refl).
  discriminate.
Qed.

End SourceClaims.

(* ================================================================== *)
(** * Further properties of the inference *)
(* ================================================================== *)

(** [o[k]] on a JavaScript object also finds the members that every object
    inherits from [Object.prototype]; [lookup] and [get] are the own members.
    The properties below that turn on a key being absent are stated for the
    names that no object inherits. *)
Module OwnNames.
Import Schema.

Definition objectPrototypeMembers : list string :=
  ["constructor"; "__proto__"; "hasOwnProperty"; "isPrototypeOf";
   "propertyIsEnumerable"; "toLocaleString"; "toString"; "valueOf";
   "__defineGetter__"; "__defineSetter__"; "__lookupGetter__";
   "__lookupSetter__"].

Definition ownName (k : string) : bool :=
  negb (str_in k objectPrototypeMembers).

End OwnNames.

Module InferenceProperties.
Import Schema ObjFacts RequiredFacts MergeFacts.

(** X1.  A tag stream made of comments and literal text only is inferred
    without error to the bare string schema and leaves the template as it
    was, whatever the type schemas and data files are and whatever the
    text of the tokens contains (a colon in a comment names no schema). *)
Theorem comments_and_text_infer_nothing (typeSchemas dataFiles : obj)
    (toBase64 fromBase64 : string -> string) (parsed : list token)
    (this : Template) :
  Forall (fun tok => match tok with
                     | Token ty _ _ => str_in ty ["!"; "text"] = true
                     end) parsed ->
  _handleParsed typeSchemas dataFiles toBase64 fromBase64 parsed this
  = Ok (stringSchema, this).
Proof.
  intros H. unfold _handleParsed.
  rewrite (EmptyClaims.reduce_comments_and_text _ _ _ _ _ _ H).
  reflexivity.
Qed.

Lemma comments_and_text_witness :
  _handleParsed [] [] (fun s => s) (fun s => s)
    [Token "!" "see other:schema:type" []; Token "text" "a:b:c" []]
    newTemplate
  = Ok (stringSchema, newTemplate).
Proof.
  apply comments_and_text_infer_nothing.
  repeat constructor.
Defined.

(** ** Required names and dependencies *)

Lemma lookup_delete_same (k : string) (o : obj) : lookup k (delete k o) = None.
Proof.
  unfold delete. induction o as [|[k0 v0] o IH]; simpl; [reflexivity|].
  destruct (k =? k0) eqn:E; simpl; [exact IH|]. rewrite E. exact IH.
Qed.

Lemma lookup_delete_none (k k' : string) (o : obj) :
  lookup k o = None -> lookup k (delete k' o) = None.
Proof.
  unfold delete. induction o as [|[k0 v0] o IH]; simpl; [reflexivity|].
  destruct (k =? k0) eqn:E; [discriminate|]. intros H.
  destruct (k' =? k0); simpl; [auto|]. rewrite E. auto.
Qed.

Lemma lookup_stripped (name : string) (required : list json) :
  forall deps,
    (In (JStr name) required \/ lookup name deps = None) ->
    lookup name
      (fold_left (fun d value => delete (js_toString value) d) required deps)
    = None.
Proof.
  induction required as [|r required IH]; intros deps H; simpl.
  - destruct H as [[]|H]. exact H.
  - apply IH. destruct H as [[H|H]|H].
    + right. subst r. simpl. apply lookup_delete_same.
    + left. exact H.
    + right. apply lookup_delete_none. exact H.
Qed.

Lemma lookup_uniqueDependencies (name : string) (deps deps' : obj) :
  uniqueDependencies deps = Ok deps' ->
  lookup name deps = None -> lookup name deps' = None.
Proof.
  revert deps'. induction deps as [|[prop value] deps IH]; intros deps';
    simpl.
  - intros H. inversion H. reflexivity.
  - destruct (iterate value) as [l|e]; simpl; [|discriminate].
    destruct (uniqueDependencies deps) as [rest|e]; simpl; [|discriminate].
    intros H. inversion H. subst deps'. simpl.
    destruct (name =? prop); [discriminate|]. apply IH. reflexivity.
Qed.

(** X2.  In the schema that the normalisation of [_handleParsed] returns,
    a name of [required] is not a key of [dependencies], unless the
    author's explicit dependencies (assigned last) bring it back. *)
Theorem required_names_have_no_dependencies (this : Template) (acc : Acc)
    (schema : json) (name : string) :
  finishParsed this acc = Ok schema ->
  In (JStr name) (required acc) ->
  lookup name (_explicitDeps this) = None ->
  (schema = stringSchema \/ getv "required" schema = JArr (required acc))
  /\ getv name (getv "dependencies" schema) = JUndef.
Proof.
  unfold finishParsed. intros H Hin Hex.
  destruct (truthy (get "." (properties acc)) && _).
  { inversion H. split; [left|]; reflexivity. }
  destruct (List.length (keys (properties acc)) <? 1)%nat.
  { inversion H. split; [left|]; reflexivity. }
  destruct (defaultOrders (properties acc)) as [props1|e]; simpl in H;
    [|discriminate].
  destruct (uniqueDependencies _) as [deps2|e] eqn:Eu; simpl in H;
    [|discriminate].
  inversion H. clear H.
  assert (Hnone : lookup name deps2 = None).
  { apply (lookup_uniqueDependencies _ _ _ Eu).
    apply lookup_stripped. left. exact Hin. }
  destruct ((0 <? List.length (keys deps2))%nat
            || (0 <? List.length (keys (_explicitDeps this)))%nat);
    (split; [right; reflexivity|]).
  - unfold getv. simpl. unfold get.
    rewrite lookup_assign_absent; [rewrite Hnone; reflexivity|].
    intros v Hv. apply (In_nth_error) in Hv.
    destruct Hv as [n Hn].
    assert (Hl : exists v', lookup name (_explicitDeps this) = Some v').
    { clear - Hn. revert n Hn.
      induction (_explicitDeps this) as [|[k0 v0] o IH]; intros n Hn.
      - destruct n; discriminate.
      - simpl. destruct (name =? k0) eqn:E; [eauto|].
        destruct n; simpl in Hn.
        + inversion Hn. subst. rewrite String.eqb_refl in E. discriminate.
        + eapply IH. exact Hn. }
    destruct Hl as [v' Hl]. congruence.
  - reflexivity.
Qed.

(** [{{#flag}}{{x}}{{/flag}}{{x}}] with [flag] declared as a boolean. *)
Definition flagTemplate : Template :=
  set_definitions [("flag", JObj [("type", JStr "boolean")])] newTemplate.

Definition flagAcc : Acc :=
  Eval vm_compute in
    match reduceTokens [] [] (fun s => s) (fun s => s)
            [Token "#" "flag" [Token "name" "x" []]; Token "name" "x" []]
            (flagTemplate, initialAcc) with
    | Ok (_, acc) => acc
    | Throw _ => initialAcc
    end.

Definition flagSchema : json :=
  Eval vm_compute in
    match finishParsed flagTemplate flagAcc with
    | Ok schema => schema
    | Throw _ => JUndef
    end.

Lemma required_names_witness :
  (flagSchema = stringSchema
   \/ getv "required" flagSchema = JArr (required flagAcc))
  /\ getv "x" (getv "dependencies" flagSchema) = JUndef.
Proof.
  apply (required_names_have_no_dependencies flagTemplate flagAcc flagSchema
           "x").
  - reflexivity.
  - simpl. auto.
  - reflexivity.
Defined.

(** X3.  After [case '^'] the name of the inverted section is not in
    [required], whatever was there before and whatever the section
    contains. *)
Theorem inverted_section_is_never_required (defName : string)
    (type items : json) (this this' : Template) (acc acc' : Acc) :
  handleInverted defName type items (this, acc) = Ok (this', acc') ->
  set_has (JStr defName) (required acc') = false.
Proof.
  unfold handleInverted.
  repeat match goal with
         | |- context [bind ?c _] =>
             destruct c as [?|?]; simpl; [|discriminate]
         | |- context [let '(_, _) := ?p in _] => destruct p
         end.
  intros H. inversion H. simpl. apply set_has_delete_same.
Qed.

Definition requiredFoo : Acc :=
  mkAcc [("foo", JObj [("type", JStr "boolean")])] [JStr "foo"] [].

Lemma inverted_section_witness :
  set_has (JStr "foo")
    (required
       (mkAcc [("foo", JObj [("type", JStr "boolean")])] [] [])) = false.
Proof.
  apply (inverted_section_is_never_required "foo" JUndef stringSchema
           newTemplate newTemplate requiredFoo).
  reflexivity.
Defined.

(** X4.  A section whose resolved type is none of array, object, boolean
    and string is rejected with the unsupported-type error, before the
    accumulator is looked at: neither an existing property of another
    type nor the children of the section change the error. *)
Theorem unsupported_section_type (defName : string) (type items : json)
    (this : Template) (acc : Acc) :
  let schemaDef :=
    deepmerge defaultArrayMerge
      (js_or (get (js_toString type) (_typeDefinitions this)) (JObj []))
      (js_or (get defName (definitions this)) (JObj [])) in
  let defType := js_or (getv "type" schemaDef) (JStr "array") in
  str_in (js_toString defType) ["array"; "object"; "boolean"; "string"]
  = false ->
  handleSection defName type items (this, acc)
  = Throw (UnsupportedSection defName defType).
Proof.
  intros schemaDef defType H.
  unfold handleSection. fold schemaDef. fold defType.
  assert (Hs : forall s,
             str_in s ["array"; "object"; "boolean"; "string"] = true ->
             is_str s defType = false).
  { intros s Hin. destruct (is_str s defType) eqn:E; [|reflexivity].
    apply is_str_eq in E. rewrite E in H.
    change (js_toString (JStr s)) with s in H. congruence. }
  unfold sectionDef.
  rewrite (Hs "array" eq_refl), (Hs "object" eq_refl),
    (Hs "boolean" eq_refl), (Hs "string" eq_refl).
  reflexivity.
Qed.

Definition numberSection : Template :=
  set_definitions [("n", JObj [("type", JStr "number")])] newTemplate.

Lemma unsupported_section_witness :
  handleSection "n" JUndef stringSchema
    (numberSection,
     mkAcc [("n", JObj [("type", JStr "string")])] [] [])
  = Throw (UnsupportedSection "n" (JStr "number")).
Proof.
  apply (unsupported_section_type "n" JUndef stringSchema numberSection).
  reflexivity.
Defined.

(** X5.  [_mergeSchemaInto] changes its source: a boolean property that
    is held back because the destination has it as an array or a string
    is removed from [src.properties] itself, so a partial that was merged
    once no longer declares it. *)
Theorem merge_strips_the_source (dstProps : obj) (src : json) (dstDeps : obj)
    (prop : string) (d : json)
    (dstProps' : obj) (src' : json) (dstDeps' : obj) :
  lookup prop dstProps = Some d ->
  wide d = true ->
  is_str "boolean" (getv "type" (getv prop (getv "properties" src))) = true ->
  _mergeSchemaInto dstProps src dstDeps = Ok (dstProps', src', dstDeps') ->
  truthy (getv prop (getv "properties" src)) = true
  /\ getv prop (getv "properties" src') = JUndef.
Proof.
  intros Hl Hw Hb. unfold _mergeSchemaInto, member.
  assert (Hp : truthy (getv prop (getv "properties" src)) = true).
  { apply is_str_eq in Hb.
    destruct (getv prop (getv "properties" src)); try discriminate;
      try reflexivity.
    unfold getv in Hb. simpl in Hb. unfold get in Hb.
    destruct s; [discriminate | reflexivity]. }
  destruct (is_nullish src); simpl; [discriminate|].
  destruct (truthy (getv "properties" src)) eqn:Ht.
  - destruct (filterProperties dstProps (getv "properties" src)
                (keys (entries_of (getv "properties" src))) [])
      as [filtered|e] eqn:Ef; simpl; [|discriminate].
    intros H. inversion H. split; [exact Hp|].
    unfold getv at 2. simpl. rewrite get_set_same. unfold getv. simpl.
    unfold get.
    destruct (lookup prop filtered) as [v|] eqn:El; [|reflexivity].
    apply lookup_in in El.
    destruct (filterProperties_origin _ _ _ _ _ _ _ Ef El) as [[]|[Hv Hno]].
    pose proof (noOverwrite_wide _ _ _ _ _ Hl Hw Hno) as Hf.
    subst v. rewrite Hb in Hf. discriminate.
  - exfalso.
    destruct (getv "properties" src) as [| |b|n|s|l|m]; simpl in Ht;
      try discriminate;
      try (unfold getv in Hp; simpl in Hp; discriminate).
    destruct s; [unfold getv in Hp; simpl in Hp|]; discriminate.
Qed.

Lemma merge_strips_witness :
  truthy (getv "x" (getv "properties" C2_src)) = true
  /\ getv "x"
       (getv "properties"
          (JObj [("properties",
                  JObj [("y", JObj [("type", JStr "boolean")])])]))
     = JUndef.
Proof.
  apply (merge_strips_the_source C2_dst C2_src [] "x"
           (JObj [("type", JStr "array")])
           [("x", JObj [("type", JStr "array")]);
            ("y", JObj [("type", JStr "boolean")])]
           (JObj [("properties", JObj [("y", JObj [("type", JStr "boolean")])])])
           []);
    reflexivity.
Defined.

End InferenceProperties.

Module PropertyDefinitions.
Import Schema ObjFacts RequiredFacts OwnNames.

Section DataFiles.

Variable dataFiles : obj.
Variables toBase64 fromBase64 : string -> string.

(** X6.  A property that names a [dataFile] leaves the inference without
    that key.  Its format is the one the author gave, and [hidden] when the
    author gave none; its [default] is the content of the data blob, passed
    through the base64 codec when [toBase64] or [fromBase64] is set; every
    other member is as it was.  (A blob that is missing fails the codec
    with a [TypeError] and otherwise yields an undefined default.) *)
Theorem dataFile_becomes_default (propDef propDef' : obj) :
  truthy (get "dataFile" propDef) = true ->
  ownName (js_toString (get "dataFile" propDef)) = true ->
  resolveDataFile dataFiles toBase64 fromBase64 propDef = Ok propDef' ->
  let blob := get (js_toString (get "dataFile" propDef)) dataFiles in
  get "dataFile" propDef' = JUndef
  /\ get "format" propDef'
     = (if truthy (get "format" propDef) then get "format" propDef
        else JStr "hidden")
  /\ (truthy (get "toBase64" propDef) = true ->
      exists data, blob = JStr data
                   /\ get "default" propDef' = JStr (toBase64 data))
  /\ (truthy (get "toBase64" propDef) = false ->
      truthy (get "fromBase64" propDef) = true ->
      exists data, blob = JStr data
                   /\ get "default" propDef' = JStr (fromBase64 data))
  /\ (truthy (get "toBase64" propDef) = false ->
      truthy (get "fromBase64" propDef) = false ->
      get "default" propDef' = blob)
  /\ (forall k, str_in k ["dataFile"; "format"; "default"] = false ->
                get k propDef' = get k propDef).
Proof.
  intros Hd _. unfold resolveDataFile. rewrite Hd.
  set (propDef1 := if negb (truthy (get "format" propDef))
                   then set "format" (JStr "hidden") propDef else propDef).
  assert (H1 : forall k, (k =? "format") = false ->
                         get k propDef1 = get k propDef).
  { intros k Hk. unfold propDef1.
    destruct (negb (truthy (get "format" propDef))); [|reflexivity].
    apply get_set_other. exact Hk. }
  assert (Hf : get "format" propDef1
               = (if truthy (get "format" propDef) then get "format" propDef
                  else JStr "hidden")).
  { unfold propDef1. destruct (truthy (get "format" propDef)); simpl;
      [reflexivity | apply get_set_same]. }
  rewrite !H1 by reflexivity.
  set (blob := get (js_toString (get "dataFile" propDef)) dataFiles).
  intros H. cbv zeta.
  assert (Hres : forall default,
             propDef' = delete "dataFile" (set "default" default propDef1) ->
             get "dataFile" propDef' = JUndef
             /\ get "format" propDef' = get "format" propDef1
             /\ get "default" propDef' = default
             /\ (forall k, str_in k ["dataFile"; "format"; "default"] = false ->
                           get k propDef' = get k propDef)).
  { intros default ->. split; [apply get_delete_same|]. split; [|split].
    - rewrite get_delete_other, get_set_other by reflexivity. reflexivity.
    - rewrite get_delete_other by reflexivity. apply get_set_same.
    - intros k Hk. unfold str_in in Hk. cbn [existsb] in Hk.
      repeat (apply orb_false_iff in Hk; destruct Hk as [? Hk]).
      rewrite get_delete_other, get_set_other by assumption.
      apply H1. assumption. }
  destruct (truthy (get "toBase64" propDef)) eqn:Et.
  - destruct blob as [| | | |data| |] eqn:Eb; simpl in H; try discriminate.
    injection H as H'. symmetry in H'.
    destruct (Hres _ H') as [Ha [Hb [Hc Hk]]].
    rewrite Ha, Hb, Hc, Hf.
    repeat split; auto; try discriminate. intros _. eauto.
  - destruct (truthy (get "fromBase64" propDef)) eqn:Ef.
    + destruct blob as [| | | |data| |] eqn:Eb; simpl in H; try discriminate.
      injection H as H'. symmetry in H'.
      destruct (Hres _ H') as [Ha [Hb [Hc Hk]]].
      rewrite Ha, Hb, Hc, Hf.
      repeat split; auto; try discriminate. intros _ _. eauto.
    + simpl in H. injection H as H'. symmetry in H'.
      destruct (Hres _ H') as [Ha [Hb [Hc Hk]]].
      rewrite Ha, Hb, Hc, Hf.
      repeat split; auto; discriminate.
Qed.

End DataFiles.

Definition certificate : obj :=
  [("type", JStr "string"); ("dataFile", JStr "cert"); ("toBase64", JBool true)].

Definition encodeToy (data : string) : string := "b64(" ++ data ++ ")".

Lemma dataFile_witness :
  let blob := get (js_toString (get "dataFile" certificate)) [("cert", JStr "PEM")] in
  let propDef' :=
    [("type", JStr "string"); ("toBase64", JBool true);
     ("format", JStr "hidden"); ("default", JStr "b64(PEM)")] in
  get "dataFile" propDef' = JUndef
  /\ get "format" propDef'
     = (if truthy (get "format" certificate) then get "format" certificate
        else JStr "hidden")
  /\ (truthy (get "toBase64" certificate) = true ->
      exists data, blob = JStr data
                   /\ get "default" propDef' = JStr (encodeToy data))
  /\ (truthy (get "toBase64" certificate) = false ->
      truthy (get "fromBase64" certificate) = true ->
      exists data, blob = JStr data
                   /\ get "default" propDef' = JStr (data))
  /\ (truthy (get "toBase64" certificate) = false ->
      truthy (get "fromBase64" certificate) = false ->
      get "default" propDef' = blob)
  /\ (forall k, str_in k ["dataFile"; "format"; "default"] = false ->
                get k propDef' = get k certificate).
Proof.
  apply (dataFile_becomes_default [("cert", JStr "PEM")] encodeToy
           (fun s => s) certificate);
    reflexivity.
Defined.

(** ** Sections *)

Lemma addDependencies_spec (defName : string) (items : list string) :
  forall deps deps',
    addDependencies defName items deps = Ok deps' ->
    (forall item, In item items ->
       exists l, get item deps' = JArr l /\ In (JStr defName) l)
    /\ (forall k l, get k deps = JArr l -> In (JStr defName) l ->
          exists l', get k deps' = JArr l' /\ In (JStr defName) l')
    /\ (forall k, ~ In k items -> get k deps' = get k deps).
Proof.
  induction items as [|item items IH]; intros deps deps' H; simpl in H.
  - inversion H. subst. repeat split; try (intros; eauto; fail).
    intros item [].
  - destruct (as_array "push" (js_or (get item deps) (JArr []))) as [l|e]
      eqn:El; simpl in H; [|discriminate].
    destruct (IH _ _ H) as [IH1 [IH2 IH3]].
    assert (Hnew : get item (set item (JArr (l ++ [JStr defName])) deps)
                   = JArr (l ++ [JStr defName])) by apply get_set_same.
    repeat split.
    + intros item' [<-|Hin]; [|auto].
      apply (IH2 item (l ++ [JStr defName])%list Hnew).
      apply in_or_app. right. left. reflexivity.
    + intros k l0 Hk Hin.
      destruct (k =? item) eqn:E.
      * apply String.eqb_eq in E. subst k.
        apply (IH2 item (l ++ [JStr defName])%list Hnew).
        apply in_or_app. right. left. reflexivity.
      * apply (IH2 k l0); [|exact Hin].
        rewrite get_set_other by exact E. exact Hk.
    + intros k Hk. rewrite IH3 by (intros Hin; apply Hk; right; exact Hin).
      apply get_set_other.
      destruct (k =? item) eqn:E; [|reflexivity].
      apply String.eqb_eq in E. subst. exfalso. apply Hk. left. reflexivity.
Qed.

(** X7.  The [forEach] of a section over the properties of its children
    records, for every child, the name of the section in the child's
    dependency list, and leaves the dependencies of every other name as
    they were. *)
Theorem children_depend_on_their_section (defName : string)
    (items : list string) (deps deps' : obj) :
  forallb ownName items = true ->
  addDependencies defName items deps = Ok deps' ->
  (forall item, In item items ->
     exists l, get item deps' = JArr l /\ In (JStr defName) l)
  /\ (forall k, ~ In k items -> get k deps' = get k deps).
Proof.
  intros _ H. destruct (addDependencies_spec _ _ _ _ H) as [H1 [_ H3]].
  split; assumption.
Qed.

Lemma children_depend_witness :
  (forall item, In item ["a"; "b"] ->
     exists l,
       get item [("a", JArr [JStr "other"; JStr "sec"]);
                 ("b", JArr [JStr "sec"])] = JArr l
       /\ In (JStr "sec") l)
  /\ (forall k, ~ In k ["a"; "b"] ->
        get k [("a", JArr [JStr "other"; JStr "sec"]);
               ("b", JArr [JStr "sec"])]
        = get k [("a", JArr [JStr "other"])]).
Proof.
  apply (children_depend_on_their_section "sec" ["a"; "b"]
           [("a", JArr [JStr "other"])]);
    reflexivity.
Defined.

Lemma filterRequired_spec (itemProps : json) (reqs : list json) :
  forall kept,
    filterRequired itemProps reqs = Ok kept ->
    forall x, In x kept <->
              In x reqs
              /\ getv "default" (getv (js_toString x) itemProps) = JUndef.
Proof.
  induction reqs as [|r reqs IH]; intros kept H x; simpl in H.
  - inversion H. simpl. tauto.
  - unfold member in H.
    destruct (is_nullish itemProps); simpl in H; [discriminate|].
    destruct (is_nullish (getv (js_toString r) itemProps)); simpl in H;
      [discriminate|].
    destruct (filterRequired itemProps reqs) as [kept0|e]; simpl in H;
      [|discriminate].
    specialize (IH _ eq_refl x).
    inversion H. subst kept. clear H.
    destruct (is_undefined (getv "default" (getv (js_toString r) itemProps)))
      eqn:E.
    + assert (Hr : getv "default" (getv (js_toString r) itemProps) = JUndef).
      { destruct (getv "default" (getv (js_toString r) itemProps));
          try discriminate. reflexivity. }
      simpl. rewrite IH. split.
      * intros [->|[H1 H2]]; auto.
      * intros [[->|H1] H2]; auto.
    + rewrite IH. simpl. split.
      * intros [H1 H2]. auto.
      * intros [[->|H1] H2]; [|auto]. rewrite H2 in E. discriminate.
Qed.

(** X8.  For an array section, the [required] list of the item schema
    keeps exactly the names that were required in the merged item schema
    and whose item property has no default. *)
Theorem array_items_with_default_are_optional (defName : string)
    (schemaDef items : json) (newDef : obj) (reqs : list json) :
  let merged :=
    deepmerge defaultArrayMerge (js_or items (JObj []))
      (js_or (js_or (get "items"
                       (assign [("type", JStr "array")] (entries_of schemaDef)))
                (JObj []))
         (JObj [])) in
  sectionDef defName (JStr "array") schemaDef items = Ok newDef ->
  getv "required" merged = JArr reqs ->
  exists kept,
    getv "required" (get "items" newDef) = JArr kept
    /\ getv "properties" (get "items" newDef) = getv "properties" merged
    /\ forall x, In x kept <->
                 In x reqs
                 /\ getv "default"
                      (getv (js_toString x) (getv "properties" merged))
                    = JUndef.
Proof.
  intros merged. unfold sectionDef. simpl is_str. cbv iota.
  fold merged. intros H Hr. rewrite Hr in H. simpl in H.
  destruct (filterRequired (getv "properties" merged) reqs) as [kept|e]
    eqn:Ef; simpl in H; [|discriminate].
  inversion H. subst newDef. clear H.
  exists kept. rewrite get_set_same.
  split; [unfold getv; simpl; apply get_set_same|].
  split.
  - unfold getv at 1. simpl. rewrite get_set_other by reflexivity.
    reflexivity.
  - apply filterRequired_spec. exact Ef.
Qed.

Definition rowItems : json :=
  JObj [("type", JStr "object");
        ("properties",
         JObj [("a", JObj [("type", JStr "string")]);
               ("b", JObj [("type", JStr "string"); ("default", JStr "x")])]);
        ("required", JArr [JStr "a"; JStr "b"])].

Lemma array_items_witness :
  exists kept,
    getv "required"
      (get "items"
         [("type", JStr "array");
          ("items",
           JObj [("type", JStr "object");
                 ("properties", getv "properties" rowItems);
                 ("required", JArr [JStr "a"])]);
          ("skip_xform", JBool true)]) = JArr kept
    /\ getv "properties"
         (get "items"
            [("type", JStr "array");
             ("items",
              JObj [("type", JStr "object");
                    ("properties", getv "properties" rowItems);
                    ("required", JArr [JStr "a"])]);
             ("skip_xform", JBool true)])
       = getv "properties"
           (deepmerge defaultArrayMerge (js_or rowItems (JObj []))
              (js_or (js_or (get "items"
                               (assign [("type", JStr "array")]
                                  (entries_of (JObj []))))
                        (JObj []))
                 (JObj [])))
    /\ forall x, In x kept <->
                 In x [JStr "a"; JStr "b"]
                 /\ getv "default"
                      (getv (js_toString x)
                         (getv "properties"
                            (deepmerge defaultArrayMerge
                               (js_or rowItems (JObj []))
                               (js_or (js_or (get "items"
                                                (assign [("type", JStr "array")]
                                                   (entries_of (JObj []))))
                                         (JObj []))
                                  (JObj [])))))
                    = JUndef.
Proof.
  apply (array_items_with_default_are_optional "rows" (JObj []) rowItems
           _ [JStr "a"; JStr "b"]);
    reflexivity.
Defined.

End PropertyDefinitions.

(* ================================================================== *)
(** * Stripping the type annotations of a template *)
(* ================================================================== *)

Module CleanText.
Import Schema Compile.

Lemma length_app (a b : string) :
  String.length (a ++ b) = String.length a + String.length b.
Proof. induction a as [|c a IH]; simpl; [reflexivity | rewrite IH; reflexivity]. Qed.

Lemma app_assoc (a b c : string) : (a ++ b) ++ c = a ++ b ++ c.
Proof. induction a as [|x a IH]; simpl; [reflexivity | rewrite IH; reflexivity]. Qed.

Lemma drop_length (n : nat) (s : string) :
  String.length (drop n s) <= String.length s.
Proof.
  revert s. induction n as [|n IH]; intros s; simpl; [lia|].
  destruct s as [|a s]; simpl; [lia|]. specialize (IH s). lia.
Qed.

Lemma name_run_length (s : string) :
  String.length (snd (name_run s)) <= String.length s.
Proof.
  induction s as [|a s IH]; simpl; [lia|].
  destruct (is_name_char a); simpl; [|lia].
  destruct (name_run s) as [run rest]. simpl in *. lia.
Qed.

Lemma after_close_length (s t : string) :
  after_close s = Some t -> String.length t < String.length s.
Proof.
  revert t. induction s as [|a s IH]; intros t.
  - simpl. discriminate.
  - change (after_close (String a s))
      with (if starts_with "}}" (String a s) then Some (drop 2 (String a s))
            else if is_line_terminator a then None else after_close s).
    destruct (starts_with "}}" (String a s)) eqn:E.
    + intros H. injection H as H. subst t.
      destruct s as [|b s];
        [simpl in E; rewrite andb_false_r in E; discriminate|].
      simpl. lia.
    + destruct (is_line_terminator a); [discriminate|].
      intros H. specialize (IH _ H). simpl. lia.
Qed.

Lemma annotated_tag_shorter (s name tail : string) :
  annotated_tag s = Some (name, tail) ->
  String.length tail < String.length s.
Proof.
  unfold annotated_tag. destruct (starts_with "{{" s); [|discriminate].
  pose proof (name_run_length (drop 2 s)) as Hn.
  pose proof (drop_length 2 s) as Hd.
  destruct (name_run (drop 2 s)) as [run rest]. cbn [snd] in Hn.
  destruct run as [|c run]; [discriminate|].
  destruct rest as [|x rest']; [discriminate|].
  destruct x as [[] [] [] [] [] [] [] []]; try discriminate.
  destruct (after_close rest') as [t|] eqn:E; [|discriminate].
  intros H. injection H as _ H. subst t.
  apply after_close_length in E. cbn [String.length] in Hn. lia.
Qed.

(** Any bound of at least the length of the text gives the same result:
    the number of steps in [_cleanTemplateText] is enough. *)
Lemma cleanWithin_enough (n : nat) :
  forall m s,
    String.length s <= n -> String.length s <= m ->
    cleanWithin n s = cleanWithin m s.
Proof.
  induction n as [|n IH]; intros m s Hn Hm.
  - destruct s; [|simpl in Hn; lia]. destruct m; reflexivity.
  - destruct m as [|m].
    + destruct s; [|simpl in Hm; lia]. reflexivity.
    + simpl. destruct (annotated_tag s) as [[name tail]|] eqn:E.
      * apply annotated_tag_shorter in E.
        rewrite (IH m tail) by lia. reflexivity.
      * destruct s as [|a s]; [reflexivity|].
        simpl in Hn, Hm. rewrite (IH m s) by lia. reflexivity.
Qed.

(** A name of the pattern: one or more characters of its class. *)
Fixpoint all_name_chars (s : string) : bool :=
  match s with
  | EmptyString => true
  | String a s' => is_name_char a && all_name_chars s'
  end.

(** An annotation that the lazy [.*?] crosses whole: ASCII characters, no
    closing brace and no line terminator among them. *)
Fixpoint plain_annotation (s : string) : bool :=
  match s with
  | EmptyString => true
  | String a s' =>
      (nat_of_ascii a <? 128)%nat
      && (negb (Ascii.eqb "}" a) && negb (is_line_terminator a))
      && plain_annotation s'
  end.

Lemma name_run_app (name tail : string) :
  all_name_chars name = true ->
  name_run (name ++ String ":" tail) = (name, String ":" tail).
Proof.
  induction name as [|a name IH]; simpl; intros H; [reflexivity|].
  apply andb_true_iff in H. destruct H as [Ha Hn].
  rewrite Ha, (IH Hn). reflexivity.
Qed.

Lemma after_close_app (ann rest : string) :
  plain_annotation ann = true ->
  after_close (ann ++ String "}" (String "}" rest)) = Some rest.
Proof.
  induction ann as [|a ann IH]; intros H; [reflexivity|].
  cbn [plain_annotation] in H.
  apply andb_true_iff in H. destruct H as [H Hp].
  apply andb_true_iff in H. destruct H as [_ H].
  apply andb_true_iff in H. destruct H as [Hc Hl].
  apply negb_true_iff in Hc, Hl.
  change (after_close (String a ann ++ String "}" (String "}" rest)))
    with (if Ascii.eqb "}" a
             && starts_with "}" (ann ++ String "}" (String "}" rest))
          then Some (drop 1 (ann ++ String "}" (String "}" rest)))
          else if is_line_terminator a then None
               else after_close (ann ++ String "}" (String "}" rest))).
  rewrite Hc, Hl. simpl. exact (IH Hp).
Qed.

Lemma annotated_tag_app (name ann rest : string) :
  name <> EmptyString ->
  all_name_chars name = true ->
  plain_annotation ann = true ->
  annotated_tag
    (String "{" (String "{"
       (name ++ String ":" (ann ++ String "}" (String "}" rest)))))
  = Some (name, rest).
Proof.
  intros Hne Hn Ha. unfold annotated_tag.
  change (starts_with "{{" (String "{" (String "{" ?x))) with true.
  cbn [drop].
  rewrite (name_run_app name _ Hn).
  destruct name as [|c name]; [congruence|].
  rewrite (after_close_app _ _ Ha). reflexivity.
Qed.

(** X9.  [_cleanTemplateText] replaces a tag [{{name:annotation}}] by
    [{{name}}] and goes on with the text that follows the tag. *)
Theorem annotation_is_stripped (name ann rest : string) :
  name <> EmptyString ->
  all_name_chars name = true ->
  plain_annotation ann = true ->
  _cleanTemplateText ("{{" ++ name ++ ":" ++ ann ++ "}}" ++ rest)
  = "{{" ++ name ++ "}}" ++ _cleanTemplateText rest.
Proof.
  intros Hne Hn Ha. unfold _cleanTemplateText.
  pose proof (annotated_tag_app name ann rest Hne Hn Ha) as Htag.
  change (String "{" (String "{"
            (name ++ String ":" (ann ++ String "}" (String "}" rest)))))
    with ("{{" ++ name ++ ":" ++ ann ++ "}}" ++ rest) in Htag.
  remember ("{{" ++ name ++ ":" ++ ann ++ "}}" ++ rest) as tag eqn:Et.
  assert (Hlen : String.length rest < String.length tag)
    by (apply (annotated_tag_shorter _ _ _ Htag)).
  destruct (String.length tag) as [|n] eqn:El; [lia|].
  cbn [cleanWithin]. rewrite Htag.
  rewrite (cleanWithin_enough n (String.length rest) rest) by lia.
  reflexivity.
Qed.

Lemma annotation_is_stripped_witness :
  _cleanTemplateText ("{{" ++ "#rows" ++ ":" ++ "f5:rows" ++ "}}"
                        ++ "{{name::integer}}{{/rows}}")
  = "{{" ++ "#rows" ++ "}}" ++ _cleanTemplateText "{{name::integer}}{{/rows}}".
Proof.
  apply annotation_is_stripped; [discriminate | reflexivity | reflexivity].
Defined.

Lemma contains_tail (pat : string) (a : ascii) (s : string) :
  contains pat (String a s) = false -> contains pat s = false.
Proof.
  simpl. intros H. apply orb_false_iff in H. destruct H as [_ H].
  destruct s; exact H.
Qed.

Lemma contains_drop (pat : string) (n : nat) :
  forall s, contains pat s = false -> contains pat (drop n s) = false.
Proof.
  induction n as [|n IH]; intros s H; simpl; [exact H|].
  destruct s as [|a s]; [exact H|].
  apply IH. exact (contains_tail _ _ _ H).
Qed.

Lemma contains_name_run (pat : string) (s : string) :
  contains pat s = false -> contains pat (snd (name_run s)) = false.
Proof.
  induction s as [|a s IH]; intros H; simpl; [exact H|].
  destruct (is_name_char a); [|exact H].
  specialize (IH (contains_tail _ _ _ H)).
  destruct (name_run s) as [run rest]. exact IH.
Qed.

Lemma annotated_tag_needs_colon (s : string) :
  contains ":" s = false -> annotated_tag s = None.
Proof.
  intros H. unfold annotated_tag.
  destruct (starts_with "{{" s); [|reflexivity].
  pose proof (contains_name_run ":" _ (contains_drop ":" 2 _ H)) as Hr.
  destruct (name_run (drop 2 s)) as [run rest]. simpl in Hr.
  destruct run as [|c run]; [reflexivity|].
  destruct rest as [|x rest']; [reflexivity|].
  destruct x as [[] [] [] [] [] [] [] []]; try reflexivity.
  simpl in Hr. discriminate.
Qed.

(** X10.  A text without a colon has no annotation to strip:
    [_cleanTemplateText] returns it unchanged. *)
Theorem text_without_colon_is_kept (text : string) :
  contains ":" text = false -> _cleanTemplateText text = text.
Proof.
  unfold _cleanTemplateText. generalize (String.length text) as n.
  intros n. revert text.
  induction n as [|n IH]; intros text H; simpl; [reflexivity|].
  rewrite (annotated_tag_needs_colon _ H).
  destruct text as [|a text]; [reflexivity|].
  rewrite (IH _ (contains_tail _ _ _ H)). reflexivity.
Qed.

Lemma text_without_colon_witness :
  _cleanTemplateText "Hello {{name}}, {{#rows}}{{.}}{{/rows}}"
  = "Hello {{name}}, {{#rows}}{{.}}{{/rows}}".
Proof. apply text_without_colon_is_kept. reflexivity. Defined.

End CleanText.

(* ================================================================== *)
(** * Rendering: merged texts and combined parameters *)
(* ================================================================== *)

Module RenderProperties.
Import Schema Compile Render ObjFacts RenderFacts OwnNames.

(** The content types that have a merge strategy and a post-processing
    strategy of their own. *)
Definition structured (contentType : string) : bool :=
  (contentType =? "application/json")
  || str_in contentType
       ["application/x-yaml"; "application/yaml"; "text/x-yaml"].

Definition nonempty (s : string) : bool :=
  negb (String.length s =? 0)%nat.

Lemma join_merge (sep a b : string) (r : list string) :
  join sep ((a ++ sep ++ b) :: r) = join sep (a :: b :: r).
Proof.
  destruct r as [|c r]; cbn [join]; [reflexivity|].
  rewrite !CleanText.app_assoc. reflexivity.
Qed.

Lemma mergeTexts_plain (rest : list string) :
  forall acc,
    mergeTexts PlainTextMergeStrategy acc rest
    = Ok (join nl (filter nonempty (acc :: rest))).
Proof.
  induction rest as [|curr rest IH]; intros acc.
  - destruct acc; reflexivity.
  - cbn [mergeTexts]. destruct curr as [|c curr].
    + cbn [String.length Nat.eqb]. rewrite IH.
      destruct acc; reflexivity.
    + cbn [String.length Nat.eqb]. destruct acc as [|a acc].
      * cbn [String.length Nat.eqb]. rewrite IH. reflexivity.
      * cbn [String.length Nat.eqb]. unfold PlainTextMergeStrategy.
        cbn [bind]. rewrite IH.
        change (filter nonempty ((String a acc ++ nl ++ String c curr) :: rest))
          with ((String a acc ++ nl ++ String c curr) :: filter nonempty rest).
        change (filter nonempty (String a acc :: String c curr :: rest))
          with (String a acc :: String c curr :: filter nonempty rest).
        rewrite join_merge. reflexivity.
Qed.

Section Rendered.

Variable Mustache_render : string -> json -> obj -> result string.
Variable JSON_stringify : json -> string.
Variable JSON_stringify2 : json -> string.
Variable yaml_load : string -> result json.
Variable yaml_dump : json -> result string.
Variable mexp_eval : json -> list json -> obj -> result json.

(** X11.  For a content type without a merge strategy, [render] joins the
    non-empty texts of the merged-in templates and of the template itself
    with newlines, the template's own text last, and does not post-process
    the result. *)
Theorem plain_render_joins_texts (this : Template) (combParams : json)
    (templateTexts : list string) (own : string) :
  ownName (contentType this) = true ->
  structured (contentType this) = false ->
  Mustache_render (_cleanTemplateText (templateText this))
    (transformParameters JSON_stringify this combParams) (_partials this)
  = Ok own ->
  renderRoot Mustache_render JSON_stringify JSON_stringify2 yaml_load
    yaml_dump this combParams templateTexts
  = Ok (join nl (filter nonempty (templateTexts ++ [own])%list)).
Proof.
  intros _ Hs Hown. unfold renderRoot. rewrite Hown. cbn [bind].
  unfold structured in Hs. apply orb_false_iff in Hs. destruct Hs as [Hj Hy].
  unfold mergeStrategies, postProcessStrategies. rewrite Hj, Hy.
  destruct (templateTexts ++ [own])%list as [|first rest] eqn:E.
  - destruct templateTexts; discriminate.
  - rewrite mergeTexts_plain. reflexivity.
Qed.

End Rendered.

Definition echo (text : string) (_ : json) (_ : obj) : result string :=
  Ok text.

Lemma plain_render_witness :
  renderRoot echo js_toString js_toString
    (fun _ => Throw (External "not used"))
    (fun _ => Throw (External "not used"))
    (set_templateText "own text" newTemplate) (JObj [])
    ["first"; EmptyString; "second"]
  = Ok (join nl (filter nonempty
                   (["first"; EmptyString; "second"] ++ ["own text"])%list)).
Proof.
  apply (plain_render_joins_texts echo js_toString js_toString);
    reflexivity.
Defined.

End RenderProperties.

Module CombinedParameters.
Import Schema Compile Render ObjFacts RenderFacts OwnNames.

(** A value that is not a plain object: a primitive or an array. *)
Definition notObject (v : json) : bool :=
  negb (isMergeableObject v && negb (isArray v)).

Lemma deepmerge_all_snoc (am : arrayMerge) (l : list json) (x : json) :
  deepmerge_all am (l ++ [x])%list
  = (p <- deepmerge_all am l ;; deepmerge_checked am p x).
Proof. unfold deepmerge_all. rewrite fold_left_app. reflexivity. Qed.

(** A merge whose last source is an object: the sources before it were
    merged without error, and the object is merged into their result. *)
Lemma deepmerge_all_object (am : arrayMerge) (l : list json) (m : obj)
    (merged : json) :
  deepmerge_all am (l ++ [JObj m])%list = Ok merged ->
  exists prev,
    deepmerge_all am l = Ok prev /\ merged = deepmerge am prev (JObj m).
Proof.
  rewrite deepmerge_all_snoc.
  destruct (deepmerge_all am l) as [prev|e]; cbn [bind]; [|discriminate].
  intros H. exists prev. split; [reflexivity|].
  unfold deepmerge_checked in H. cbn [is_nullish andb] in H.
  injection H as H. symmetry. exact H.
Qed.

Lemma deepmerge_into (am : arrayMerge) (target : json) (sm : obj) :
  isArray target = false ->
  deepmerge am target (JObj sm)
  = JObj (MergeStrategyClaims.mergeMembers am target sm (targetMembers target)).
Proof. destruct target; intros H; try discriminate; reflexivity. Qed.

Lemma lookup_get (k : string) (v : json) (o : obj) :
  lookup k o = Some v -> get k o = v.
Proof. unfold get. intros H. rewrite H. reflexivity. Qed.

(** The source's member wins a merge that overwrites arrays, unless it is a
    plain object. *)
Lemma overwrite_source_wins (target : json) (sm : obj) (k : string) (v : json) :
  uniqueKeys sm = true ->
  lookup k sm = Some v ->
  notObject v = true ->
  getv k (deepmerge arrayMergeOverwrite target (JObj sm)) = v.
Proof.
  intros Hu Hl Hv. destruct (isArray target) eqn:Ea.
  - destruct target; try discriminate. simpl. unfold getv. simpl.
    exact (lookup_get _ _ _ Hl).
  - rewrite (deepmerge_into _ _ _ Ea). unfold getv. cbn [entries_of].
    rewrite (MergeStrategyClaims.get_mergeMembers _ _ _ _ _ _ Hu Hl).
    destruct v; try (rewrite andb_false_r; reflexivity).
    + destruct (propertyIsOnObject target k); [|reflexivity].
      cbn [isMergeableObject andb].
      destruct (getv k target); reflexivity.
    + discriminate.
Qed.

(** A member that the source lacks is the target's. *)
Lemma merge_keeps_target (am : arrayMerge) (tm sm : obj) (k : string) :
  lookup k sm = None ->
  getv k (deepmerge am (JObj tm) (JObj sm)) = get k tm.
Proof.
  intros Hl. rewrite MergeStrategyClaims.deepmerge_objects.
  unfold getv. cbn [entries_of].
  apply MergeStrategyClaims.get_mergeMembers_absent.
  induction sm as [|[k0 v0] sm IH]; [reflexivity|].
  simpl in *. destruct (k =? k0); [discriminate|]. exact (IH Hl).
Qed.

Lemma lookup_none_not_in (k : string) (o : obj) :
  lookup k o = None -> forall v, ~ In (k, v) o.
Proof.
  induction o as [|[k0 v0] o IH]; simpl; intros H v; [tauto|].
  destruct (k =? k0) eqn:E; [discriminate|].
  intros [Hin|Hin]; [|exact (IH H v Hin)].
  inversion Hin. subst. rewrite String.eqb_refl in E. discriminate.
Qed.

(** [Object.assign(defaults, mathExprResults)] leaves the other members. *)
Lemma assigned_member (defaults : json) (results : obj) (k : string) :
  lookup k results = None ->
  getv k (match results with
          | [] => defaults
          | _ => JObj (assign (entries_of defaults) results)
          end)
  = getv k defaults.
Proof.
  intros Hr. destruct results as [|kv results]; [reflexivity|].
  remember (kv :: results) as l. unfold getv at 1. cbn [entries_of].
  unfold get.
  rewrite lookup_assign_absent by (apply lookup_none_not_in; exact Hr).
  reflexivity.
Qed.

Section Combined.

Variable mexp_eval : json -> list json -> obj -> result json.

(** Only the properties with a [mathExpression] get a computed value. *)
Lemma mathResultsOf_absent (typeProps : json) (tokens : list json)
    (pairs : obj) (k : string) (props : list string) :
  truthy (getv "mathExpression" (getv k typeProps)) = false ->
  forall acc res,
    mathResultsOf mexp_eval typeProps tokens pairs props acc = Ok res ->
    lookup k res = lookup k acc.
Proof.
  intros Hk. induction props as [|key props IH]; intros acc res H.
  - inversion H. reflexivity.
  - cbn [mathResultsOf] in H. unfold member in H.
    destruct (is_nullish (getv key typeProps)); [discriminate|].
    cbn [bind] in H.
    destruct (truthy (getv "mathExpression" (getv key typeProps))) eqn:Et.
    + destruct (mexp_eval _ tokens pairs) as [r|e]; [|discriminate].
      cbn [bind] in H. rewrite (IH _ _ H), lookup_set.
      destruct (k =? key) eqn:E; [|reflexivity].
      apply String.eqb_eq in E. subst key. congruence.
    + exact (IH _ _ H).
Qed.

Lemma combine_member (this : Template) (parameters : json)
    (mergedDefaults : list json) (k : string) (combinedParams : json) :
  truthy (getv "mathExpression"
            (getv k (getv "properties" (getParametersSchema this)))) = false ->
  combine mexp_eval this parameters mergedDefaults = Ok combinedParams ->
  exists typeDefaults,
    (if truthy (getv "properties" (getParametersSchema this))
     then d <- typeDefaultsOf (getv "properties" (getParametersSchema this))
                 (keys (entries_of (getv "properties" (getParametersSchema this))))
                 [] ;;
          Ok (JObj d)
     else Ok (getv "properties" (getParametersSchema this))) = Ok typeDefaults
    /\ exists defaults,
         deepmerge_all arrayMergeOverwrite
           (mergedDefaults
              ++ [js_or typeDefaults (JObj []); defaultParameters this;
                  parameters])%list = Ok defaults
         /\ getv k combinedParams = getv k defaults.
Proof.
  intros Hk. unfold combine.
  destruct (if truthy (getv "properties" (getParametersSchema this))
            then _ else _) as [typeDefaults|e]; [|discriminate].
  cbn [bind]. intros H. exists typeDefaults. split; [reflexivity|].
  destruct (deepmerge_all arrayMergeOverwrite _) as [defaults|e];
    cbn [bind] in H; [|discriminate].
  exists defaults. split; [reflexivity|].
  destruct (truthy (getv "properties" (getParametersSchema this))).
  - match type of H with
    | context [mathResultsOf ?m ?tp ?toks ?prs ?props ?acc] =>
        destruct (mathResultsOf m tp toks prs props acc) as [res|e] eqn:Em
    end; [|discriminate].
    cbn [bind] in H. pose proof (mathResultsOf_absent _ _ _ _ _ Hk _ _ Em) as Hr.
    change (lookup k []) with (@None json) in Hr.
    injection H as H. subst combinedParams.
    exact (assigned_member _ _ _ Hr).
  - cbn [bind] in H. injection H as H. subst combinedParams. reflexivity.
Qed.

(** X12.  A value that the caller supplies for a parameter is the value of
    that parameter in the combined parameters, whatever the defaults of the
    template and of the templates merged into it, when the value is a
    primitive or an array (an array replaces a default array whole) and the
    schema gives the parameter no [mathExpression]. *)
Theorem caller_value_wins (this : Template) (supplied : obj) (k : string)
    (v combinedParams : json) :
  ownName k = true ->
  uniqueKeys supplied = true ->
  lookup k supplied = Some v ->
  notObject v = true ->
  truthy (getv "mathExpression"
            (getv k (getv "properties" (getParametersSchema this)))) = false ->
  getCombinedParameters mexp_eval this (JObj supplied) = Ok combinedParams ->
  getv k combinedParams = v.
Proof.
  intros _ Hu Hl Hv Hk H. rewrite getCombinedParameters_eq in H.
  cbv zeta in H. change (js_or (JObj supplied) (JObj [])) with (JObj supplied) in H.
  destruct (pushEach _ (_oneOf this) []) as [d1|e]; [|discriminate].
  cbn [bind] in H.
  destruct (pushEach _ (_allOf this) d1) as [d2|e]; [|discriminate].
  cbn [bind] in H.
  destruct (pushEach _ (_anyOf this) d2) as [d3|e]; [|discriminate].
  cbn [bind] in H.
  destruct (combine_member _ _ _ _ _ Hk H)
    as [typeDefaults [_ [defaults [Hd Hg]]]].
  rewrite Hg.
  change (d3 ++ [js_or typeDefaults (JObj []); defaultParameters this;
                 JObj supplied])%list
    with (d3 ++ [js_or typeDefaults (JObj []); defaultParameters this]
             ++ [JObj supplied])%list in Hd.
  rewrite app_assoc in Hd.
  destruct (deepmerge_all_object _ _ _ _ Hd) as [prev [_ ->]].
  exact (overwrite_source_wins _ _ _ _ Hu Hl Hv).
Qed.

Lemma keys_set (x k : string) (v : json) (o : obj) :
  existsb (String.eqb x) (map fst (set k v o))
  = (x =? k) || existsb (String.eqb x) (map fst o).
Proof.
  induction o as [|[k1 v1] o IH]; simpl.
  - reflexivity.
  - destruct (k =? k1) eqn:E; simpl.
    + apply String.eqb_eq in E. subst k1.
      destruct (x =? k); reflexivity.
    + rewrite IH. destruct (x =? k1), (x =? k); reflexivity.
Qed.

Lemma uniqueKeys_set (k : string) (v : json) (o : obj) :
  uniqueKeys o = true -> uniqueKeys (set k v o) = true.
Proof.
  induction o as [|[k0 v0] o IH]; simpl; intros H; [reflexivity|].
  apply andb_true_iff in H. destruct H as [Hk Hu].
  destruct (k =? k0) eqn:E; simpl.
  - apply String.eqb_eq in E. subst k0. rewrite Hk, Hu. reflexivity.
  - rewrite keys_set, (IH Hu), String.eqb_sym, E. simpl. rewrite Hk.
    reflexivity.
Qed.

Lemma typeDefaultsOf_unique (typeProps : json) (props : list string) :
  forall acc res,
    uniqueKeys acc = true ->
    typeDefaultsOf typeProps props acc = Ok res ->
    uniqueKeys res = true.
Proof.
  induction props as [|key props IH]; intros acc res Hu H.
  - injection H as H. subst res. exact Hu.
  - cbn [typeDefaultsOf] in H. unfold member in H.
    destruct (is_nullish (getv key typeProps)); [discriminate|].
    cbn [bind] in H. refine (IH _ _ _ H).
    destruct (negb (is_undefined (getv "default" (getv key typeProps))));
      [apply uniqueKeys_set|]; exact Hu.
Qed.

(** Every property with a [default] is a member of the collected defaults. *)
Lemma typeDefaultsOf_lookup (typeProps : json) (k : string)
    (props : list string) :
  is_undefined (getv "default" (getv k typeProps)) = false ->
  forall acc res,
    typeDefaultsOf typeProps props acc = Ok res ->
    In k props \/ lookup k acc = Some (getv "default" (getv k typeProps)) ->
    lookup k res = Some (getv "default" (getv k typeProps)).
Proof.
  intros Hd. induction props as [|key props IH]; intros acc res H Hin.
  - injection H as H. subst res. destruct Hin as [[]|Hin]. exact Hin.
  - cbn [typeDefaultsOf] in H. unfold member in H.
    destruct (is_nullish (getv key typeProps)); [discriminate|].
    cbn [bind] in H. apply (IH _ _ H).
    destruct Hin as [[Hk|Hin]|Hacc].
    + subst key. right. rewrite Hd. cbn [negb].
      rewrite lookup_set, String.eqb_refl. reflexivity.
    + left. exact Hin.
    + right.
      destruct (negb (is_undefined (getv "default" (getv key typeProps))));
        [|exact Hacc].
      rewrite lookup_set. destruct (k =? key) eqn:E; [|exact Hacc].
      apply String.eqb_eq in E. subst key. reflexivity.
Qed.

Lemma deepmerge_object (am : arrayMerge) (target : json) (sm : obj) :
  exists m, deepmerge am target (JObj sm) = JObj m.
Proof.
  destruct (isArray target) eqn:E.
  - destruct target; try discriminate. exists sm. reflexivity.
  - rewrite (deepmerge_into _ _ _ E). eexists. reflexivity.
Qed.

Lemma member_truthy (k : string) (v propDef : json) :
  lookup k (entries_of v) = Some propDef -> truthy v = true.
Proof.
  destruct v; simpl; try discriminate; try reflexivity.
  destruct s; [discriminate | reflexivity].
Qed.

(** X13.  A parameter that neither the caller nor [defaultParameters]
    supplies takes the [default] of its property in the parameters schema,
    whatever the templates merged into this one provide, when that default
    is a primitive or an array and the property has no [mathExpression]. *)
Theorem schema_default_is_used (this : Template) (supplied ownDefaults : obj)
    (k : string) (propDef combinedParams : json) :
  ownName k = true ->
  lookup k (entries_of (getv "properties" (getParametersSchema this)))
  = Some propDef ->
  is_undefined (getv "default" propDef) = false ->
  notObject (getv "default" propDef) = true ->
  truthy (getv "mathExpression" propDef) = false ->
  defaultParameters this = JObj ownDefaults ->
  lookup k ownDefaults = None ->
  lookup k supplied = None ->
  getCombinedParameters mexp_eval this (JObj supplied) = Ok combinedParams ->
  getv k combinedParams = getv "default" propDef.
Proof.
  intros _ Hp Hd Hn Hm Hown Hko Hks H.
  assert (Hg : getv k (getv "properties" (getParametersSchema this)) = propDef)
    by (exact (lookup_get _ _ _ Hp)).
  rewrite getCombinedParameters_eq in H. cbv zeta in H.
  change (js_or (JObj supplied) (JObj [])) with (JObj supplied) in H.
  destruct (pushEach _ (_oneOf this) []) as [d1|e]; [|discriminate].
  cbn [bind] in H.
  destruct (pushEach _ (_allOf this) d1) as [d2|e]; [|discriminate].
  cbn [bind] in H.
  destruct (pushEach _ (_anyOf this) d2) as [d3|e]; [|discriminate].
  cbn [bind] in H.
  assert (Hm' : truthy (getv "mathExpression"
                  (getv k (getv "properties" (getParametersSchema this))))
                = false) by (rewrite Hg; exact Hm).
  destruct (combine_member _ _ _ _ _ Hm' H)
    as [typeDefaults [Ht [defaults [Hdef Hc]]]].
  rewrite Hc. rewrite (member_truthy _ _ _ Hp) in Ht.
  destruct (typeDefaultsOf _ _ []) as [td|e] eqn:Etd; [|discriminate].
  cbn [bind] in Ht. injection Ht as Ht. subst typeDefaults.
  change (js_or (JObj td) (JObj [])) with (JObj td) in Hdef.
  rewrite Hown in Hdef.
  change (d3 ++ [JObj td; JObj ownDefaults; JObj supplied])%list
    with (d3 ++ ([JObj td] ++ [JObj ownDefaults]) ++ [JObj supplied])%list
    in Hdef.
  rewrite app_assoc in Hdef.
  destruct (deepmerge_all_object _ _ _ _ Hdef) as [prev2 [Hdef2 ->]].
  rewrite app_assoc in Hdef2.
  destruct (deepmerge_all_object _ _ _ _ Hdef2) as [prev1 [Hdef1 ->]].
  destruct (deepmerge_all_object _ _ _ _ Hdef1) as [prev0 [_ ->]].
  pose proof (typeDefaultsOf_unique _ _ [] _ eq_refl Etd) as Hu.
  assert (Hl : lookup k td = Some (getv "default" propDef)).
  { rewrite <- Hg.
    apply (typeDefaultsOf_lookup _ _ _ ltac:(rewrite Hg; exact Hd) _ _ Etd).
    left. apply lookup_in in Hp. exact (in_map fst _ _ Hp). }
  pose proof (overwrite_source_wins prev0 td k _ Hu Hl Hn) as Hw.
  destruct (deepmerge_object arrayMergeOverwrite prev0 td) as [m1 E1].
  rewrite E1 in Hw |- *.
  destruct (deepmerge_object arrayMergeOverwrite (JObj m1) ownDefaults)
    as [m2 E2].
  rewrite E2, (merge_keeps_target _ _ _ _ Hks).
  change (get k m2) with (getv k (JObj m2)).
  rewrite <- E2, (merge_keeps_target _ _ _ _ Hko). exact Hw.
Qed.

End Combined.

(** A template whose schema gives [port] a default. *)
Definition portTemplate : Template :=
  set_parametersSchema
    (JObj [("properties",
            JObj [("port", JObj [("type", JStr "integer");
                                 ("default", JNum 443)])])])
    newTemplate.

Definition noMath (_ : json) (_ : list json) (_ : obj) : result json :=
  Throw (External "no expression expected").

Lemma caller_value_witness :
  getv "port"
    (match getCombinedParameters noMath portTemplate
             (JObj [("port", JNum 8443)]) with
     | Ok combinedParams => combinedParams
     | Throw _ => JUndef
     end)
  = JNum 8443.
Proof.
  apply (caller_value_wins noMath portTemplate [("port", JNum 8443)] "port");
    vm_compute; reflexivity.
Defined.

Lemma schema_default_witness :
  getv "port"
    (match getCombinedParameters noMath portTemplate
             (JObj [("host", JStr "example.net")]) with
     | Ok combinedParams => combinedParams
     | Throw _ => JUndef
     end)
  = getv "default" (JObj [("type", JStr "integer"); ("default", JNum 443)]).
Proof.
  apply (schema_default_is_used noMath portTemplate
           [("host", JStr "example.net")] [] "port");
    vm_compute; reflexivity.
Defined.

End CombinedParameters.

(* ================================================================== *)
(** * Tag names: [defName:schemaName:type] *)
(* ================================================================== *)

Module TagNames.
Import Schema ObjFacts OwnNames.

Lemma split_plain (s : string) :
  contains ":" s = false -> split_on ":" s = [s].
Proof.
  induction s as [|a s IH]; intros H; [reflexivity|].
  pose proof (CleanText.contains_tail _ _ _ H) as Hs.
  cbn [split_on]. destruct (Ascii.eqb a ":") eqn:E.
  - apply Ascii.eqb_eq in E. subst a. discriminate.
  - rewrite (IH Hs). reflexivity.
Qed.

Lemma split_colon (u rest : string) :
  contains ":" u = false ->
  split_on ":" (u ++ String ":" rest) = u :: split_on ":" rest.
Proof.
  induction u as [|a u IH]; intros H; [reflexivity|].
  pose proof (CleanText.contains_tail _ _ _ H) as Hu.
  change (String a u ++ String ":" rest) with (String a (u ++ String ":" rest)).
  cbn [split_on]. destruct (Ascii.eqb a ":") eqn:E.
  - apply Ascii.eqb_eq in E. subst a. discriminate.
  - rewrite (IH Hu). reflexivity.
Qed.

Lemma split_three (defName schemaName type : string) :
  contains ":" defName = false ->
  contains ":" schemaName = false ->
  contains ":" type = false ->
  split_on ":" (defName ++ ":" ++ schemaName ++ ":" ++ type)
  = [defName; schemaName; type].
Proof.
  intros Hd Hs Ht.
  change (defName ++ ":" ++ schemaName ++ ":" ++ type)
    with (defName ++ String ":" (schemaName ++ String ":" type)).
  rewrite (split_colon _ _ Hd), (split_colon _ _ Hs), (split_plain _ Ht).
  reflexivity.
Qed.

Section Tags.

Variables typeSchemas dataFiles : obj.
Variables toBase64 fromBase64 : string -> string.

Abbreviation handled :=
  (handleToken typeSchemas dataFiles toBase64 fromBase64).

Lemma handleToken_eq (mstType mstName : string) (children : list token)
    (s : Template * Acc) :
  handled (Token mstType mstName children) s
  = handleCase typeSchemas dataFiles toBase64 fromBase64 mstType mstName
      (_handleParsed typeSchemas dataFiles toBase64 fromBase64 children) s.
Proof. reflexivity. Qed.

(** X14.  A variable, section, inverted section or partial tag that names
    a type schema which the schema provider did not supply is rejected
    with the schema-not-found error, which quotes the schema name, the
    kind of the tag and its whole name. *)
Theorem unknown_type_schema (mstType defName schemaName type : string)
    (children : list token) (s : Template * Acc) :
  str_in mstType ["name"; "#"; ">"; "^"] = true ->
  contains ":" defName = false ->
  contains ":" schemaName = false ->
  contains ":" type = false ->
  schemaName <> EmptyString ->
  ownName schemaName = true ->
  lookup schemaName typeSchemas = None ->
  handled (Token mstType (defName ++ ":" ++ schemaName ++ ":" ++ type) children) s
  = Throw (SchemaNotFound schemaName mstType
             (defName ++ ":" ++ schemaName ++ ":" ++ type)).
Proof.
  intros Hk Hd Hs Ht Hne _ Hl. rewrite handleToken_eq. unfold handleCase.
  rewrite (split_three _ _ _ Hd Hs Ht).
  change (part [defName; schemaName; type] 1) with (JStr schemaName).
  unfold resolveTypeSchema. rewrite Hk.
  change (js_toString (JStr schemaName)) with schemaName.
  unfold get. rewrite Hl.
  assert (Htr : truthy (JStr schemaName) = true).
  { destruct schemaName; [congruence | reflexivity]. }
  rewrite Htr. reflexivity.
Qed.

(** X15.  A variable tag [{{defName::type}}] whose type is none of the
    eight primitive types is rejected. *)
Theorem unknown_primitive_type (defName type : string)
    (children : list token) (s : Template * Acc) :
  contains ":" defName = false ->
  contains ":" type = false ->
  type <> EmptyString ->
  ownName type = true ->
  str_in type primitives = false ->
  handled (Token "name" (defName ++ "::" ++ type) children) s
  = Throw (NoSchemaDefinition (JStr EmptyString) type).
Proof.
  intros Hd Ht Hne _ Hp. rewrite handleToken_eq. unfold handleCase.
  change (defName ++ "::" ++ type)
    with (defName ++ ":" ++ EmptyString ++ ":" ++ type).
  rewrite (split_three defName EmptyString type Hd eq_refl Ht).
  change (part [defName; EmptyString; type] 1) with (JStr EmptyString).
  change (part [defName; EmptyString; type] 2) with (JStr type).
  destruct s as [this acc].
  change (resolveTypeSchema typeSchemas "name" _ (JStr EmptyString) (JStr type)
            (fst (this, acc))) with (Ok this).
  cbn [bind String.eqb Ascii.eqb Bool.eqb snd]. unfold handleName.
  assert (Htr : js_or (JStr type) (JStr "string") = JStr type).
  { destruct type; [congruence | reflexivity]. }
  rewrite Htr. change (js_toString (JStr type)) with type.
  rewrite Hp. reflexivity.
Qed.

(** X16.  A partial tag [{{> defName}}] for which no partial was
    registered is rejected, whatever the definitions say. *)
Theorem unknown_partial (defName : string) (children : list token)
    (this : Template) (acc : Acc) :
  contains ":" defName = false ->
  ownName defName = true ->
  truthy (get defName (_partials this)) = false ->
  handled (Token ">" defName children) (this, acc)
  = Throw (UnknownPartial defName).
Proof.
  intros Hd _ Hp. rewrite handleToken_eq. unfold handleCase.
  rewrite (split_plain _ Hd).
  change (part [defName] 1) with JUndef. change (part [defName] 2) with JUndef.
  change (resolveTypeSchema typeSchemas ">" defName JUndef JUndef
            (fst (this, acc))) with (Ok this).
  cbn [bind String.eqb Ascii.eqb Bool.eqb snd hd]. unfold handlePartial.
  rewrite Hp. reflexivity.
Qed.

Lemma set_set_same (k : string) (v v' : json) (o : obj) :
  set k v (set k v' o) = set k v o.
Proof.
  induction o as [|[k0 v0] o IH]; simpl.
  - rewrite String.eqb_refl. reflexivity.
  - destruct (k =? k0) eqn:E; simpl.
    + rewrite String.eqb_refl. reflexivity.
    + rewrite E, IH. reflexivity.
Qed.

(** A variable tag of a plain type, as an equation. *)
Lemma typed_variable_step (defName type : string) (children : list token)
    (this : Template) (acc : Acc) :
  contains ":" defName = false ->
  str_in type ["boolean"; "object"; "number"; "string"; "integer"] = true ->
  truthy (get defName (definitions this)) = false ->
  handled (Token "name" (defName ++ "::" ++ type) children) (this, acc)
  = Ok (this,
        mkAcc (set defName (JObj [("type", JStr type)]) (properties acc))
          (set_add (JStr defName) (required acc))
          (dependencies acc)).
Proof.
  intros Hd Ht Hdef. rewrite handleToken_eq. unfold handleCase.
  assert (Hty : type = "boolean" \/ type = "object" \/ type = "number"
                \/ type = "string" \/ type = "integer").
  { unfold str_in in Ht. cbn [existsb] in Ht.
    repeat (apply orb_true_iff in Ht; destruct Ht as [Ht|Ht];
            [apply String.eqb_eq in Ht; tauto|]).
    discriminate. }
  assert (Hc : contains ":" type = false)
    by (repeat (destruct Hty as [->|Hty]; [reflexivity|]); subst; reflexivity).
  change (defName ++ "::" ++ type)
    with (defName ++ ":" ++ EmptyString ++ ":" ++ type).
  rewrite (split_three defName EmptyString type Hd eq_refl Hc).
  change (part [defName; EmptyString; type] 1) with (JStr EmptyString).
  change (part [defName; EmptyString; type] 2) with (JStr type).
  change (resolveTypeSchema typeSchemas "name" _ (JStr EmptyString) (JStr type)
            (fst (this, acc))) with (Ok this).
  cbn [bind String.eqb Ascii.eqb Bool.eqb snd hd]. unfold handleName.
  unfold variableProperty. rewrite Hdef.
  assert (Hb : baseProperty typeSchemas (JStr EmptyString)
                 (js_toString (js_or (JStr type) (JStr "string")))
               = Ok [("type", JStr type)])
    by (repeat (destruct Hty as [->|Hty]; [reflexivity|]); subst; reflexivity).
  assert (Hp : (negb (truthy (JStr EmptyString))
                && negb (str_in (js_toString (js_or (JStr type) (JStr "string")))
                           primitives)) = false)
    by (repeat (destruct Hty as [->|Hty]; [reflexivity|]); subst; reflexivity).
  rewrite Hp, Hb. cbn [bind].
  change (_isPropRequired (JObj [("type", JStr type)])) with true.
  change (is_str "info" (get "format" [("type", JStr type)])) with false.
  cbn [andb].
  change (truthy (get "mathExpression" [("type", JStr type)])) with false.
  cbn iota. cbn [bind]. unfold resolveDataFile.
  change (truthy (get "dataFile" [("type", JStr type)])) with false.
  cbn iota. cbn [bind]. rewrite set_set_same. reflexivity.
Qed.

(** X17.  Where the author gives no definition for it, a variable tag
    [{{defName::type}}] with one of the types boolean, object, number,
    string and integer declares the property [defName] as exactly
    [{type}] and makes it required; every other property, the
    dependencies and the template stay as they were. *)
Theorem typed_variable (defName type : string) (children : list token)
    (this : Template) (acc : Acc) :
  contains ":" defName = false ->
  ownName defName = true ->
  str_in type ["boolean"; "object"; "number"; "string"; "integer"] = true ->
  truthy (get defName (definitions this)) = false ->
  exists acc',
    handled (Token "name" (defName ++ "::" ++ type) children) (this, acc)
    = Ok (this, acc')
    /\ get defName (properties acc') = JObj [("type", JStr type)]
    /\ (forall k, (k =? defName) = false ->
                  get k (properties acc') = get k (properties acc))
    /\ set_has (JStr defName) (required acc') = true
    /\ (forall x, set_has x (required acc) = true ->
                  set_has x (required acc') = true)
    /\ dependencies acc' = dependencies acc.
Proof.
  intros Hd _ Ht Hdef. eexists. split.
  { exact (typed_variable_step _ _ _ _ _ Hd Ht Hdef). }
  cbn [properties required dependencies].
  split; [apply get_set_same|].
  split; [intros k Hk; apply get_set_other; exact Hk|].
  split; [|split; [|reflexivity]].
  - unfold set_add. destruct (set_has (JStr defName) (required acc)) eqn:E;
      [exact E|].
    unfold set_has. rewrite existsb_app. cbn [existsb strict_eq].
    rewrite String.eqb_refl, orb_true_r. reflexivity.
  - intros x Hx. unfold set_add.
    destruct (set_has (JStr defName) (required acc)); [exact Hx|].
    unfold set_has in *. rewrite existsb_app, Hx. reflexivity.
Qed.

End Tags.

Lemma unknown_type_schema_witness :
  handleToken [] [] (fun s => s) (fun s => s)
    (Token "#" ("pool" ++ ":" ++ "f5" ++ ":" ++ "pool_members") [])
    (newTemplate, initialAcc)
  = Throw (SchemaNotFound "f5" "#" ("pool" ++ ":" ++ "f5" ++ ":" ++ "pool_members")).
Proof.
  apply unknown_type_schema; (reflexivity || discriminate).
Defined.

Lemma unknown_primitive_witness :
  handleToken [] [] (fun s => s) (fun s => s)
    (Token "name" ("port" ++ "::" ++ "float") []) (newTemplate, initialAcc)
  = Throw (NoSchemaDefinition (JStr EmptyString) "float").
Proof.
  apply unknown_primitive_type; (reflexivity || discriminate).
Defined.

Lemma unknown_partial_witness :
  handleToken [] [] (fun s => s) (fun s => s)
    (Token ">" "header" []) (newTemplate, initialAcc)
  = Throw (UnknownPartial "header").
Proof.
  apply unknown_partial; reflexivity.
Defined.

Lemma typed_variable_witness :
  exists acc',
    handleToken [] [] (fun s => s) (fun s => s)
      (Token "name" ("port" ++ "::" ++ "integer") []) (newTemplate, initialAcc)
    = Ok (newTemplate, acc')
    /\ get "port" (properties acc') = JObj [("type", JStr "integer")]
    /\ (forall k, (k =? "port") = false ->
                  get k (properties acc') = get k (properties initialAcc))
    /\ set_has (JStr "port") (required acc') = true
    /\ (forall x, set_has x (required initialAcc) = true ->
                  set_has x (required acc') = true)
    /\ dependencies acc' = dependencies initialAcc.
Proof.
  apply typed_variable; reflexivity.
Defined.

End TagNames.

(* ================================================================== *)
(** * Loading: references and providers *)
(* ================================================================== *)

Module LoadingProperties.
Import Schema Compile LoadYaml ObjFacts OwnNames.

Section Unchecked.

Variable RefParser_resolve : RefParserArgs -> result (list string).
Variable RefParser_bundle : RefParserArgs -> result json.
Variable path_relative : string -> string -> string.
Variable path_sep : ascii.
Variable cwd : string.

(** X18.  Without a root directory, or with a template provider,
    [loadYaml] resolves no reference and tests no path: the document is
    bundled at once, and a failure of the bundling is reported as a failure
    to parse the references. *)
Theorem references_unchecked_without_root (st : Settings) (yamldata : json) :
  (rootDir st =? EmptyString) || has_provider st = true ->
  resolveReferences RefParser_resolve RefParser_bundle path_relative path_sep
    cwd st yamldata
  = ([Bundled],
     match RefParser_bundle (refParserArgsOf path_sep cwd st yamldata) with
     | Ok bundled => Ok bundled
     | Throw e => Throw (RefsFailed e)
     end).
Proof.
  intros H. unfold resolveReferences.
  assert (Hc : (negb (rootDir st =? EmptyString) && negb (has_provider st))
               = false).
  { destruct (rootDir st =? EmptyString); [reflexivity|].
    simpl in H. rewrite H. reflexivity. }
  rewrite Hc. cbn [tbind tret lift checkRefs call tcatch app].
  destruct (RefParser_bundle _); reflexivity.
Qed.

End Unchecked.

(** A resolver that would report a path outside any root. *)
Definition escaping (_ : RefParserArgs) : result (list string) :=
  Ok ["/etc/passwd"].

Definition bundled (args : RefParserArgs) : result json :=
  Ok (args_yamldata args).

Lemma references_unchecked_witness :
  resolveReferences escaping bundled (fun _ to => "../.." ++ to) "/" "/srv"
    (settingsOf NoOptions) (JObj [("template", JStr "x")])
  = ([Bundled],
     match bundled
             (refParserArgsOf "/" "/srv" (settingsOf NoOptions)
                (JObj [("template", JStr "x")])) with
     | Ok b => Ok b
     | Throw e => Throw (RefsFailed e)
     end).
Proof.
  apply references_unchecked_without_root. reflexivity.
Defined.

(** ** Providers *)

Lemma fetchAll_spec (p : Provider) (names : list string) :
  forall l,
    fetchAll p names = Ok l ->
    map fst l = names
    /\ forall kv, In kv l -> fetch p (fst kv) = Ok (snd kv).
Proof.
  induction names as [|x names IH]; intros l H; simpl in H.
  - injection H as H. subst l. split; [reflexivity | intros kv []].
  - destruct (fetch p x) as [data|e] eqn:Ef; simpl in H; [|discriminate].
    destruct (fetchAll p names) as [rest|e]; simpl in H; [|discriminate].
    injection H as H. subst l. destruct (IH _ eq_refl) as [Hm Hf].
    split; [simpl; rewrite Hm; reflexivity|].
    intros kv [<-|Hin]; [exact Ef | exact (Hf kv Hin)].
Qed.

Section Schemas.

Variable JSON_parse : string -> result json.

(** The [reduce] of [_loadTypeSchemas]. *)
Definition parseInto (acc : result obj) (curr : string * string)
  : result obj :=
  acc <- acc ;;
  schema <- JSON_parse (snd curr) ;;
  Ok (set (fst curr) schema acc).

Lemma parseInto_failed (l : list (string * string)) (e : Error) :
  fold_left parseInto l (Throw e) = Throw e.
Proof. induction l as [|kv l IH]; simpl; [reflexivity | exact IH]. Qed.

Lemma parseInto_spec (name text : string) (l : list (string * string)) :
  (forall kv, In kv l -> fst kv = name -> snd kv = text) ->
  forall acc res,
    fold_left parseInto l (Ok acc) = Ok res ->
    (In name (map fst l) ->
     exists schema, JSON_parse text = Ok schema /\ get name res = schema)
    /\ (~ In name (map fst l) -> get name res = get name acc).
Proof.
  induction l as [|[k t] l IH]; intros Hsame acc res H.
  - injection H as H. subst res. split; [intros [] | reflexivity].
  - cbn [fold_left] in H. unfold parseInto at 2 in H. cbn [bind fst snd] in H.
    destruct (JSON_parse t) as [schema0|e] eqn:Ep; cbn [bind] in H;
      [|rewrite parseInto_failed in H; discriminate].
    assert (Hsame' : forall kv, In kv l -> fst kv = name -> snd kv = text)
      by (intros kv Hin; apply Hsame; right; exact Hin).
    destruct (IH Hsame' _ _ H) as [IH1 IH2].
    destruct (in_dec string_dec name (map fst l)) as [Hin|Hnin].
    + split; [intros _; exact (IH1 Hin)|].
      intros Hn. exfalso. apply Hn. right. exact Hin.
    + split.
      * intros [Hk|Hin]; [|contradiction]. cbn [fst] in Hk. subst k.
        assert (Ht : t = text) by (apply (Hsame (name, t)); [left|]; reflexivity).
        subst t. exists schema0. split; [exact Ep|].
        rewrite (IH2 Hnin). apply get_set_same.
      * intros Hn. rewrite (IH2 Hnin). apply get_set_other.
        destruct (name =? k) eqn:E; [|reflexivity].
        apply String.eqb_eq in E. subst k. exfalso. apply Hn. left. reflexivity.
Qed.

(** X19.  When [_loadTypeSchemas] succeeds, every name that the schema
    provider lists is a key of the result, bound to the parsed JSON of what
    the provider fetches for that name; a name that is not listed is no key
    of the result. *)
Theorem type_schemas_are_the_listed_ones (p : Provider)
    (names : list string) (typeSchemas : obj) :
  list_ p = Ok names ->
  _loadTypeSchemas JSON_parse (Some p) = Ok typeSchemas ->
  (forall name, In name names -> ownName name = true ->
     exists text schema,
       fetch p name = Ok text /\ JSON_parse text = Ok schema
       /\ get name typeSchemas = schema)
  /\ (forall name, ~ In name names -> get name typeSchemas = JUndef).
Proof.
  intros Hl H. unfold _loadTypeSchemas in H. rewrite Hl in H. cbn [bind] in H.
  destruct (fetchAll p names) as [schemas|e] eqn:Ef; cbn [bind] in H;
    [|discriminate].
  destruct (fetchAll_spec _ _ _ Ef) as [Hm Hf].
  change (fold_left _ schemas (Ok [])) with (fold_left parseInto schemas (Ok []))
    in H.
  split.
  - intros name Hin _.
    assert (Hex : exists text, fetch p name = Ok text).
    { rewrite <- Hm in Hin. apply in_map_iff in Hin.
      destruct Hin as [kv [Hk Hin]]. exists (snd kv). rewrite <- Hk.
      exact (Hf kv Hin). }
    destruct Hex as [text Ht]. exists text.
    assert (Hsame : forall kv, In kv schemas -> fst kv = name -> snd kv = text).
    { intros kv Hkv Hk. pose proof (Hf kv Hkv) as Hfk. rewrite Hk, Ht in Hfk.
      injection Hfk as Hfk. symmetry. exact Hfk. }
    destruct (parseInto_spec name text schemas Hsame _ _ H) as [H1 _].
    rewrite Hm in H1. destruct (H1 Hin) as [schema [Hp Hg]].
    exists schema. auto.
  - intros name Hn.
    destruct (parseInto_spec name EmptyString schemas) with (acc := @nil (string * json))
      (res := typeSchemas) as [_ H2].
    + intros kv Hkv Hk. exfalso. apply Hn. rewrite <- Hm, <- Hk.
      apply in_map. exact Hkv.
    + exact H.
    + rewrite Hm in H2. exact (H2 Hn).
Qed.

End Schemas.

(** The [reduce] of [_loadDataFiles]. *)
Lemma storeInto_spec (name data : string) (l : list (string * string)) :
  (forall kv, In kv l -> fst kv = name -> snd kv = data) ->
  forall acc,
    (In name (map fst l) ->
     get name
       (fold_left (fun acc curr => set (fst curr) (JStr (snd curr)) acc) l acc)
     = JStr data)
    /\ (~ In name (map fst l) ->
        get name
          (fold_left (fun acc curr => set (fst curr) (JStr (snd curr)) acc)
             l acc)
        = get name acc).
Proof.
  induction l as [|[k t] l IH]; intros Hsame acc.
  - split; [intros [] | reflexivity].
  - cbn [fold_left fst snd].
    assert (Hsame' : forall kv, In kv l -> fst kv = name -> snd kv = data)
      by (intros kv Hin; apply Hsame; right; exact Hin).
    destruct (IH Hsame' (set k (JStr t) acc)) as [IH1 IH2].
    destruct (in_dec string_dec name (map fst l)) as [Hin|Hnin].
    + split; [intros _; exact (IH1 Hin)|].
      intros Hn. exfalso. apply Hn. right. exact Hin.
    + split.
      * intros [Hk|Hin]; [|contradiction]. cbn [fst] in Hk. subst k.
        assert (Ht : t = data) by (apply (Hsame (name, t)); [left|]; reflexivity).
        subst t. rewrite (IH2 Hnin). apply get_set_same.
      * intros Hn. rewrite (IH2 Hnin). apply get_set_other.
        destruct (name =? k) eqn:E; [|reflexivity].
        apply String.eqb_eq in E. subst k. exfalso. apply Hn. left. reflexivity.
Qed.

(** X28.  When [_loadDataFiles] succeeds, every name that the data
    provider lists is a key of the result, bound to what the provider
    fetches for that name; a name that is not listed is no key of the
    result. *)
Theorem data_files_are_the_listed_ones (p : Provider) (names : list string)
    (dataFiles : obj) :
  list_ p = Ok names ->
  _loadDataFiles (Some p) = Ok dataFiles ->
  (forall name, In name names -> ownName name = true ->
     exists data, fetch p name = Ok data /\ get name dataFiles = JStr data)
  /\ (forall name, ~ In name names -> get name dataFiles = JUndef).
Proof.
  intros Hl H. unfold _loadDataFiles in H. rewrite Hl in H. cbn [bind] in H.
  destruct (fetchAll p names) as [files|e] eqn:Ef; cbn [bind] in H;
    [|discriminate].
  destruct (fetchAll_spec _ _ _ Ef) as [Hm Hf].
  injection H as H. subst dataFiles. split.
  - intros name Hin _.
    assert (Hex : exists data, fetch p name = Ok data).
    { rewrite <- Hm in Hin. apply in_map_iff in Hin.
      destruct Hin as [kv [Hk Hin]]. exists (snd kv). rewrite <- Hk.
      exact (Hf kv Hin). }
    destruct Hex as [data Hd]. exists data. split; [exact Hd|].
    assert (Hsame : forall kv, In kv files -> fst kv = name -> snd kv = data).
    { intros kv Hkv Hk. pose proof (Hf kv Hkv) as Hfk. rewrite Hk, Hd in Hfk.
      injection Hfk as Hfk. symmetry. exact Hfk. }
    destruct (storeInto_spec name data files Hsame []) as [H1 _].
    apply H1. rewrite Hm. exact Hin.
  - intros name Hn.
    destruct (storeInto_spec name EmptyString files) with (acc := @nil (string * json))
      as [_ H2].
    + intros kv Hkv Hk. exfalso. apply Hn. rewrite <- Hm, <- Hk.
      apply in_map. exact Hkv.
    + rewrite Hm in H2. exact (H2 Hn).
Qed.

Definition twoFiles : Provider :=
  mkProvider (Ok ["cert"; "key"])
    (fun name => if name =? "cert" then Ok "PEM"
                 else if name =? "key" then Ok "RSA"
                 else Throw (External "no such file")).

Lemma data_files_witness :
  (forall name, In name ["cert"; "key"] -> ownName name = true ->
     exists data,
       fetch twoFiles name = Ok data
       /\ get name [("cert", JStr "PEM"); ("key", JStr "RSA")] = JStr data)
  /\ (forall name, ~ In name ["cert"; "key"] ->
        get name [("cert", JStr "PEM"); ("key", JStr "RSA")] = JUndef).
Proof.
  apply (data_files_are_the_listed_ones twoFiles); reflexivity.
Defined.

(** A provider of two schemas and a parser that knows their texts. *)
Definition twoSchemas : Provider :=
  mkProvider (Ok ["f5"; "net"])
    (fun name => if name =? "f5" then Ok "{F5}"
                 else if name =? "net" then Ok "{NET}"
                 else Throw (External "no such schema")).

Definition parseSchemaToy (text : string) : result json :=
  Ok (JObj [("definitions", JObj [(text, JObj [])])]).

Lemma type_schemas_witness :
  (forall name, In name ["f5"; "net"] -> ownName name = true ->
     exists text schema,
       fetch twoSchemas name = Ok text /\ parseSchemaToy text = Ok schema
       /\ get name
            [("f5", JObj [("definitions", JObj [("{F5}", JObj [])])]);
             ("net", JObj [("definitions", JObj [("{NET}", JObj [])])])]
          = schema)
  /\ (forall name, ~ In name ["f5"; "net"] ->
        get name
          [("f5", JObj [("definitions", JObj [("{F5}", JObj [])])]);
           ("net", JObj [("definitions", JObj [("{NET}", JObj [])])])]
        = JUndef).
Proof.
  apply (type_schemas_are_the_listed_ones parseSchemaToy twoSchemas); reflexivity.
Defined.

End LoadingProperties.

(* ================================================================== *)
(** * HTTP request options and the exported schema *)
(* ================================================================== *)

Module HttpProperties.
Import Schema Http ObjFacts RequiredFacts.

(** The members that [nodeHttpToAxios] deletes. *)
Definition nodeOnly : list string :=
  ["host"; "path"; "port"; "protocol"; "hostname"; "pathname"].

Section Axios.

Variable url_format : json -> json.

(** [configObj] after the first [if] of [nodeHttpToAxios]. *)
Definition rewritten (configObj : obj) : obj :=
  if truthy (get "host" configObj) || truthy (get "path" configObj) then
    let c1 :=
      set "protocol" (js_or (get "protocol" configObj) (JStr "http"))
        configObj in
    let c2 := set "pathname" (js_or (get "pathname" c1) (get "path" c1)) c1 in
    let c3 := set "url" (url_format (JObj c2)) c2 in
    delete "pathname"
      (delete "hostname"
         (delete "protocol"
            (delete "port" (delete "path" (delete "host" c3)))))
  else configObj.

Lemma nodeHttpToAxios_eq (configObj : obj) :
  nodeHttpToAxios url_format configObj
  = match get "auth" (rewritten configObj) with
    | JStr auth =>
        if truthy (JStr auth) then
          set "auth"
            (JObj [("username", part (split_on ":" auth) 0);
                   ("password", part (split_on ":" auth) 1)])
            (rewritten configObj)
        else rewritten configObj
    | _ => rewritten configObj
    end.
Proof. reflexivity. Qed.

Lemma rewritten_other (configObj : obj) (k : string) :
  str_in k ("url" :: nodeOnly) = false ->
  get k (rewritten configObj) = get k configObj.
Proof.
  intros Hk. unfold str_in, nodeOnly in Hk. cbn [existsb] in Hk.
  repeat (apply orb_false_iff in Hk; destruct Hk as [? Hk]).
  unfold rewritten.
  destruct (truthy (get "host" configObj) || truthy (get "path" configObj));
    [|reflexivity].
  cbv zeta. rewrite !get_delete_other by assumption.
  rewrite !get_set_other by assumption. reflexivity.
Qed.

Lemma rewritten_removed (configObj : obj) (k : string) :
  truthy (get "host" configObj) || truthy (get "path" configObj) = true ->
  str_in k nodeOnly = true ->
  get k (rewritten configObj) = JUndef.
Proof.
  intros Hc Hk. unfold rewritten. rewrite Hc. cbv zeta.
  unfold str_in, nodeOnly in Hk. cbn [existsb] in Hk.
  repeat (apply orb_true_iff in Hk; destruct Hk as [Hk|Hk];
          [apply String.eqb_eq in Hk; subst k;
           rewrite ?get_delete_other by reflexivity; apply get_delete_same|]).
  discriminate.
Qed.

Lemma get_auth_other (o : obj) (k : string) :
  (k =? "auth") = false ->
  get k (match get "auth" o with
         | JStr auth =>
             if truthy (JStr auth) then
               set "auth"
                 (JObj [("username", part (split_on ":" auth) 0);
                        ("password", part (split_on ":" auth) 1)])
                 o
             else o
         | _ => o
         end) = get k o.
Proof.
  intros Hk. destruct (get "auth" o); try reflexivity.
  destruct (truthy (JStr s)); [|reflexivity].
  apply get_set_other. exact Hk.
Qed.

(** X20.  When the options name a host or a path, [nodeHttpToAxios] leaves
    none of the members host, path, port, protocol, hostname and pathname
    behind; when they name neither, it removes and adds nothing.  In both
    cases every member other than those six, [url] and [auth] is left as
    it was. *)
Theorem node_options_are_replaced (configObj : obj) :
  (truthy (get "host" configObj) || truthy (get "path" configObj) = true ->
   forall k, str_in k nodeOnly = true ->
             get k (nodeHttpToAxios url_format configObj) = JUndef)
  /\ (truthy (get "host" configObj) || truthy (get "path" configObj) = false ->
      forall k, (k =? "auth") = false ->
                get k (nodeHttpToAxios url_format configObj) = get k configObj)
  /\ (forall k, str_in k ("auth" :: "url" :: nodeOnly) = false ->
                get k (nodeHttpToAxios url_format configObj) = get k configObj).
Proof.
  split; [|split].
  - intros Hc k Hk. rewrite nodeHttpToAxios_eq.
    rewrite get_auth_other.
    + exact (rewritten_removed _ _ Hc Hk).
    + unfold str_in, nodeOnly in Hk. cbn [existsb] in Hk.
      repeat (apply orb_true_iff in Hk; destruct Hk as [Hk|Hk];
              [apply String.eqb_eq in Hk; subst k; reflexivity|]).
      discriminate.
  - intros Hc k Hk. rewrite nodeHttpToAxios_eq, (get_auth_other _ _ Hk).
    unfold rewritten. rewrite Hc. reflexivity.
  - intros k Hk. unfold str_in in Hk. cbn [existsb] in Hk.
    apply orb_false_iff in Hk. destruct Hk as [Ha Hk].
    rewrite nodeHttpToAxios_eq, (get_auth_other _ _ Ha).
    apply rewritten_other. exact Hk.
Qed.

(** X21.  A string [auth] of the form [user:password] is replaced by the
    object of the two parts; anything after a second colon is dropped. *)
Theorem auth_is_split (configObj : obj) (user password tail : string) :
  get "auth" configObj = JStr (user ++ ":" ++ password ++ tail) ->
  contains ":" user = false ->
  contains ":" password = false ->
  (tail =? EmptyString) || starts_with ":" tail = true ->
  get "auth" (nodeHttpToAxios url_format configObj)
  = JObj [("username", JStr user); ("password", JStr password)].
Proof.
  intros Ha Hu Hp Ht. rewrite nodeHttpToAxios_eq.
  rewrite (rewritten_other configObj "auth" eq_refl), Ha.
  assert (Hne : truthy (JStr (user ++ ":" ++ password ++ tail)) = true)
    by (destruct user; reflexivity).
  rewrite Hne, get_set_same.
  change (user ++ ":" ++ password ++ tail)
    with (user ++ String ":" (password ++ tail)).
  rewrite (TagNames.split_colon _ _ Hu).
  assert (Hs : exists rest, split_on ":" (password ++ tail) = password :: rest).
  { destruct tail as [|c tail].
    - exists []. rewrite (TagNames.split_plain (password ++ EmptyString)).
      + f_equal. clear. induction password; simpl; [|rewrite IHpassword];
          reflexivity.
      + replace (password ++ EmptyString) with password; [exact Hp|].
        clear. induction password; simpl; [|rewrite <- IHpassword];
          reflexivity.
    - cbn [String.eqb orb starts_with] in Ht.
      apply andb_true_iff in Ht. destruct Ht as [Hc _].
      apply Ascii.eqb_eq in Hc. subst c.
      rewrite (TagNames.split_colon _ _ Hp). eexists. reflexivity. }
  destruct Hs as [rest Hs]. rewrite Hs. reflexivity.
Qed.

End Axios.

Definition nodeOptions : obj :=
  [("host", JStr "h"); ("port", JNum 8080); ("timeout", JNum 5)].

Lemma node_options_witness :
  (truthy (get "host" nodeOptions) || truthy (get "path" nodeOptions) = true ->
   forall k, str_in k nodeOnly = true ->
             get k (nodeHttpToAxios (fun _ => JStr "http://h:8080") nodeOptions)
             = JUndef)
  /\ (truthy (get "host" nodeOptions) || truthy (get "path" nodeOptions) = false ->
      forall k, (k =? "auth") = false ->
                get k (nodeHttpToAxios (fun _ => JStr "http://h:8080") nodeOptions)
                = get k nodeOptions)
  /\ (forall k, str_in k ("auth" :: "url" :: nodeOnly) = false ->
                get k (nodeHttpToAxios (fun _ => JStr "http://h:8080") nodeOptions)
                = get k nodeOptions).
Proof.
  apply (node_options_are_replaced (fun _ => JStr "http://h:8080") nodeOptions).
Defined.

Lemma auth_is_split_witness :
  get "auth"
    (nodeHttpToAxios (fun _ => JStr "http://h/p")
       [("host", JStr "h"); ("path", JStr "/p");
        ("auth", JStr ("admin" ++ ":" ++ "s3cret" ++ ":more"))])
  = JObj [("username", JStr "admin"); ("password", JStr "s3cret")].
Proof.
  apply (auth_is_split _ _ "admin" "s3cret" ":more"); reflexivity.
Defined.

End HttpProperties.

Module ExportedSchema.
Import Schema Compile ObjFacts OwnNames.

Lemma lookup_absent (k : string) (o : obj) :
  existsb (String.eqb k) (map fst o) = false -> lookup k o = None.
Proof.
  induction o as [|[k0 v0] o IH]; simpl; [reflexivity|].
  intros H. apply orb_false_iff in H. destruct H as [Hk Ho].
  rewrite Hk. exact (IH Ho).
Qed.

(** [Object.assign] on an object without repeated keys. *)
Lemma lookup_assign_unique (k : string) (src : obj) :
  uniqueKeys src = true ->
  forall dst,
    lookup k (assign dst src)
    = match lookup k src with
      | Some v => Some v
      | None => lookup k dst
      end.
Proof.
  unfold assign. induction src as [|[k0 v0] src IH]; intros Hu dst;
    [reflexivity|].
  cbn [uniqueKeys] in Hu. apply andb_true_iff in Hu. destruct Hu as [Hk Hu].
  apply negb_true_iff in Hk. cbn [fold_left fst snd lookup].
  rewrite (IH Hu), lookup_set.
  destruct (k =? k0) eqn:E; [|reflexivity].
  apply String.eqb_eq in E. subst k0. rewrite (lookup_absent _ _ Hk).
  reflexivity.
Qed.

(** The object that [getParametersSchema] starts from. *)
Definition exported (this : Template) : obj :=
  assign_all []
    [_parametersSchema this;
     JObj [("title", title this);
           ("description", description this);
           ("definitions", JObj (definitions this))]].

Definition withSubSchemas (name : string) (subs : list Template)
    (schema : obj) : obj :=
  if (0 <? List.length subs)%nat
  then set name (JArr (map getParametersSchema subs)) schema
  else schema.

Lemma getParametersSchema_eq (this : Template) :
  getParametersSchema this
  = JObj (withSubSchemas "anyOf" (_anyOf this)
            (withSubSchemas "allOf" (_allOf this)
               (withSubSchemas "oneOf" (_oneOf this) (exported this)))).
Proof. destruct this. reflexivity. Qed.

Lemma lookup_withSubSchemas (k name : string) (subs : list Template)
    (schema : obj) :
  lookup k (withSubSchemas name subs schema)
  = if (k =? name) && (0 <? List.length subs)%nat
    then Some (JArr (map getParametersSchema subs))
    else lookup k schema.
Proof.
  unfold withSubSchemas. destruct (0 <? List.length subs)%nat.
  - rewrite lookup_set. destruct (k =? name); reflexivity.
  - rewrite andb_false_r. reflexivity.
Qed.

Lemma lookup_exported (this : Template) (k : string) :
  uniqueKeys (entries_of (_parametersSchema this)) = true ->
  lookup k (exported this)
  = if k =? "title" then Some (title this)
    else if k =? "description" then Some (description this)
    else if k =? "definitions" then Some (JObj (definitions this))
    else lookup k (entries_of (_parametersSchema this)).
Proof.
  intros Hu.
  change (exported this)
    with (assign (assign [] (entries_of (_parametersSchema this)))
            [("title", title this); ("description", description this);
             ("definitions", JObj (definitions this))]).
  rewrite (lookup_assign_unique k
             [("title", title this); ("description", description this);
              ("definitions", JObj (definitions this))] eq_refl).
  cbn [lookup].
  destruct (k =? "title"); [reflexivity|].
  destruct (k =? "description"); [reflexivity|].
  destruct (k =? "definitions"); [reflexivity|].
  rewrite (lookup_assign_unique k _ Hu). cbn [lookup].
  destruct (lookup k (entries_of (_parametersSchema this))); reflexivity.
Qed.

(** X22.  The schema that [getParametersSchema] exports carries the title,
    the description and the definitions of the template itself, whatever
    the inferred schema holds under those keys; [oneOf], [allOf] and
    [anyOf] are the exported schemas of the merged-in templates when there
    are any, and every other member is that of the inferred schema. *)
Theorem exported_schema_members (this : Template) :
  uniqueKeys (entries_of (_parametersSchema this)) = true ->
  let schema := getParametersSchema this in
  getv "title" schema = title this
  /\ getv "description" schema = description this
  /\ getv "definitions" schema = JObj (definitions this)
  /\ (_oneOf this <> [] ->
      getv "oneOf" schema = JArr (map getParametersSchema (_oneOf this)))
  /\ (_allOf this <> [] ->
      getv "allOf" schema = JArr (map getParametersSchema (_allOf this)))
  /\ (_anyOf this <> [] ->
      getv "anyOf" schema = JArr (map getParametersSchema (_anyOf this)))
  /\ (forall k,
        ownName k = true ->
        str_in k ["title"; "description"; "definitions";
                  "oneOf"; "allOf"; "anyOf"] = false ->
        getv k schema = getv k (_parametersSchema this)).
Proof.
  intros Hu schema.
  assert (Hl : forall k,
             lookup k (entries_of schema)
             = if (k =? "anyOf") && (0 <? List.length (_anyOf this))%nat
               then Some (JArr (map getParametersSchema (_anyOf this)))
               else if (k =? "allOf") && (0 <? List.length (_allOf this))%nat
               then Some (JArr (map getParametersSchema (_allOf this)))
               else if (k =? "oneOf") && (0 <? List.length (_oneOf this))%nat
               then Some (JArr (map getParametersSchema (_oneOf this)))
               else if k =? "title" then Some (title this)
               else if k =? "description" then Some (description this)
               else if k =? "definitions" then Some (JObj (definitions this))
               else lookup k (entries_of (_parametersSchema this))).
  { intros k. unfold schema. rewrite getParametersSchema_eq.
    cbn [entries_of]. rewrite !lookup_withSubSchemas, (lookup_exported _ _ Hu).
    reflexivity. }
  assert (Hn : forall subs : list Template,
             subs <> [] -> (0 <? List.length subs)%nat = true)
    by (intros [|x subs] H; [congruence | reflexivity]).
  unfold getv, get. rewrite !Hl. cbn [String.eqb Ascii.eqb Bool.eqb andb].
  repeat split; try reflexivity.
  - intros H. rewrite (Hn _ H). reflexivity.
  - intros H. rewrite (Hn _ H).
    destruct (0 <? List.length (_anyOf this))%nat; reflexivity.
  - intros H. rewrite (Hn _ H). reflexivity.
  - intros k _ Hk. rewrite Hl. unfold str_in in Hk. cbn [existsb] in Hk.
    repeat (apply orb_false_iff in Hk; destruct Hk as [? Hk]).
    repeat match goal with E : (k =? _) = false |- _ => rewrite E; clear E end.
    reflexivity.
Qed.

Definition staleSchema : Template :=
  set_description (JStr "from the template")
    (set_parametersSchema
       (JObj [("type", JStr "object");
              ("description", JStr "from the inference")])
       newTemplate).

Lemma exported_schema_witness :
  let schema := getParametersSchema staleSchema in
  getv "title" schema = title staleSchema
  /\ getv "description" schema = description staleSchema
  /\ getv "definitions" schema = JObj (definitions staleSchema)
  /\ (_oneOf staleSchema <> [] ->
      getv "oneOf" schema = JArr (map getParametersSchema (_oneOf staleSchema)))
  /\ (_allOf staleSchema <> [] ->
      getv "allOf" schema = JArr (map getParametersSchema (_allOf staleSchema)))
  /\ (_anyOf staleSchema <> [] ->
      getv "anyOf" schema = JArr (map getParametersSchema (_anyOf staleSchema)))
  /\ (forall k,
        ownName k = true ->
        str_in k ["title"; "description"; "definitions";
                  "oneOf"; "allOf"; "anyOf"] = false ->
        getv k schema = getv k (_parametersSchema staleSchema)).
Proof.
  apply exported_schema_members. reflexivity.
Defined.

End ExportedSchema.

(* ================================================================== *)
(** * What the inference leaves alone *)
(* ================================================================== *)

Module FrameProperties.
Import Schema Compile SourceFacts.

Section Frame.

(** Any view of a template that does not depend on [definitions] and
    [_typeDefinitions]. *)
Variable X : Type.
Variable view : Template -> X.
Hypothesis view_definitions :
  forall v t, view (set_definitions v t) = view t.
Hypothesis view_typeDefinitions :
  forall v t, view (set_typeDefinitions v t) = view t.

Definition keeps {A : Type} (this : Template) (c : result (Template * A))
  : Prop :=
  forall this' a, c = Ok (this', a) -> view this' = view this.

Ltac same_view :=
  let H := fresh "H" in
  intros H; inversion H; subst;
  rewrite ?view_typeDefinitions, ?view_definitions; reflexivity.

Variables typeSchemas dataFiles : obj.
Variables toBase64 fromBase64 : string -> string.

Lemma resolveTypeSchema_keeps (mstType mstName : string)
    (schemaName type : json) (this this' : Template) :
  resolveTypeSchema typeSchemas mstType mstName schemaName type this
  = Ok this' ->
  view this' = view this.
Proof.
  unfold resolveTypeSchema.
  destruct (str_in mstType _); [|same_view].
  destruct (truthy schemaName && _); [discriminate|].
  destruct (truthy schemaName); [|same_view].
  destruct (member _ "definitions") as [defs|e]; simpl; [|discriminate].
  destruct (member defs _) as [schemaDef|e]; simpl; [|discriminate].
  destruct (negb (truthy schemaDef)); [discriminate|].
  same_view.
Qed.

Lemma handleName_keeps (defName : string) (schemaName type : json)
    (this : Template) (acc : Acc) :
  keeps this
    (handleName typeSchemas dataFiles toBase64 fromBase64 defName schemaName
       type (this, acc)).
Proof.
  intros this' acc'. unfold handleName.
  destruct (negb (truthy schemaName) && _); [discriminate|].
  destruct (variableProperty _ _ _ _ _) as [propDef0|e]; simpl;
    [|discriminate].
  match goal with
  | |- context [bind ?c _] => destruct c as [[[pd props] req]|e]
  end; simpl; [|discriminate].
  destruct (resolveDataFile _ _ _ pd) as [pd3|e]; simpl; [|discriminate].
  same_view.
Qed.

Lemma handlePartial_keeps (defName : string) (this : Template) (acc : Acc) :
  keeps this (handlePartial defName (this, acc)).
Proof.
  intros this' acc'. unfold handlePartial.
  destruct (negb (truthy _)); [discriminate|].
  destruct (_mergeSchemaInto _ _ _) as [[[props partial'] deps]|e]; simpl;
    [|discriminate].
  match goal with
  | |- context [bind ?c _] => destruct c as [names|e]
  end; simpl; [|discriminate].
  same_view.
Qed.

Lemma handleSection_keeps (defName : string) (type items : json)
    (this : Template) (acc : Acc) :
  keeps this (handleSection defName type items (this, acc)).
Proof.
  intros this' acc'. unfold handleSection.
  repeat match goal with
         | |- context [bind ?c _] =>
             destruct c as [?|?]; simpl; [|discriminate]
         | |- context [let '(_, _) := ?p in _] => destruct p
         end.
  same_view.
Qed.

Lemma handleInverted_keeps (defName : string) (type items : json)
    (this : Template) (acc : Acc) :
  keeps this (handleInverted defName type items (this, acc)).
Proof.
  intros this' acc'. unfold handleInverted.
  repeat match goal with
         | |- context [bind ?c _] =>
             destruct c as [?|?]; simpl; [|discriminate]
         | |- context [let '(_, _) := ?p in _] => destruct p
         end.
  intros H. inversion H. subst.
  destruct (truthy (get (js_toString type) (_typeDefinitions this)));
    rewrite ?view_typeDefinitions; reflexivity.
Qed.

Lemma handleCase_keeps (mstType mstName : string)
    (inferChildren : Template -> result (json * Template))
    (this : Template) (acc : Acc) :
  (forall t t' schema,
      inferChildren t = Ok (schema, t') -> view t' = view t) ->
  keeps this
    (handleCase typeSchemas dataFiles toBase64 fromBase64 mstType mstName
       inferChildren (this, acc)).
Proof.
  intros Hchildren this' acc'. unfold handleCase. simpl.
  destruct (resolveTypeSchema _ _ _ _ _ this) as [this1|e] eqn:E1; simpl;
    [|discriminate].
  apply resolveTypeSchema_keeps in E1.
  destruct (mstType =? "name").
  { intros H. apply handleName_keeps in H. congruence. }
  destruct (mstType =? ">").
  { intros H. apply handlePartial_keeps in H. congruence. }
  destruct (mstType =? "#").
  { destruct (inferChildren this1) as [[items this2]|e] eqn:E2; simpl;
      [|discriminate].
    apply Hchildren in E2.
    intros H. apply handleSection_keeps in H. congruence. }
  destruct (mstType =? "^").
  { destruct (inferChildren this1) as [[items this2]|e] eqn:E2; simpl;
      [|discriminate].
    apply Hchildren in E2.
    intros H. apply handleInverted_keeps in H. congruence. }
  intros H. inversion H. subst. exact E1.
Qed.

Lemma reduceTokens_keeps (parsed : list token) :
  Forall (fun tok => forall this acc,
              keeps this
                (handleToken typeSchemas dataFiles toBase64 fromBase64 tok
                   (this, acc))) parsed ->
  forall this acc,
    keeps this
      (reduceTokens typeSchemas dataFiles toBase64 fromBase64 parsed
         (this, acc)).
Proof.
  induction 1 as [|tok parsed Htok _ IH]; intros this acc this' acc'; simpl.
  - intros H. inversion H. reflexivity.
  - destruct (handleToken _ _ _ _ tok (this, acc)) as [[this1 acc1]|e] eqn:E;
      simpl; [|discriminate].
    apply Htok in E. intros H. apply IH in H. congruence.
Qed.

Lemma handleParsed_of_reduce_keeps (parsed : list token) :
  (forall this acc,
      keeps this
        (reduceTokens typeSchemas dataFiles toBase64 fromBase64 parsed
           (this, acc))) ->
  forall t t' schema,
    _handleParsed typeSchemas dataFiles toBase64 fromBase64 parsed t
    = Ok (schema, t') ->
    view t' = view t.
Proof.
  intros Hr t t' schema. unfold _handleParsed.
  destruct (reduceTokens _ _ _ _ parsed (t, initialAcc)) as [[t1 acc1]|e]
    eqn:E; simpl; [|discriminate].
  apply Hr in E.
  destruct (finishParsed t1 acc1); simpl; [|discriminate].
  intros H. inversion H. subst. exact E.
Qed.

Lemma handleToken_keeps (tok : token) :
  forall this acc,
    keeps this
      (handleToken typeSchemas dataFiles toBase64 fromBase64 tok (this, acc)).
Proof.
  induction tok as [ty nm ch IH] using token_induction.
  intros this acc.
  change (handleToken typeSchemas dataFiles toBase64 fromBase64
            (Token ty nm ch) (this, acc))
    with (handleCase typeSchemas dataFiles toBase64 fromBase64 ty nm
            (_handleParsed typeSchemas dataFiles toBase64 fromBase64 ch)
            (this, acc)).
  apply handleCase_keeps.
  apply handleParsed_of_reduce_keeps. apply reduceTokens_keeps. exact IH.
Qed.

Lemma handleParsed_keeps (parsed : list token) (t t' : Template)
    (schema : json) :
  _handleParsed typeSchemas dataFiles toBase64 fromBase64 parsed t
  = Ok (schema, t') ->
  view t' = view t.
Proof.
  apply handleParsed_of_reduce_keeps. apply reduceTokens_keeps.
  apply Forall_forall. intros tok _. apply handleToken_keeps.
Qed.

End Frame.

(** A template with its [definitions] and [_typeDefinitions] emptied. *)
Definition withoutDefinitions (t : Template) : Template :=
  set_typeDefinitions [] (set_definitions [] t).


(** A type schema with one definition, and the template after a tag that
    refers to it. *)
Definition portSchemas : obj :=
  [("f5", JObj [("definitions",
                 JObj [("port", JObj [("type", JStr "integer")])])])].

Definition afterPort : Template :=
  set_typeDefinitions [("port", JObj [("type", JStr "integer")])]
    (set_definitions [("port", JObj [("type", JStr "integer")])] newTemplate).


End FrameProperties.

(* ================================================================== *)
(** * Parameters as passed to the engine, and referenced definitions *)
(* ================================================================== *)

Module TransformProperties.
Import Schema Compile Render ObjFacts OwnNames.

Lemma unique_not_before (k : string) (v : json) (acc l : obj) :
  uniqueKeys (acc ++ (k, v) :: l)%list = true ->
  existsb (String.eqb k) (map fst acc) = false.
Proof.
  induction acc as [|[k0 v0] acc IH]; intros H; [reflexivity|].
  cbn [app uniqueKeys] in H. apply andb_true_iff in H. destruct H as [Hk Hu].
  apply negb_true_iff in Hk. rewrite map_app, existsb_app in Hk.
  apply orb_false_iff in Hk. destruct Hk as [_ Hk].
  cbn [map fst existsb] in Hk. apply orb_false_iff in Hk.
  destruct Hk as [Hk _]. cbn [map fst existsb].
  rewrite String.eqb_sym, Hk. exact (IH Hu).
Qed.

Lemma set_absent (k : string) (v : json) (o : obj) :
  existsb (String.eqb k) (map fst o) = false ->
  set k v o = (o ++ [(k, v)])%list.
Proof.
  induction o as [|[k0 v0] o IH]; intros H; [reflexivity|].
  cbn [map fst existsb] in H. apply orb_false_iff in H. destruct H as [Hk Ho].
  cbn [set app]. rewrite Hk, (IH Ho). reflexivity.
Qed.

Lemma unique_lookup (k : string) (v : json) (o : obj) :
  uniqueKeys o = true -> In (k, v) o -> lookup k o = Some v.
Proof.
  induction o as [|[k0 v0] o IH]; intros Hu Hin; [destruct Hin|].
  cbn [uniqueKeys] in Hu. apply andb_true_iff in Hu. destruct Hu as [Hk Hu].
  apply negb_true_iff in Hk. cbn [lookup]. destruct Hin as [Heq|Hin].
  - injection Heq as -> ->. rewrite String.eqb_refl. reflexivity.
  - destruct (k =? k0) eqn:E; [|exact (IH Hu Hin)].
    apply String.eqb_eq in E. subst k0.
    rewrite (ExportedSchema.lookup_absent _ _ Hk) in IH.
    specialize (IH Hu Hin). discriminate.
Qed.

(** Copying an object member by member, in the order of its keys, gives
    the object back. *)
Lemma rebuilt (o : obj) (l : obj) :
  forall acc,
    uniqueKeys (acc ++ l)%list = true ->
    (forall k v, In (k, v) l -> get k o = v) ->
    fold_left (fun acc k => set k (get k o) acc) (keys l) acc
    = (acc ++ l)%list.
Proof.
  induction l as [|[k v] l IH]; intros acc Hu Hv.
  - rewrite app_nil_r. reflexivity.
  - cbn [keys map fst fold_left].
    rewrite (Hv k v (or_introl eq_refl)).
    rewrite (set_absent _ _ _ (unique_not_before _ _ _ _ Hu)).
    change (map fst l) with (keys l). rewrite IH.
    + rewrite <- app_assoc. reflexivity.
    + rewrite <- app_assoc. exact Hu.
    + intros k' v' Hin. apply Hv. right. exact Hin.
Qed.

Lemma fold_left_same {A B : Type} (f g : A -> B -> A) (l : list B) :
  (forall a b, f a b = g a b) ->
  forall a, fold_left f l a = fold_left g l a.
Proof.
  intros H. induction l as [|b l IH]; intros a; [reflexivity|].
  cbn [fold_left]. rewrite H. apply IH.
Qed.

Section Transform.

Variable JSON_stringify : json -> string.

Lemma transformParameters_plain (this : Template) (params : obj) :
  (contentType this =? "application/json") = false ->
  uniqueKeys params = true ->
  transformParameters JSON_stringify this (JObj params) = JObj params.
Proof.
  intros Hct Hu. unfold transformParameters, transformStrategies.
  rewrite Hct. cbv zeta. f_equal.
  cbn [entries_of].
  rewrite (fold_left_same _ (fun acc k => set k (get k params) acc)).
  - exact (rebuilt params params [] Hu
             (fun k v Hin => CombinedParameters.lookup_get _ _ _
                               (unique_lookup _ _ _ Hu Hin))).
  - intros acc curr. unfold PlainTextTransformStrategy.
    destruct (truthy _); reflexivity.
Qed.

(** X24.  For every content type but [application/json] the parameters
    reach the template engine as they are: the object that
    [transformParameters] returns has the members of its argument, each
    with the value it had, and no other. *)
Theorem parameters_are_untouched_outside_json (this : Template) (params : obj) :
  ownName (contentType this) = true ->
  (contentType this =? "application/json") = false ->
  uniqueKeys params = true ->
  forallb ownName (keys params) = true ->
  forall k,
    getv k (transformParameters JSON_stringify this (JObj params))
    = get k params.
Proof.
  intros _ Hct Hu _ k. rewrite (transformParameters_plain _ _ Hct Hu).
  reflexivity.
Qed.

End Transform.

Lemma parameters_are_untouched_witness :
  getv "members"
    (transformParameters (fun _ => "not used") CombinedParameters.portTemplate
       (JObj [("port", JNum 8443); ("members", JArr [JStr "a"])]))
  = get "members" [("port", JNum 8443); ("members", JArr [JStr "a"])].
Proof.
  apply (parameters_are_untouched_outside_json (fun _ => "not used")
           CombinedParameters.portTemplate
           [("port", JNum 8443); ("members", JArr [JStr "a"])]);
    reflexivity.
Defined.

(** ** [getRefDefs] *)

Lemma concatResults_in (l : list (result (list string))) :
  forall all,
    concatResults l = Ok all ->
    forall r, In r l -> exists xs, r = Ok xs /\ incl xs all.
Proof.
  induction l as [|r0 l IH]; intros all H r Hin; [destruct Hin|].
  cbn [concatResults] in H.
  destruct r0 as [xs0|e]; cbn [bind] in H; [|discriminate].
  destruct (concatResults l) as [ys|e]; cbn [bind] in H; [|discriminate].
  injection H as H. subst all. destruct Hin as [<-|Hin].
  - exists xs0. split; [reflexivity | apply incl_appl, incl_refl].
  - destruct (IH _ eq_refl r Hin) as [xs [Hr Hi]]. exists xs.
    split; [exact Hr | apply incl_appr; exact Hi].
Qed.

Lemma cleanRef_definition (name : string) :
  cleanRef (JStr ("#/definitions/" ++ name)) = Ok name.
Proof. reflexivity. Qed.

(** X25.  [getRefDefs] reports the definition that the schema itself
    refers to and the definition that any of its properties refers to. *)
Theorem referenced_definitions_are_reported (schema : json)
    (refs : list string) (name : string) :
  getRefDefs schema = Ok refs ->
  (getv "$ref" schema = JStr ("#/definitions/" ++ name) -> In name refs)
  /\ (forall p prop,
        lookup p (entries_of (getv "properties" schema)) = Some prop ->
        getv "$ref" prop = JStr ("#/definitions/" ++ name) ->
        In name refs).
Proof.
  unfold getRefDefs. cbn [getRefDefsWithin]. intros H.
  unfold member at 1 in H.
  destruct (is_nullish schema); cbn [bind] in H; [discriminate|].
  match type of H with
  | bind ?c _ = _ => destruct c as [own|e] eqn:Eo
  end; cbn [bind] in H; [|discriminate].
  match type of H with
  | bind ?c _ = _ => destruct c as [ofProps|e] eqn:Ep
  end; cbn [bind] in H; [|discriminate].
  match type of H with
  | bind ?c _ = _ => destruct c as [ofSubs|e] eqn:Es
  end; cbn [bind] in H; [|discriminate].
  injection H as H. subst refs. split.
  - intros Hr. rewrite Hr in Eo.
    change (truthy (JStr ("#/definitions/" ++ name))) with true in Eo.
    cbn iota in Eo. rewrite cleanRef_definition in Eo. cbn [bind] in Eo.
    injection Eo as Eo. subst own. left. reflexivity.
  - intros p prop Hl Hr.
    apply in_or_app. right. apply in_or_app. left.
    assert (Ht : truthy (getv "properties" schema) = true)
      by exact (CombinedParameters.member_truthy _ _ _ Hl).
    unfold js_or in Ep. rewrite Ht in Ep.
    apply lookup_in in Hl. apply (in_map snd) in Hl. cbn [snd] in Hl.
    pose proof (concatResults_in _ _ Ep) as Hci.
    specialize (Hci _ (in_map _ _ _ Hl)). cbv beta in Hci.
    destruct Hci as [xs [Hx Hi]].
    apply Hi. unfold member at 1 in Hx.
    destruct (is_nullish prop); cbn [bind] in Hx; [discriminate|].
    rewrite Hr in Hx.
    change (truthy (JStr ("#/definitions/" ++ name))) with true in Hx.
    cbn iota in Hx. rewrite cleanRef_definition in Hx. cbn [bind] in Hx.
    match type of Hx with
    | bind ?c _ = _ => destruct c as [b|e]
    end; cbn [bind] in Hx; [|discriminate].
    match type of Hx with
    | bind ?c _ = _ => destruct c as [c0|e]
    end; cbn [bind] in Hx; [|discriminate].
    injection Hx as Hx. subst xs. left. reflexivity.
Qed.

Definition poolSchema : json :=
  JObj [("type", JStr "object");
        ("properties",
         JObj [("members", JObj [("$ref", JStr "#/definitions/pool_members")])])].

Lemma referenced_definitions_witness :
  (getv "$ref" poolSchema = JStr ("#/definitions/" ++ "pool_members") ->
   In "pool_members" ["pool_members"; "pool_members"])
  /\ (forall p prop,
        lookup p (entries_of (getv "properties" poolSchema)) = Some prop ->
        getv "$ref" prop = JStr ("#/definitions/" ++ "pool_members") ->
        In "pool_members" ["pool_members"; "pool_members"]).
Proof.
  apply (referenced_definitions_are_reported poolSchema).
  vm_compute. reflexivity.
Defined.

End TransformProperties.

(* ================================================================== *)
(** * The compiled template *)
(* ================================================================== *)

Module CompiledProperties.
Import Schema Compile ObjFacts.

Section Compiled.

Variable Mustache_parse : string -> result (list token).
Variables toBase64 fromBase64 : string -> string.
Variables typeSchemas dataFiles : obj.

(** X26.  Whatever the template, when [_parametersSchemaFromTemplate]
    succeeds the exported schema has type object, the inferred schema has an
    object of properties (empty when nothing was inferred), and the working
    members [_typeDefinitions] and [_explicitDeps] are gone. *)
Theorem compiled_schema_is_an_object (this out : Template) :
  _parametersSchemaFromTemplate Mustache_parse toBase64 fromBase64
    typeSchemas dataFiles this = Ok out ->
  getv "type" (getParametersSchema out) = JStr "object"
  /\ (exists props, getv "properties" (_parametersSchema out) = JObj props)
  /\ _typeDefinitions out = []
  /\ _explicitDeps out = [].
Proof.
  intros H. split.
  { exact (EmptyFacts.compiled_type_is_object _ _ _ _ _ _ _ H). }
  revert H. unfold _parametersSchemaFromTemplate.
  destruct (prepareDefinitions _ _ _ _ _ _) as [this2|e]; cbn [bind];
    [|discriminate].
  destruct (Mustache_parse (templateText this2)) as [tokens|e]; cbn [bind];
    [|discriminate].
  destruct (handleParsed toBase64 fromBase64 typeSchemas dataFiles tokens this2)
    as [[schema this3]|e]; cbn [bind]; [|discriminate].
  cbv zeta.
  destruct (getRefDefs _) as [refDefs|e]; cbn [bind]; [|discriminate].
  intros H. injection H as H. subst out.
  split; [|split; reflexivity].
  eexists. cbn [_parametersSchema set_definitions set_explicitDeps
                  set_typeDefinitions set_parametersSchema].
  unfold getv. cbn [entries_of]. apply get_set_same.
Qed.


End Compiled.

(** A parser for two texts: a greeting with two comments, and no tag. *)
Definition parseGreeting (text : string) : result (list token) :=
  if text =? "Hi {{!first}}{{name}}{{!second}}"
  then Ok [Token "text" "Hi " []; Token "!" "first" [];
           Token "name" "name" []; Token "!" "second" []]
  else Ok [Token "text" text []].

Definition greeting : Template :=
  set_templateText "Hi {{!first}}{{name}}{{!second}}" newTemplate.

Lemma compiled_schema_witness :
  getv "type"
    (getParametersSchema
       (set_parametersSchema
          (JObj [("type", JStr "object");
                 ("properties", JObj [("name", JObj [("type", JStr "string")])]);
                 ("required", JArr [JStr "name"])])
          greeting))
  = JStr "object"
  /\ (exists props,
        getv "properties"
          (_parametersSchema
             (set_parametersSchema
                (JObj [("type", JStr "object");
                       ("properties",
                        JObj [("name", JObj [("type", JStr "string")])]);
                       ("required", JArr [JStr "name"])])
                greeting))
        = JObj props)
  /\ _typeDefinitions
       (set_parametersSchema
          (JObj [("type", JStr "object");
                 ("properties", JObj [("name", JObj [("type", JStr "string")])]);
                 ("required", JArr [JStr "name"])])
          greeting) = []
  /\ _explicitDeps
       (set_parametersSchema
          (JObj [("type", JStr "object");
                 ("properties", JObj [("name", JObj [("type", JStr "string")])]);
                 ("required", JArr [JStr "name"])])
          greeting) = [].
Proof.
  apply (compiled_schema_is_an_object parseGreeting (fun s => s) (fun s => s)
           [] [] greeting).
  vm_compute. reflexivity.
Defined.


End CompiledProperties.

(* ================================================================== *)
(** * HTML escaping is off *)
(* ================================================================== *)

Module Escaping.
Import Schema Compile Render ObjFacts RenderFacts OwnNames.

(** ** Names

    mustache.js looks a name up with [in], which also finds what objects
    and arrays inherit, and calls the value when it is a function; the
    lookup of the writer above finds own members of data.  The statements
    below are for templates whose tags use none of the inherited names. *)
Definition inheritedNames : list string :=
  (objectPrototypeMembers
     ++ ["length"; "at"; "concat"; "copyWithin"; "entries"; "every"; "fill";
         "filter"; "find"; "findIndex"; "findLast"; "findLastIndex"; "flat";
         "flatMap"; "forEach"; "includes"; "indexOf"; "join"; "keys";
         "lastIndexOf"; "map"; "pop"; "push"; "reduce"; "reduceRight";
         "reverse"; "shift"; "slice"; "some"; "sort"; "splice"; "unshift";
         "values"])%list.

Definition plainName (name : string) : bool :=
  forallb (fun part => negb (str_in part inheritedNames)) (split_on "." name).

Fixpoint plainToken (tok : token) : bool :=
  match tok with
  | Token symbol name children =>
      (str_in symbol ["text"; "!"] || plainName name)
      && forallb plainToken children
  end.

Section Plain.

Variable Mustache_parse : string -> result (list token).

Definition plainText (text : string) : bool :=
  match Mustache_parse text with
  | Ok tokens => forallb plainToken tokens
  | Throw _ => true
  end.

Definition plainPartials (partials : obj) : bool :=
  forallb (fun kv => plainText (js_toString (snd kv))) partials.

(** A template, and the templates merged into it, whose text and partials
    use plain names only. *)
Fixpoint plainTemplate (this : Template) : bool :=
  plainText (_cleanTemplateText (templateText this))
  && plainPartials (_partials this)
  && forallb plainTemplate (_oneOf this)
  && forallb plainTemplate (_allOf this)
  && forallb plainTemplate (_anyOf this).

End Plain.

(** ** Every tag as an unescaped tag *)

(** [{{name}}] as [{{&name}}]. *)
Definition unescapeSymbol (symbol : string) : string :=
  if symbol =? "name" then "&" else symbol.

Fixpoint unescapeToken (tok : token) : token :=
  match tok with
  | Token symbol name children =>
      Token (unescapeSymbol symbol) name (map unescapeToken children)
  end.

(** The parser that reads every escaped tag as an unescaped one. *)
Definition unescaped (Mustache_parse : string -> result (list token))
    (text : string) : result (list token) :=
  tokens <- Mustache_parse text ;;
  Ok (map unescapeToken tokens).

(** [Mustache.render] of mustache.js as it is shipped, with the HTML
    escaping of the package, on the template read that way. *)
Definition Mustache_render_unescaped
    (Mustache_parse : string -> result (list token)) (depth : nat)
    (template : string) (view : json) (partials : obj) : result string :=
  Mustache.render (unescaped Mustache_parse) Mustache.escapeHtml partials depth
    template view.

Section Items.

Variable Mustache_parse : string -> result (list token).
Variable escapeValue : json -> json.
Variable partials : obj.
Variable renderPartialTokens : list token -> list json -> result string.
Variable children : list token.
Variable context : list json.

(** The loop of a section over the items of an array. *)
Fixpoint eachItem (items : list json) : result string :=
  match items with
  | [] => Ok EmptyString
  | item :: rest =>
      a <- Mustache.renderEach Mustache_parse escapeValue partials
             renderPartialTokens children (item :: context) ;;
      b <- eachItem rest ;;
      Ok (a ++ b)
  end.

End Items.

Lemma renderToken_eq (Mustache_parse : string -> result (list token))
    (escapeValue : json -> json) (partials : obj)
    (renderPartialTokens : list token -> list json -> result string)
    (symbol name : string) (children : list token) (context : list json) :
  Mustache.renderToken Mustache_parse escapeValue partials renderPartialTokens
    (Token symbol name children) context
  = (let renderChildren :=
       Mustache.renderEach Mustache_parse escapeValue partials
         renderPartialTokens in
     if symbol =? "#" then
       value <- Mustache.contextLookup name context ;;
       if negb (truthy value) then Ok EmptyString
       else match value with
            | JArr items =>
                eachItem Mustache_parse escapeValue partials
                  renderPartialTokens children context items
            | JObj _ | JStr _ | JNum _ =>
                renderChildren children (value :: context)
            | _ => renderChildren children context
            end
     else if symbol =? "^" then
       value <- Mustache.contextLookup name context ;;
       if negb (truthy value)
          || match value with JArr [] => true | _ => false end
       then renderChildren children context
       else Ok EmptyString
     else if symbol =? ">" then
       let value := get name partials in
       if is_nullish value then Ok EmptyString
       else
         tokens <- Mustache_parse (js_toString value) ;;
         renderPartialTokens tokens context
     else if symbol =? "&" then
       value <- Mustache.contextLookup name context ;;
       Ok (Mustache.unescapedValue value)
     else if symbol =? "name" then
       value <- Mustache.contextLookup name context ;;
       Ok (Mustache.escapedValue escapeValue value)
     else if symbol =? "text" then Ok name
     else Ok EmptyString).
Proof. reflexivity. Qed.

Section Unescaped.

Variable Mustache_parse : string -> result (list token).
Variable partials : obj.

Abbreviation written :=
  (Mustache.renderToken Mustache_parse Mustache.escape partials).
Abbreviation writtenAll :=
  (Mustache.renderEach Mustache_parse Mustache.escape partials).
Abbreviation shipped :=
  (Mustache.renderToken (unescaped Mustache_parse) Mustache.escapeHtml
     partials).
Abbreviation shippedAll :=
  (Mustache.renderEach (unescaped Mustache_parse) Mustache.escapeHtml
     partials).

(** With the identity as escape function, an escaped value is the
    unescaped value. *)
Lemma escapedValue_identity (value : json) :
  Mustache.escapedValue Mustache.escape value = Mustache.unescapedValue value.
Proof. reflexivity. Qed.

Section Tokens.

Variables RP RP' : list token -> list json -> result string.
Hypothesis partials_agree :
  forall tokens context, RP tokens context = RP' (map unescapeToken tokens) context.

Lemma renderEach_unescaped (tokens : list token) :
  Forall (fun tok => forall context,
              written RP tok context = shipped RP' (unescapeToken tok) context)
    tokens ->
  forall context,
    writtenAll RP tokens context
    = shippedAll RP' (map unescapeToken tokens) context.
Proof.
  induction 1 as [|tok tokens Htok _ IH]; intros context; [reflexivity|].
  cbn [map Mustache.renderEach]. rewrite Htok, IH. reflexivity.
Qed.

Lemma eachItem_unescaped (children : list token) (context : list json) :
  (forall context,
      writtenAll RP children context
      = shippedAll RP' (map unescapeToken children) context) ->
  forall items,
    eachItem Mustache_parse Mustache.escape partials RP children context items
    = eachItem (unescaped Mustache_parse) Mustache.escapeHtml partials RP'
        (map unescapeToken children) context items.
Proof.
  intros Hch. induction items as [|item items IH]; [reflexivity|].
  cbn [eachItem]. rewrite Hch, IH. reflexivity.
Qed.

Lemma renderToken_unescaped (tok : token) :
  forall context,
    written RP tok context = shipped RP' (unescapeToken tok) context.
Proof.
  induction tok as [symbol name children IH] using SourceFacts.token_induction.
  intros context.
  pose proof (renderEach_unescaped children IH) as Hch.
  cbn [unescapeToken]. rewrite !renderToken_eq. cbv zeta.
  unfold unescapeSymbol. destruct (symbol =? "name") eqn:En.
  - apply String.eqb_eq in En. subst symbol.
    cbn [String.eqb Ascii.eqb Bool.eqb].
    destruct (Mustache.contextLookup name context); reflexivity.
  - destruct (symbol =? "#").
    { destruct (Mustache.contextLookup name context) as [value|e];
        [|reflexivity].
      cbn [bind]. destruct (negb (truthy value)); [reflexivity|].
      destruct value; try apply Hch.
      apply eachItem_unescaped. exact Hch. }
    destruct (symbol =? "^").
    { destruct (Mustache.contextLookup name context) as [value|e];
        [|reflexivity].
      cbn [bind]. destruct (negb (truthy value) || _); [apply Hch|reflexivity]. }
    destruct (symbol =? ">").
    { destruct (is_nullish (get name partials)); [reflexivity|].
      unfold unescaped.
      destruct (Mustache_parse (js_toString (get name partials)))
        as [tokens|e]; [|reflexivity].
      cbn [bind]. apply partials_agree. }
    rewrite En. reflexivity.
Qed.

End Tokens.

Lemma renderTokens_eq (parse : string -> result (list token))
    (escapeValue : json -> json) (depth : nat) (tokens : list token)
    (context : list json) :
  Mustache.renderTokens parse escapeValue partials depth tokens context
  = Mustache.renderEach parse escapeValue partials
      (match depth with
       | O => fun _ _ => Throw (External "Maximum call stack size exceeded")
       | S depth' => Mustache.renderTokens parse escapeValue partials depth'
       end)
      tokens context.
Proof. destruct depth; reflexivity. Qed.

Lemma renderTokens_unescaped (depth : nat) :
  forall tokens context,
    Mustache.renderTokens Mustache_parse Mustache.escape partials depth tokens
      context
    = Mustache.renderTokens (unescaped Mustache_parse) Mustache.escapeHtml
        partials depth (map unescapeToken tokens) context.
Proof.
  induction depth as [|depth IH]; intros tokens context;
    rewrite !renderTokens_eq; apply renderEach_unescaped;
    apply Forall_forall; intros tok _; apply renderToken_unescaped.
  - reflexivity.
  - exact IH.
Qed.

End Unescaped.

(** The engine of [lib/template.js] gives, for every template, view and
    set of partials, what the engine of the package gives when every tag of
    the template and of the partials is an unescaped tag. *)
Lemma engine_unescaped (Mustache_parse : string -> result (list token))
    (depth : nat) (template : string) (view : json) (partials : obj) :
  EscapeClaims.Mustache_render Mustache_parse depth template view partials
  = Mustache_render_unescaped Mustache_parse depth template view partials.
Proof.
  unfold EscapeClaims.Mustache_render, Mustache_render_unescaped,
    Mustache.render, unescaped.
  destruct (Mustache_parse template) as [tokens|e]; [|reflexivity].
  cbn [bind]. apply renderTokens_unescaped.
Qed.

(** ** [render] *)

Lemma template_induction (P : Template -> Prop) :
  (forall t,
      Forall P (_oneOf t) -> Forall P (_allOf t) -> Forall P (_anyOf t) ->
      P t) ->
  forall t, P t.
Proof.
  intros H. fix IH 1.
  intros [ti de df td ps pa ta tt dp st sx sh pv oneOf allOf anyOf ct hf ed].
  apply H; cbn [_oneOf _allOf _anyOf].
  - induction oneOf as [|x l IHl]; constructor; [apply IH | exact IHl].
  - induction allOf as [|x l IHl]; constructor; [apply IH | exact IHl].
  - induction anyOf as [|x l IHl]; constructor; [apply IH | exact IHl].
Qed.

Lemma pushEach_same {A B : Type} (f g : A -> result B) (l : list A) :
  Forall (fun x => f x = g x) l ->
  forall out, pushEach f l out = pushEach g l out.
Proof.
  induction 1 as [|x l Hx _ IH]; intros out; [reflexivity|].
  cbn [pushEach]. rewrite Hx. destruct (g x); [apply IH | reflexivity].
Qed.

Lemma pushEachTolerant_same {A B : Type} (f g : A -> result B) (l : list A) :
  Forall (fun x => f x = g x) l ->
  forall out, pushEachTolerant f l out = pushEachTolerant g l out.
Proof.
  induction 1 as [|x l Hx _ IH]; intros out; [reflexivity|].
  cbn [pushEachTolerant]. rewrite Hx. destruct (g x) as [y|e]; [apply IH|].
  destruct (contains "failed validation" (message e)); [apply IH|reflexivity].
Qed.

Fixpoint gather (l : list string) : string :=
  match l with
  | [] => EmptyString
  | x :: rest => x ++ gather rest
  end.

(** A token that is text or a variable tag with a simple name. *)
Definition flatToken (tok : token) : bool :=
  match tok with
  | Token symbol name _ =>
      (symbol =? "text")
      || ((symbol =? "name") && negb (name =? ".")
          && negb (Mustache.dotted name))
  end.

(** The text of a text token; for a variable tag the value of the view
    under its name, converted to a string, and nothing when there is
    none. *)
Definition verbatim (view : obj) (tok : token) : string :=
  match tok with
  | Token symbol name _ =>
      if symbol =? "text" then name
      else Mustache.unescapedValue (get name view)
  end.

Lemma lookup_in_view (name : string) (view : obj) :
  (name =? ".") = false ->
  Mustache.dotted name = false ->
  Mustache.contextLookup name [JObj view] = Ok (get name view).
Proof.
  intros Hdot Hdotted. unfold Mustache.contextLookup. rewrite Hdot.
  cbn [Mustache.lookupName]. rewrite Hdotted. unfold member.
  cbn [is_nullish bind]. unfold Mustache.hasProperty, getv, get.
  cbn [entries_of]. destruct (lookup name view); reflexivity.
Qed.

Lemma renderEach_flat (Mustache_parse : string -> result (list token))
    (partials : obj) (RP : list token -> list json -> result string)
    (view : obj) (tokens : list token) :
  forallb flatToken tokens = true ->
  Mustache.renderEach Mustache_parse Mustache.escape partials RP tokens
    [JObj view]
  = Ok (gather (map (verbatim view) tokens)).
Proof.
  induction tokens as [|[symbol name children] tokens IH]; intros H;
    [reflexivity|].
  cbn [forallb] in H. apply andb_true_iff in H. destruct H as [Hf Hrest].
  cbn [Mustache.renderEach map gather]. rewrite (IH Hrest), renderToken_eq.
  cbv zeta. unfold flatToken in Hf. unfold verbatim.
  destruct (symbol =? "text") eqn:Et.
  - apply String.eqb_eq in Et. subst symbol. reflexivity.
  - cbn [orb] in Hf. apply andb_true_iff in Hf. destruct Hf as [Hf Hdotted].
    apply andb_true_iff in Hf. destruct Hf as [Hn Hdot].
    apply String.eqb_eq in Hn. subst symbol.
    apply negb_true_iff in Hdot, Hdotted.
    cbn [String.eqb Ascii.eqb Bool.eqb].
    rewrite (lookup_in_view _ _ Hdot Hdotted). reflexivity.
Qed.

Section Rendered.

Variable Mustache_parse : string -> result (list token).
Variable JSON_stringify : json -> string.
Variable JSON_stringify2 : json -> string.
Variable yaml_load : string -> result json.
Variable yaml_dump : json -> result string.
Variable mexp_eval : json -> list json -> obj -> result json.
(** The bound on nested partials. *)
Variable depth : nat.

(** [render] with the engine as [lib/template.js] sets it up, and with
    the engine of the package on unescaped tags. *)
Abbreviation rendered :=
  (render (EscapeClaims.Mustache_render Mustache_parse depth) JSON_stringify
     JSON_stringify2 yaml_load yaml_dump mexp_eval).
Abbreviation renderedUnescaped :=
  (render (Mustache_render_unescaped Mustache_parse depth) JSON_stringify
     JSON_stringify2 yaml_load yaml_dump mexp_eval).

Lemma render_unescaped (this : Template) :
  forall parameters skipValidation,
    rendered this parameters skipValidation
    = renderedUnescaped this parameters skipValidation.
Proof.
  induction this as [this Hone Hall Hany] using template_induction.
  intros parameters skipValidation. rewrite !render_eq.
  destruct (if negb skipValidation then _ else _); [|reflexivity].
  cbn [bind].
  destruct (getCombinedParameters mexp_eval this parameters)
    as [combParams|e]; [|reflexivity].
  cbn [bind].
  rewrite (pushEach_same _ (fun tmpl => renderedUnescaped tmpl combParams true)
             (_allOf this))
    by (apply (Forall_impl _ (fun t Ht => Ht combParams true) Hall)).
  destruct (pushEach _ (_allOf this) []) as [t1|e]; [|reflexivity].
  cbn [bind].
  rewrite (pushEachTolerant_same _
             (fun tmpl => renderedUnescaped tmpl combParams true)
             (_anyOf this))
    by (apply (Forall_impl _ (fun t Ht => Ht combParams true) Hany)).
  destruct (pushEachTolerant _ (_anyOf this) t1) as [t2|e]; [|reflexivity].
  cbn [bind].
  rewrite (pushEachTolerant_same _
             (fun tmpl => renderedUnescaped tmpl combParams true)
             (_oneOf this))
    by (apply (Forall_impl _ (fun t Ht => Ht combParams true) Hone)).
  destruct (pushEachTolerant _ (_oneOf this) t2) as [t3|e]; [|reflexivity].
  cbn [bind]. unfold renderRoot. rewrite engine_unescaped. reflexivity.
Qed.

(** [render] of a template without merged-in templates, of a content
    type without strategies, whose text is made of text and simple
    variable tags. *)
Lemma render_flat (this : Template) (parameters : json)
    (skipValidation : bool) (view : obj) (tokens : list token) :
  _oneOf this = [] -> _allOf this = [] -> _anyOf this = [] ->
  RenderProperties.structured (contentType this) = false ->
  (if negb skipValidation
   then validateParameters JSON_stringify2 mexp_eval this parameters
   else Ok tt) = Ok tt ->
  getCombinedParameters mexp_eval this parameters = Ok (JObj view) ->
  uniqueKeys view = true ->
  Mustache_parse (_cleanTemplateText (templateText this)) = Ok tokens ->
  forallb flatToken tokens = true ->
  rendered this parameters skipValidation
  = Ok (gather (map (verbatim view) tokens)).
Proof.
  intros Hone Hall Hany Hs Hv Hc Hu Hp Hflat.
  unfold RenderProperties.structured in Hs. apply orb_false_iff in Hs.
  destruct Hs as [Hj Hy].
  rewrite render_eq, Hv, Hc, Hone, Hall, Hany.
  cbn [bind pushEach pushEachTolerant]. unfold renderRoot.
  rewrite (TransformProperties.transformParameters_plain _ _ _ Hj Hu).
  unfold EscapeClaims.Mustache_render, Mustache.render. rewrite Hp.
  cbn [bind]. rewrite renderTokens_eq, (renderEach_flat _ _ _ _ _ Hflat).
  cbn [bind app mergeTexts]. unfold mergeStrategies, postProcessStrategies.
  rewrite Hj, Hy. reflexivity.
Qed.


End Rendered.

(** ** Examples *)

Definition parseTom (text : string) : result (list token) :=
  if text =? "Hello {{name}}!"
  then Ok [Token "text" "Hello " []; Token "name" "name" [];
           Token "text" "!" []]
  else Ok [Token "text" text []].

Definition noExpression (_ : json) (_ : list json) (_ : obj) : result json :=
  Throw (External "no expression expected").

Definition notLoaded (_ : string) : result json :=
  Throw (External "nothing to load").

Definition notDumped (_ : json) : result string :=
  Throw (External "nothing to dump").

Definition hello : Template := set_templateText "Hello {{name}}!" newTemplate.

Definition tom : json := JObj [("name", JStr "<Tom & Jerry>")].


(** The value with its angle brackets and its ampersand in the output; the
    engine of the package would have written the entities. *)
Example tom_and_jerry :
  render (EscapeClaims.Mustache_render parseTom 8) JsonText.stringify
    JsonText.stringify2 notLoaded notDumped noExpression hello tom true
  = Ok "Hello <Tom & Jerry>!"
  /\ Mustache.render parseTom Mustache.escapeHtml [] 8 "Hello {{name}}!" tom
     = Ok "Hello &lt;Tom &amp; Jerry&gt;!".
Proof. split; vm_compute; reflexivity. Qed.

(** A template of content type [application/json] whose text is
    [{"m": {{msg::text}}}]: the tag gives [msg] the format [text]. *)
Definition messageText : string := "{" ++ dq ++ "m" ++ dq ++ ": {{msg::text}}}".

Definition messageTemplate : Template :=
  {| title := JStr EmptyString;
     description := JStr EmptyString;
     definitions := [];
     _typeDefinitions := [];
     _parametersSchema :=
       JObj [("type", JStr "object");
             ("properties",
              JObj [("msg", JObj [("type", JStr "string");
                                  ("format", JStr "text")])]);
             ("required", JArr [JStr "msg"])];
     _partials := [];
     target := JStr "as3";
     templateText := messageText;
     defaultParameters := JObj [];
     sourceType := "UNKNOWN";
     sourceText := EmptyString;
     sourceHash := EmptyString;
     _parametersValidator := None;
     _oneOf := [];
     _allOf := [];
     _anyOf := [];
     contentType := "application/json";
     httpForward := JNull;
     _explicitDeps := [] |}.

(** The value [say "hi"], and its JSON text ["say \"hi\""]. *)
Definition quoted : string := "say " ++ dq ++ "hi" ++ dq.

Definition quotedJson : string :=
  dq ++ "say " ++ JsonText.backslash ++ dq ++ "hi" ++ JsonText.backslash ++ dq
     ++ dq.

(** [Mustache.parse] on the cleaned text, and [yaml.load] on what the
    engine writes for it. *)
Definition parseMessage (text : string) : result (list token) :=
  if text =? "{" ++ dq ++ "m" ++ dq ++ ": {{msg}}}"
  then Ok [Token "text" ("{" ++ dq ++ "m" ++ dq ++ ": ") [];
           Token "name" "msg" []; Token "text" "}" []]
  else Ok [Token "text" text []].

Definition loadMessage (text : string) : result json :=
  if text =? "{" ++ dq ++ "m" ++ dq ++ ": " ++ quotedJson ++ "}"
  then Ok (JObj [("m", JStr quoted)])
  else Throw (External "not a text of the example").


End Escaping.
